(** * Conversation/message state reconciliation of the mobile chat client

  A shallow embedding of the state-handling code of the client:

  - [Js]: the few JavaScript value conventions the handlers rely on
    (nullish values, truthiness of numbers, [x || 0], [parseInt]);
  - [Api]: the two interceptors of the HTTP client;
  - [HomeScreen]: the conversation list screen (conversation records,
    the [setConversations] updaters, the socket listeners, the pulls, the
    debounced silent sync and typing refresh, the mount and focus
    effects), with the event loop pieces it touches (timers, pending
    requests, storage, router, console);
  - [HomeTyping]: the typing map of the list screen and what a row shows;
  - [SocketService]: the socket wrapper with its [isConnected] gate;
  - [ChatScreen], [ChatActions]: the message list of an open
    conversation, its listeners, its focus effect and its actions.

  Component state that the source keeps in [useState] cells is threaded
  explicitly, and so is what a function of the component body can see of
  it. Every render creates the functions of the body anew, and a function
  reads the cells as its render saw them: a listener, a timer callback or
  a continuation after an [await] carries the render it was created in
  ([Render]), and tests against that render's values, while the updaters
  it passes to a setter ([prev => ...]) work on the cell as it is when
  they run. Refs ([useRef]) and setters are shared by all renders.
  Time is counted in milliseconds; an [await] splits a function into the
  part before it and the part run when the pull has ended. *)

From stdpp Require Import gmap strings list pretty.

Open Scope Z_scope.

(** ** JavaScript conventions *)

Module Js.

(** A value that may be [undefined] or [null]. *)
Inductive nullable (A : Type) : Type :=
| undefined : nullable A
| null : nullable A
| val (a : A) : nullable A.
Arguments undefined {A}.
Arguments null {A}.
Arguments val {A} a.

#[global] Instance nullable_eq_dec {A} `{EqDecision A} : EqDecision (nullable A).
Proof. solve_decision. Defined.

(** [a === b] on values of one primitive type. *)
Definition strict_eq {A} `{EqDecision A} (a b : A) : bool := bool_decide (a = b).

(** [x ?? d] *)
Definition coalesce {A} (x : nullable A) (d : A) : A :=
  match x with
  | val a => a
  | _ => d
  end.

(** Truthiness of a number: every integer but [0]. *)
Definition truthy_num (n : Z) : bool := negb (n =? 0).

(** Truthiness of a string: every string but the empty one. *)
Definition truthy_str (s : string) : bool := negb (bool_decide (s = ""%string)).

(** [n || 0] on a number. *)
Definition num_or_zero (n : Z) : Z := if truthy_num n then n else 0.

(** [s || d] on strings. *)
Definition str_or (s d : string) : string := if truthy_str s then s else d.

End Js.

Import Js.

(** ** The local session *)

Module Session.

(** The user object the screens read from storage into [currentUser]. *)
Record User : Type := mkUser { user_id : Z }.

(** [currentUser?.id] *)
Definition currentUserId (currentUser : option User) : nullable Z :=
  match currentUser with
  | Some u => val (user_id u)
  | None => undefined
  end.

End Session.

Import Session.

(** ** The HTTP client *)

Module Api.

(** The request interceptor: the [Authorization] header it adds, given
    what storage holds. *)
Definition authorizationHeader (storage : gmap string string) : option string :=
  match storage !! "authToken"%string with
  | Some token => if truthy_str token then Some ("Bearer " +:+ token)%string else None
  | None => None
  end.

(** The response interceptor, on an error with [error.response?.status]:
    storage after it, before the error is passed on. *)
Definition onResponseError (status : option Z) (storage : gmap string string)
  : gmap string string :=
  if strict_eq status (Some 401)
  then delete "user"%string (delete "authToken"%string storage)
  else storage.

End Api.

(** ** The conversation list screen *)

Module HomeScreen.

(** What the server may put in [unread_count]: a string, a number, or
    nothing. *)
Inductive RawCount : Type :=
| CountString (s : string)
| CountNumber (n : Z)
| CountAbsent.

(** [interface Conversation], with the type of [unread_count] left open:
    it is a number in the component state and a [RawCount] in a server
    response. *)
Record ConversationOf (N : Type) : Type := mkConversation {
  conversation_id : Z;
  other_user_id : Z;
  other_user_name : string;
  other_user_email : string;
  other_user_avatar : string;
  other_user_online : bool;
  other_user_last_seen : string;
  last_message : nullable string;
  last_message_time : string;
  last_message_sender_id : Z;
  unread_count : N;
  other_user_typing : option bool
}.
Arguments mkConversation {N}.
Arguments conversation_id {N}.
Arguments other_user_id {N}.
Arguments other_user_name {N}.
Arguments other_user_email {N}.
Arguments other_user_avatar {N}.
Arguments other_user_online {N}.
Arguments other_user_last_seen {N}.
Arguments last_message {N}.
Arguments last_message_time {N}.
Arguments last_message_sender_id {N}.
Arguments unread_count {N}.
Arguments other_user_typing {N}.

Abbreviation Conversation := (ConversationOf Z).
Abbreviation ServerConversation := (ConversationOf RawCount).

(** The payload of a [message:new] event. *)
Record NewMessage : Type := mkNewMessage {
  id : nullable Z;
  conversationId : Z;
  sender_id : Z;
  created_at : string;
  content : nullable string
}.

(** The payload of [message:read], [conversation_opened] and the custom
    [conversation_opened] event. *)
Record ReadData : Type := mkReadData {
  rd_conversationId : Z;
  rd_userId : nullable Z
}.

(** [{ ...conv, unread_count: n }] *)
Definition set_unread_count {N M} (n : M) (conv : ConversationOf N) : ConversationOf M :=
  {| conversation_id := conversation_id conv;
     other_user_id := other_user_id conv;
     other_user_name := other_user_name conv;
     other_user_email := other_user_email conv;
     other_user_avatar := other_user_avatar conv;
     other_user_online := other_user_online conv;
     other_user_last_seen := other_user_last_seen conv;
     last_message := last_message conv;
     last_message_time := last_message_time conv;
     last_message_sender_id := last_message_sender_id conv;
     unread_count := n;
     other_user_typing := other_user_typing conv |}.

(** [prev.find(c => c.conversation_id === cid)] *)
Definition findConversation {N} (cid : Z) (l : list (ConversationOf N))
  : option (ConversationOf N) :=
  List.find (fun c => strict_eq (conversation_id c) cid) l.

Section Updaters.

(** [parseInt] on a string; [None] is [NaN]. *)
Variable parseInt : string -> option Z.

(** [typeof c === 'string' ? parseInt(c) || 0 : c || 0] *)
Definition normalizeUnread (c : RawCount) : Z :=
  match c with
  | CountString s =>
      match parseInt s with
      | Some n => num_or_zero n
      | None => 0
      end
  | CountNumber n => num_or_zero n
  | CountAbsent => 0
  end.

(** [{ ...conv, unread_count: typeof ... }] of [loadConversations],
    [updateConversationsSilently] and [checkAndAddNewConversation]. *)
Definition processConversation (conv : ServerConversation) : Conversation :=
  set_unread_count (normalizeUnread (unread_count conv)) conv.

Definition processConversations (l : list ServerConversation) : list Conversation :=
  map processConversation l.

End Updaters.

(** The updater of [updateConversationWithNewMessage]. The unread count
    held in the component state is a number, so the [typeof ... ===
    'string'] branch of the source is the [num_or_zero] one. *)
Definition updateConversationWithNewMessage
    (currentUser : option User) (message : NewMessage)
    (prev : list Conversation) : list Conversation :=
  map (fun conv =>
    if strict_eq (conversation_id conv) (conversationId message) then
      let currentUnreadCount := num_or_zero (unread_count conv) in
      let newUnreadCount :=
        if negb (strict_eq (val (sender_id message)) (currentUserId currentUser))
        then currentUnreadCount + 1 else currentUnreadCount in
      {| conversation_id := conversation_id conv;
         other_user_id := other_user_id conv;
         other_user_name := other_user_name conv;
         other_user_email := other_user_email conv;
         other_user_avatar := other_user_avatar conv;
         other_user_online := other_user_online conv;
         other_user_last_seen := other_user_last_seen conv;
         last_message := content message;
         last_message_time := created_at message;
         last_message_sender_id := sender_id message;
         unread_count := newUnreadCount;
         other_user_typing := other_user_typing conv |}
    else conv) prev.

(** The updater of [clearUnreadCountForConversation]. *)
Definition clearUnreadCountForConversation
    (cid : Z) (prev : list Conversation) : list Conversation :=
  map (fun conv =>
    if strict_eq (conversation_id conv) cid
    then set_unread_count 0 conv else conv) prev.

(** The updater of [updateUserOnlineStatus]. *)
Definition updateUserOnlineStatus
    (userId : Z) (isOnline : bool) (prev : list Conversation) : list Conversation :=
  map (fun conv =>
    if strict_eq (other_user_id conv) userId then
      {| conversation_id := conversation_id conv;
         other_user_id := other_user_id conv;
         other_user_name := other_user_name conv;
         other_user_email := other_user_email conv;
         other_user_avatar := other_user_avatar conv;
         other_user_online := isOnline;
         other_user_last_seen := other_user_last_seen conv;
         last_message := last_message conv;
         last_message_time := last_message_time conv;
         last_message_sender_id := last_message_sender_id conv;
         unread_count := unread_count conv;
         other_user_typing := other_user_typing conv |}
    else conv) prev.

(** The freshness test [shouldPreserveUnreadCount]. *)
Definition shouldPreserveUnreadCount (existingConv newConv : Conversation) : bool :=
  strict_eq (last_message_time existingConv) (last_message_time newConv)
  && strict_eq (last_message existingConv) (last_message newConv)
  && strict_eq (last_message_sender_id existingConv) (last_message_sender_id newConv).

(** The merge of one snapshot entry with the local entry of the same id. *)
Definition mergeConversation (existingConv newConv : Conversation) : Conversation :=
  let finalUnreadCount :=
    if shouldPreserveUnreadCount existingConv newConv
       && (unread_count newConv <? unread_count existingConv)
    then unread_count existingConv
    else unread_count newConv in
  {| conversation_id := conversation_id newConv;
     other_user_id := other_user_id newConv;
     other_user_name := other_user_name newConv;
     other_user_email := other_user_email newConv;
     other_user_avatar := other_user_avatar newConv;
     other_user_online := other_user_online newConv;
     other_user_last_seen := other_user_last_seen newConv;
     last_message := last_message newConv;
     last_message_time := last_message_time newConv;
     last_message_sender_id := last_message_sender_id newConv;
     unread_count := finalUnreadCount;
     other_user_typing := other_user_typing existingConv |}.

(** The updater of [updateConversationsSilently]:
    [prev => processedConversations.map(newConv => ...)]. *)
Definition mergeSnapshot
    (processedConversations prev : list Conversation) : list Conversation :=
  map (fun newConv =>
    match findConversation (conversation_id newConv) prev with
    | Some existingConv => mergeConversation existingConv newConv
    | None => newConv
    end) processedConversations.

(** The updater of [refreshUserStatus]: only presence is taken from the
    response. *)
Definition mergePresence
    (response : list ServerConversation) (prev : list Conversation)
  : list Conversation :=
  map (fun conv =>
    match findConversation (conversation_id conv) response with
    | Some updatedUser =>
        {| conversation_id := conversation_id conv;
           other_user_id := other_user_id conv;
           other_user_name := other_user_name conv;
           other_user_email := other_user_email conv;
           other_user_avatar := other_user_avatar conv;
           other_user_online := other_user_online updatedUser;
           other_user_last_seen :=
             str_or (other_user_last_seen updatedUser) (other_user_last_seen conv);
           last_message := last_message conv;
           last_message_time := last_message_time conv;
           last_message_sender_id := last_message_sender_id conv;
           unread_count := unread_count conv;
           other_user_typing := other_user_typing conv |}
    | None => conv
    end) prev.

(** The updater of [checkAndAddNewConversation]. *)
Definition addNewConversation
    (cid : Z) (processedConversation : Conversation) (prev : list Conversation)
  : list Conversation :=
  if existsb (fun conv => strict_eq (conversation_id conv) cid) prev
  then prev
  else processedConversation :: prev.

(** *** Renders and what closes over them *)

(** The [useState] cells a function of the component body reads, as one
    render holds them. *)
Record Render : Type := mkRender {
  r_conversations : list Conversation;
  r_currentUser : option User;
  r_isRefreshingTyping : bool;
  r_isUpdatingConversations : bool;
  r_lastMessageUpdate : Z
}.

(** The first render: the initial values passed to [useState]. *)
Definition firstRender : Render := mkRender [] None false false 0.

(** *** Component state and the event loop around it *)

(** A callback registered with [setTimeout], with the render whose
    function it calls. *)
Inductive Task : Type :=
| SyncTask                              (* the debounced body of [updateConversationsSilently] *)
| FollowUpTask (r : Render) (now : Z)   (* the one second follow-up of the [message:new] listener *)
| RefreshTask (r : Render)              (* the debounced body of [refreshTypingStatus] *)
| ResetTask                             (* [setIsRefreshingTyping(false)], one second later *)
| FocusSyncTask (r : Render)            (* [updateConversationsSilently()], 100 ms after focus *)
| FocusTypingTask (r : Render).         (* [refreshTypingStatus()], 500 ms after focus *)

Record Timer : Type := mkTimer {
  timer_id : nat;
  timer_due : Z;
  timer_task : Task
}.

(** Who awaits [loadConversations()]: the mount effect, which goes on to
    set the listeners and the intervals up, or [onRefresh]. *)
Inductive Caller : Type :=
| FromMount (r : Render)
| FromRefresh.

(** A [conversationsAPI.getAll()] call that has not returned yet, tagged
    with the function awaiting it. *)
Inductive Request : Type :=
| ReqLoad (caller : Caller)                        (* [loadConversations] *)
| ReqStatus                                        (* [refreshUserStatus] *)
| ReqSync                                          (* [updateConversationsSilently] *)
| ReqNewConversation (r : Render) (message : NewMessage).  (* [checkAndAddNewConversation] *)

(** How a pull ends: the promise resolves with [response.success] and
    [response.conversations], or rejects with [error.response?.status]. *)
Inductive PullOutcome : Type :=
| Resolved (success : bool) (conversations : list ServerConversation)
| Rejected (status : option Z).

(** Console lines of the guards and of the [catch] blocks (progress lines
    are not recorded). *)
Inductive LogLine : Type :=
| LogUpdateInProgress              (* 'Conversation update already in progress, skipping...' *)
| LogRefreshInProgress             (* 'Typing status refresh already in progress, skipping...' *)
| LogDuplicateMessage (key : string) (* 'Skipping duplicate message for unread increment:' *)
| LogIgnoredRead (d : ReadData)    (* 'Ignoring message read event - not for current user' *)
| LogIgnoredOpened (d : ReadData)  (* 'Ignoring conversation opened event - not for current user' *)
| ErrFetching                      (* 'Error fetching conversations:' of the API wrapper *)
| ErrLoading                       (* 'Error loading conversations:' *)
| ErrRefreshingStatus              (* 'Error refreshing user status:' *)
| ErrSilentUpdate                  (* 'Error silently updating conversations:' *)
| ErrCheckingNew                   (* 'Error checking/adding new conversation:' *)
| ErrCheckingAuth.                 (* 'Error checking auth:' *)

Record State : Type := mkState {
  (* useState cells *)
  conversations : list Conversation;
  loading : bool;
  refreshing : bool;
  currentUser : option User;
  isRefreshingTyping : bool;
  isUpdatingConversations : bool;
  lastMessageUpdate : Z;
  (* useRef cells *)
  processedMessageKeys : gset string;
  updateTimeoutRef : option nat;
  typingTimeoutRef : option nat;
  (* the focus effect: the render of the memoised callback, the focus *)
  focusRender : Render;
  focused : bool;
  (* the listeners on the socket, oldest first, each by its render:
     the ones on ['conversation_opened'] and the ones on the other events *)
  listeners : list Render;
  openedListeners : list Render;
  (* the render of the two [setInterval] callbacks, once they are set *)
  intervals : option Render;
  (* the runtime *)
  clock : Z;                      (* [Date.now()] *)
  timers : list Timer;            (* live timeouts, oldest first *)
  nextTimer : nat;
  pending : list Request;         (* pulls in flight *)
  pulls : nat;                    (* [getAll()] calls made so far *)
  storage : gmap string string;   (* AsyncStorage *)
  route : string;
  console : list LogLine
}.

Definition set_conversations (v : list Conversation) (s : State) : State :=
  mkState v (loading s) (refreshing s) (currentUser s) (isRefreshingTyping s)
    (isUpdatingConversations s) (lastMessageUpdate s) (processedMessageKeys s)
    (updateTimeoutRef s) (typingTimeoutRef s) (focusRender s) (focused s) (listeners s)
    (openedListeners s) (intervals s) (clock s) (timers s) (nextTimer s) (pending s)
    (pulls s) (storage s) (route s) (console s).

Definition set_loading (v : bool) (s : State) : State :=
  mkState (conversations s) v (refreshing s) (currentUser s) (isRefreshingTyping s)
    (isUpdatingConversations s) (lastMessageUpdate s) (processedMessageKeys s)
    (updateTimeoutRef s) (typingTimeoutRef s) (focusRender s) (focused s) (listeners s)
    (openedListeners s) (intervals s) (clock s) (timers s) (nextTimer s) (pending s)
    (pulls s) (storage s) (route s) (console s).

Definition set_refreshing (v : bool) (s : State) : State :=
  mkState (conversations s) (loading s) v (currentUser s) (isRefreshingTyping s)
    (isUpdatingConversations s) (lastMessageUpdate s) (processedMessageKeys s)
    (updateTimeoutRef s) (typingTimeoutRef s) (focusRender s) (focused s) (listeners s)
    (openedListeners s) (intervals s) (clock s) (timers s) (nextTimer s) (pending s)
    (pulls s) (storage s) (route s) (console s).

Definition set_currentUser (v : option User) (s : State) : State :=
  mkState (conversations s) (loading s) (refreshing s) v (isRefreshingTyping s)
    (isUpdatingConversations s) (lastMessageUpdate s) (processedMessageKeys s)
    (updateTimeoutRef s) (typingTimeoutRef s) (focusRender s) (focused s) (listeners s)
    (openedListeners s) (intervals s) (clock s) (timers s) (nextTimer s) (pending s)
    (pulls s) (storage s) (route s) (console s).

Definition set_isRefreshingTyping (v : bool) (s : State) : State :=
  mkState (conversations s) (loading s) (refreshing s) (currentUser s) v
    (isUpdatingConversations s) (lastMessageUpdate s) (processedMessageKeys s)
    (updateTimeoutRef s) (typingTimeoutRef s) (focusRender s) (focused s) (listeners s)
    (openedListeners s) (intervals s) (clock s) (timers s) (nextTimer s) (pending s)
    (pulls s) (storage s) (route s) (console s).

Definition set_isUpdatingConversations (v : bool) (s : State) : State :=
  mkState (conversations s) (loading s) (refreshing s) (currentUser s)
    (isRefreshingTyping s) v (lastMessageUpdate s) (processedMessageKeys s)
    (updateTimeoutRef s) (typingTimeoutRef s) (focusRender s) (focused s) (listeners s)
    (openedListeners s) (intervals s) (clock s) (timers s) (nextTimer s) (pending s)
    (pulls s) (storage s) (route s) (console s).

Definition set_lastMessageUpdate (v : Z) (s : State) : State :=
  mkState (conversations s) (loading s) (refreshing s) (currentUser s)
    (isRefreshingTyping s) (isUpdatingConversations s) v (processedMessageKeys s)
    (updateTimeoutRef s) (typingTimeoutRef s) (focusRender s) (focused s) (listeners s)
    (openedListeners s) (intervals s) (clock s) (timers s) (nextTimer s) (pending s)
    (pulls s) (storage s) (route s) (console s).

Definition set_processedMessageKeys (v : gset string) (s : State) : State :=
  mkState (conversations s) (loading s) (refreshing s) (currentUser s)
    (isRefreshingTyping s) (isUpdatingConversations s) (lastMessageUpdate s) v
    (updateTimeoutRef s) (typingTimeoutRef s) (focusRender s) (focused s) (listeners s)
    (openedListeners s) (intervals s) (clock s) (timers s) (nextTimer s) (pending s)
    (pulls s) (storage s) (route s) (console s).

Definition set_updateTimeoutRef (v : option nat) (s : State) : State :=
  mkState (conversations s) (loading s) (refreshing s) (currentUser s)
    (isRefreshingTyping s) (isUpdatingConversations s) (lastMessageUpdate s)
    (processedMessageKeys s) v (typingTimeoutRef s) (focusRender s) (focused s)
    (listeners s) (openedListeners s) (intervals s) (clock s) (timers s) (nextTimer s)
    (pending s) (pulls s) (storage s) (route s) (console s).

Definition set_typingTimeoutRef (v : option nat) (s : State) : State :=
  mkState (conversations s) (loading s) (refreshing s) (currentUser s)
    (isRefreshingTyping s) (isUpdatingConversations s) (lastMessageUpdate s)
    (processedMessageKeys s) (updateTimeoutRef s) v (focusRender s) (focused s)
    (listeners s) (openedListeners s) (intervals s) (clock s) (timers s) (nextTimer s)
    (pending s) (pulls s) (storage s) (route s) (console s).

Definition set_focusRender (v : Render) (s : State) : State :=
  mkState (conversations s) (loading s) (refreshing s) (currentUser s)
    (isRefreshingTyping s) (isUpdatingConversations s) (lastMessageUpdate s)
    (processedMessageKeys s) (updateTimeoutRef s) (typingTimeoutRef s) v (focused s)
    (listeners s) (openedListeners s) (intervals s) (clock s) (timers s) (nextTimer s)
    (pending s) (pulls s) (storage s) (route s) (console s).

Definition set_focused (v : bool) (s : State) : State :=
  mkState (conversations s) (loading s) (refreshing s) (currentUser s)
    (isRefreshingTyping s) (isUpdatingConversations s) (lastMessageUpdate s)
    (processedMessageKeys s) (updateTimeoutRef s) (typingTimeoutRef s) (focusRender s) v
    (listeners s) (openedListeners s) (intervals s) (clock s) (timers s) (nextTimer s)
    (pending s) (pulls s) (storage s) (route s) (console s).

Definition set_listeners (v : list Render) (s : State) : State :=
  mkState (conversations s) (loading s) (refreshing s) (currentUser s)
    (isRefreshingTyping s) (isUpdatingConversations s) (lastMessageUpdate s)
    (processedMessageKeys s) (updateTimeoutRef s) (typingTimeoutRef s) (focusRender s)
    (focused s) v (openedListeners s) (intervals s) (clock s) (timers s) (nextTimer s)
    (pending s) (pulls s) (storage s) (route s) (console s).

Definition set_openedListeners (v : list Render) (s : State) : State :=
  mkState (conversations s) (loading s) (refreshing s) (currentUser s)
    (isRefreshingTyping s) (isUpdatingConversations s) (lastMessageUpdate s)
    (processedMessageKeys s) (updateTimeoutRef s) (typingTimeoutRef s) (focusRender s)
    (focused s) (listeners s) v (intervals s) (clock s) (timers s) (nextTimer s) (pending s)
    (pulls s) (storage s) (route s) (console s).

Definition set_intervals (v : option Render) (s : State) : State :=
  mkState (conversations s) (loading s) (refreshing s) (currentUser s)
    (isRefreshingTyping s) (isUpdatingConversations s) (lastMessageUpdate s)
    (processedMessageKeys s) (updateTimeoutRef s) (typingTimeoutRef s) (focusRender s)
    (focused s) (listeners s) (openedListeners s) v (clock s) (timers s) (nextTimer s)
    (pending s) (pulls s) (storage s) (route s) (console s).

Definition set_clock (v : Z) (s : State) : State :=
  mkState (conversations s) (loading s) (refreshing s) (currentUser s)
    (isRefreshingTyping s) (isUpdatingConversations s) (lastMessageUpdate s)
    (processedMessageKeys s) (updateTimeoutRef s) (typingTimeoutRef s) (focusRender s)
    (focused s) (listeners s) (openedListeners s) (intervals s) v (timers s) (nextTimer s)
    (pending s) (pulls s) (storage s) (route s) (console s).

Definition set_timers (v : list Timer) (s : State) : State :=
  mkState (conversations s) (loading s) (refreshing s) (currentUser s)
    (isRefreshingTyping s) (isUpdatingConversations s) (lastMessageUpdate s)
    (processedMessageKeys s) (updateTimeoutRef s) (typingTimeoutRef s) (focusRender s)
    (focused s) (listeners s) (openedListeners s) (intervals s) (clock s) v (nextTimer s)
    (pending s) (pulls s) (storage s) (route s) (console s).

Definition set_nextTimer (v : nat) (s : State) : State :=
  mkState (conversations s) (loading s) (refreshing s) (currentUser s)
    (isRefreshingTyping s) (isUpdatingConversations s) (lastMessageUpdate s)
    (processedMessageKeys s) (updateTimeoutRef s) (typingTimeoutRef s) (focusRender s)
    (focused s) (listeners s) (openedListeners s) (intervals s) (clock s) (timers s) v
    (pending s) (pulls s) (storage s) (route s) (console s).

Definition set_pending (v : list Request) (s : State) : State :=
  mkState (conversations s) (loading s) (refreshing s) (currentUser s)
    (isRefreshingTyping s) (isUpdatingConversations s) (lastMessageUpdate s)
    (processedMessageKeys s) (updateTimeoutRef s) (typingTimeoutRef s) (focusRender s)
    (focused s) (listeners s) (openedListeners s) (intervals s) (clock s) (timers s)
    (nextTimer s) v (pulls s) (storage s) (route s) (console s).

Definition set_pulls (v : nat) (s : State) : State :=
  mkState (conversations s) (loading s) (refreshing s) (currentUser s)
    (isRefreshingTyping s) (isUpdatingConversations s) (lastMessageUpdate s)
    (processedMessageKeys s) (updateTimeoutRef s) (typingTimeoutRef s) (focusRender s)
    (focused s) (listeners s) (openedListeners s) (intervals s) (clock s) (timers s)
    (nextTimer s) (pending s) v (storage s) (route s) (console s).

Definition set_storage (v : gmap string string) (s : State) : State :=
  mkState (conversations s) (loading s) (refreshing s) (currentUser s)
    (isRefreshingTyping s) (isUpdatingConversations s) (lastMessageUpdate s)
    (processedMessageKeys s) (updateTimeoutRef s) (typingTimeoutRef s) (focusRender s)
    (focused s) (listeners s) (openedListeners s) (intervals s) (clock s) (timers s)
    (nextTimer s) (pending s) (pulls s) v (route s) (console s).

Definition set_route (v : string) (s : State) : State :=
  mkState (conversations s) (loading s) (refreshing s) (currentUser s)
    (isRefreshingTyping s) (isUpdatingConversations s) (lastMessageUpdate s)
    (processedMessageKeys s) (updateTimeoutRef s) (typingTimeoutRef s) (focusRender s)
    (focused s) (listeners s) (openedListeners s) (intervals s) (clock s) (timers s)
    (nextTimer s) (pending s) (pulls s) (storage s) v (console s).

Definition set_console (v : list LogLine) (s : State) : State :=
  mkState (conversations s) (loading s) (refreshing s) (currentUser s)
    (isRefreshingTyping s) (isUpdatingConversations s) (lastMessageUpdate s)
    (processedMessageKeys s) (updateTimeoutRef s) (typingTimeoutRef s) (focusRender s)
    (focused s) (listeners s) (openedListeners s) (intervals s) (clock s) (timers s)
    (nextTimer s) (pending s) (pulls s) (storage s) (route s) v.

(** What a render that happens in state [s] holds. *)
Definition capture (s : State) : Render :=
  mkRender (conversations s) (currentUser s) (isRefreshingTyping s)
    (isUpdatingConversations s) (lastMessageUpdate s).

(** The component before its mount effect has run. *)
Definition initial (now : Z) (stored : gmap string string) : State :=
  mkState [] true false None false false 0 ∅ None None firstRender true [] [] None
    now [] 0 [] 0 stored "/" [].

(** [console.log] / [console.error] *)
Definition log (l : LogLine) (s : State) : State :=
  set_console (console s ++ [l]) s.

(** [setTimeout(task, delay)]: the handle and the state after. *)
Definition setTimeout (task : Task) (delay : Z) (s : State) : nat * State :=
  let t := nextTimer s in
  (t, set_nextTimer (S t) (set_timers (timers s ++ [mkTimer t (clock s + delay) task]) s)).

(** [clearTimeout(t)]: nothing happens when [t] is not live any more. *)
Definition clearTimeout (t : nat) (s : State) : State :=
  set_timers (filter (fun x => timer_id x <> t) (timers s)) s.

(** [if (ref.current) clearTimeout(ref.current)] *)
Definition clearRef (ref : option nat) (s : State) : State :=
  match ref with
  | Some t => clearTimeout t s
  | None => s
  end.

(** [conversationsAPI.getAll()] up to its [await]. *)
Definition getAll (r : Request) (s : State) : State :=
  set_pulls (S (pulls s)) (set_pending (pending s ++ [r]) s).

(** The session teardown of the [401] branches. *)
Definition forceLogout (s : State) : State :=
  set_route "/login"
    (set_storage (delete "user"%string (delete "authToken"%string (storage s))) s).

(** [setupSocketListeners()] of render [r]: one more listener on every
    event; ['conversation_opened'] gets two, the one of
    [onConversationOpened] and the one of [onCustomEvent]. The service
    holds a socket from the mount effect on. *)
Definition setupSocketListeners (r : Render) (s : State) : State :=
  set_openedListeners (openedListeners s ++ [r; r]) (set_listeners (listeners s ++ [r]) s).

(** [socketService.removeCustomEventListener('conversation_opened')]:
    [socket.off] with the event name alone. *)
Definition removeCustomEventListener (s : State) : State :=
  set_openedListeners [] s.

(** [socketService.removeAllListeners()] *)
Definition removeAllListeners (s : State) : State :=
  set_openedListeners [] (set_listeners [] s).

(** [updateConversationsSilently()] of render [r]: the guard and the
    debounce. *)
Definition updateConversationsSilently (r : Render) (s : State) : State :=
  if r_isUpdatingConversations r then log LogUpdateInProgress s
  else
    let s1 := clearRef (updateTimeoutRef s) s in
    let '(t, s2) := setTimeout SyncTask 500 s1 in
    set_updateTimeoutRef (Some t) s2.

(** [refreshTypingStatus()] of render [r]: the guard and the debounce. *)
Definition refreshTypingStatus (r : Render) (s : State) : State :=
  if r_isRefreshingTyping r then log LogRefreshInProgress s
  else
    let s1 := clearRef (typingTimeoutRef s) s in
    let '(t, s2) := setTimeout (RefreshTask r) 300 s1 in
    set_typingTimeoutRef (Some t) s2.

(** [loadConversations()] up to its [await]. *)
Definition loadConversations (caller : Caller) (s : State) : State :=
  getAll (ReqLoad caller) (set_loading true s).

(** [refreshUserStatus()] up to its [await]. *)
Definition refreshUserStatus (s : State) : State :=
  getAll ReqStatus s.

(** [onRefresh()] up to its [await]. *)
Definition onRefresh (s : State) : State :=
  loadConversations FromRefresh (set_refreshing true s).

(** [checkAndAddNewConversation(message)] of render [r] up to its
    [await]: the list it searches is the one of its render. *)
Definition checkAndAddNewConversation (r : Render) (message : NewMessage) (s : State)
  : State :=
  match findConversation (conversationId message) (r_conversations r) with
  | None => getAll (ReqNewConversation r message) s
  | Some _ => s
  end.

(** The key of the [message:new] listener:
    [`${id ?? ''}|${conversationId}|${sender_id}|${created_at}|${content ?? ''}`]. *)
Definition messageKey (message : NewMessage) : string :=
  (match id message with val n => pretty n | _ => "" end)
  +:+ "|" +:+ pretty (conversationId message)
  +:+ "|" +:+ pretty (sender_id message)
  +:+ "|" +:+ created_at message
  +:+ "|" +:+ coalesce (content message) "".

(** The [message:new] listener of render [r]. *)
Definition onNewMessage (r : Render) (message : NewMessage) (s : State) : State :=
  if truthy_num (conversationId message) then
    let key := messageKey message in
    if bool_decide (key ∈ processedMessageKeys s) then
      log (LogDuplicateMessage key) s
    else
      let s1 := set_processedMessageKeys ({[key]} ∪ processedMessageKeys s) s in
      let s2 := set_conversations
                  (updateConversationWithNewMessage (r_currentUser r) message
                     (conversations s1)) s1 in
      let s3 := checkAndAddNewConversation r message s2 in
      let now := clock s3 in
      let s4 := set_lastMessageUpdate now s3 in
      snd (setTimeout (FollowUpTask r now) 1000 s4)
  else s.

(** The [message:read] listener of render [r]. *)
Definition onMessageRead (r : Render) (data : ReadData) (s : State) : State :=
  if truthy_num (rd_conversationId data)
     && strict_eq (rd_userId data) (currentUserId (r_currentUser r))
  then set_conversations
         (clearUnreadCountForConversation (rd_conversationId data) (conversations s)) s
  else log (LogIgnoredRead data) s.

(** A ['conversation_opened'] listener of render [r]; the one registered
    through [onConversationOpened] and the one registered through
    [onCustomEvent] have the same body. *)
Definition onConversationOpened (r : Render) (data : ReadData) (s : State) : State :=
  if truthy_num (rd_conversationId data)
     && strict_eq (rd_userId data) (currentUserId (r_currentUser r))
  then set_conversations
         (clearUnreadCountForConversation (rd_conversationId data) (conversations s)) s
  else log (LogIgnoredOpened data) s.

(** The [conversations_updated] listener of render [r]. *)
Definition onConversationsUpdated (r : Render) (userId : nullable Z) (s : State) : State :=
  if strict_eq userId (currentUserId (r_currentUser r))
  then updateConversationsSilently r s else s.

(** The [user_status_change] listener, for a payload whose [isOnline] is a
    boolean. *)
Definition onUserStatusChange (userId : Z) (isOnline : bool) (s : State) : State :=
  if truthy_num userId
  then set_conversations (updateUserOnlineStatus userId isOnline (conversations s)) s
  else s.

(** What the server pushes and a listener of the screen writes the list
    or the sync for. *)
Inductive SocketEvent : Type :=
| MessageNew (message : NewMessage)
| MessageRead (data : ReadData)
| ConversationOpened (data : ReadData)
| ConversationsUpdated (userId : nullable Z)
| UserStatusChange (userId : Z) (isOnline : bool).

(** The listener that [setupSocketListeners] of render [r] registers for
    the event. *)
Definition listen (e : SocketEvent) (s : State) (r : Render) : State :=
  match e with
  | MessageNew m => onNewMessage r m s
  | MessageRead d => onMessageRead r d s
  | ConversationOpened d => onConversationOpened r d s
  | ConversationsUpdated u => onConversationsUpdated r u s
  | UserStatusChange u b => onUserStatusChange u b s
  end.

(** The socket emits the event: the listeners registered for it run, in
    the order of their registration. *)
Definition deliver (e : SocketEvent) (s : State) : State :=
  foldl (listen e) s
    match e with
    | ConversationOpened _ => openedListeners s
    | _ => listeners s
    end.

(** The callback of [useFocusEffect], of render [r]. *)
Definition focusCallback (r : Render) (s : State) : State :=
  match r_currentUser r with
  | Some _ =>
      let s1 := updateConversationsSilently r s in
      let s2 := snd (setTimeout (FocusSyncTask r) 100 s1) in
      snd (setTimeout (FocusTypingTask r) 500 s2)
  | None => s
  end.

(** The cleanup function the callback of [useFocusEffect] returns. *)
Definition focusCleanup (s : State) : State :=
  let s1 := clearRef (updateTimeoutRef s) s in
  let s2 := clearRef (typingTimeoutRef s1) s1 in
  removeCustomEventListener s2.

(** The render that follows a change of [currentUser]: [useCallback]
    (deps [[currentUser]]) takes the callback of this render, and
    [useFocusEffect], on a focused screen, cleans the earlier run up and
    runs the new callback. *)
Definition rerenderFocus (s : State) : State :=
  let s1 := set_focusRender (capture s) s in
  if focused s1 then focusCallback (capture s) (focusCleanup s1) else s1.

(** The screen gains the focus: the memoised callback runs. *)
Definition focus (s : State) : State :=
  if focused s then s else focusCallback (focusRender s) (set_focused true s).

(** The screen loses the focus. *)
Definition blur (s : State) : State :=
  if focused s then focusCleanup (set_focused false s) else s.

(** A timer callback. *)
Definition runTask (task : Task) (s : State) : State :=
  match task with
  | SyncTask => getAll ReqSync (set_isUpdatingConversations true s)
  | FollowUpTask r now =>
      if strict_eq (r_lastMessageUpdate r) now then updateConversationsSilently r s else s
  | RefreshTask r =>
      snd (setTimeout ResetTask 1000
             (setupSocketListeners r (set_isRefreshingTyping true s)))
  | ResetTask => set_isRefreshingTyping false s
  | FocusSyncTask r => updateConversationsSilently r s
  | FocusTypingTask r => refreshTypingStatus r s
  end.

(** Fire the timer [t] unless it was cleared in the meantime. *)
Definition fire (s : State) (t : nat) : State :=
  match List.find (fun x => bool_decide (timer_id x = t)) (timers s) with
  | Some x => runTask (timer_task x) (clearTimeout t s)
  | None => s
  end.

(** One millisecond passes: the timers that are due run, oldest first. A
    timer set by one of them is due later ([delay > 0]). *)
Definition tick (s : State) : State :=
  let s1 := set_clock (clock s + 1) s in
  let due := filter (fun x => timer_due x <= clock s1) (timers s1) in
  foldl fire s1 (map timer_id due).

Definition elapse (ms : nat) (s : State) : State := Nat.iter ms tick s.

(** The callbacks of the two intervals of the mount effect. *)
Definition onStatusInterval (s : State) : State :=
  match intervals s with
  | Some r => refreshTypingStatus r (refreshUserStatus s)
  | None => s
  end.

Definition onConversationInterval (s : State) : State :=
  match intervals s with
  | Some r => updateConversationsSilently r s
  | None => s
  end.

Section Machine.

(** [parseInt] on a string; [None] is [NaN]. *)
Variable parseInt : string -> option Z.

(** [JSON.parse] on the stored user; [None] when it throws. *)
Variable parseUser : string -> option User.

(** The mount effect ([useEffect] with deps [[]]): [checkAuthAndLoadData]
    of the render the component is in, up to the [await] of its pull. *)
Definition mount (s : State) : State :=
  let r := capture s in
  match storage s !! "authToken"%string, storage s !! "user"%string with
  | Some token, Some userData =>
      if truthy_str token && truthy_str userData then
        match parseUser userData with
        | Some user =>
            loadConversations (FromMount r)
              (rerenderFocus (set_currentUser (Some user) s))
        | None => set_route "/login" (log ErrCheckingAuth s)
        end
      else set_route "/login" s
  | _, _ => set_route "/login" s
  end.

(** A pull ends. A rejection passes the response interceptor of the
    client and the [catch] block of the API wrapper before it reaches the
    awaiting function; then come the rest of the [try] block, the [catch]
    block and the [finally] block of that function, and for
    [loadConversations] what its caller does next. *)
Definition complete (r : Request) (o : PullOutcome) (s : State) : State :=
  let s0 := match o with
            | Rejected status =>
                log ErrFetching (set_storage (Api.onResponseError status (storage s)) s)
            | Resolved _ _ => s
            end in
  match r with
  | ReqLoad caller =>
      let s1 := match o with
                | Resolved success l =>
                    if success
                    then set_conversations (processConversations parseInt l) s0
                    else s0
                | Rejected status =>
                    let s1 := log ErrLoading s0 in
                    if strict_eq status (Some 401) then forceLogout s1 else s1
                end in
      let s2 := set_loading false s1 in
      match caller with
      | FromMount r0 => set_intervals (Some r0) (setupSocketListeners r0 s2)
      | FromRefresh => set_refreshing false s2
      end
  | ReqStatus =>
      match o with
      | Resolved success l =>
          if success then set_conversations (mergePresence l (conversations s0)) s0 else s0
      | Rejected status =>
          let s1 := log ErrRefreshingStatus s0 in
          if strict_eq status (Some 401) then forceLogout s1 else s1
      end
  | ReqSync =>
      set_isUpdatingConversations false
        match o with
        | Resolved success l =>
            if success
            then set_conversations
                   (mergeSnapshot (processConversations parseInt l) (conversations s0)) s0
            else s0
        | Rejected status => log ErrSilentUpdate s0
        end
  | ReqNewConversation r0 message =>
      match o with
      | Resolved success l =>
          if success then
            match findConversation (conversationId message) l with
            | Some newConversation =>
                set_conversations
                  (addNewConversation (conversationId message)
                     (processConversation parseInt newConversation) (conversations s0)) s0
            | None => updateConversationsSilently r0 s0
            end
          else s0
      | Rejected status => log ErrCheckingNew s0
      end
  end.

(** The [i]-th pull in flight ends with outcome [o]. *)
Definition respond (i : nat) (o : PullOutcome) (s : State) : State :=
  match pending s !! i with
  | Some r => complete r o (set_pending (delete i (pending s)) s)
  | None => s
  end.

(** What can happen to the mounted screen. *)
Inductive Event : Type :=
| EvSocket (e : SocketEvent)
| EvRemoveAllListeners    (* the cleanup of the chat screen, on the shared service *)
| EvFocus
| EvBlur
| EvRefresh               (* pull to refresh *)
| EvStatusInterval        (* the 30 s interval *)
| EvConversationInterval  (* the 20 s interval *)
| EvTick
| EvResponse (i : nat) (o : PullOutcome).

Definition step (s : State) (e : Event) : State :=
  match e with
  | EvSocket e => deliver e s
  | EvRemoveAllListeners => removeAllListeners s
  | EvFocus => focus s
  | EvBlur => blur s
  | EvRefresh => onRefresh s
  | EvStatusInterval => onStatusInterval s
  | EvConversationInterval => onConversationInterval s
  | EvTick => tick s
  | EvResponse i o => respond i o s
  end.

Definition run (s : State) (es : list Event) : State := foldl step s es.

End Machine.

End HomeScreen.

(** ** The typing indicators of the conversation list screen *)

Module HomeTyping.

(** *** The map [typingUsers] *)

(** The updater of the [user_typing_status] listener; [currentUser] is
    the one of the render that registered the listener. *)
Definition onUserTypingStatus
    (currentUser : option User) (userId : Z) (isTyping : bool)
    (prev : gmap Z bool) : gmap Z bool :=
  if negb (strict_eq (val userId) (currentUserId currentUser)) then
    if isTyping then <[userId := true]> prev else delete userId prev
  else prev.

(** The updater of the [typing:start] listener. *)
Definition onTypingStart
    (currentUser : option User) (userId : Z) (prev : gmap Z bool) : gmap Z bool :=
  if negb (strict_eq (val userId) (currentUserId currentUser))
  then <[userId := true]> prev else prev.

(** The updater of the [typing:stop] listener. *)
Definition onTypingStop
    (currentUser : option User) (userId : Z) (prev : gmap Z bool) : gmap Z bool :=
  if negb (strict_eq (val userId) (currentUserId currentUser))
  then delete userId prev else prev.

Inductive Event : Type :=
| EvUserTypingStatus (userId : Z) (userName : string) (isTyping : bool)
| EvTypingStart (conversationId userId : Z)
| EvTypingStop (conversationId userId : Z).

Definition step (currentUser : option User) (prev : gmap Z bool) (e : Event)
  : gmap Z bool :=
  match e with
  | EvUserTypingStatus u _ b => onUserTypingStatus currentUser u b prev
  | EvTypingStart _ u => onTypingStart currentUser u prev
  | EvTypingStop _ u => onTypingStop currentUser u prev
  end.

Definition run (currentUser : option User) (prev : gmap Z bool) (es : list Event)
  : gmap Z bool :=
  foldl (step currentUser) prev es.

(** The socket emits a typing event: the listener of every render that
    registered one queues its updater, and the updaters run in that
    order. *)
Definition deliver (ls : list HomeScreen.Render) (prev : gmap Z bool) (e : Event)
  : gmap Z bool :=
  foldl (fun m r => step (HomeScreen.r_currentUser r) m e) prev ls.

Definition runAll (ls : list HomeScreen.Render) (prev : gmap Z bool) (es : list Event)
  : gmap Z bool :=
  foldl (deliver ls) prev es.

(** The status line [renderConversation] draws under the name. *)
Inductive StatusLine : Type := typing | online | offline.

Definition statusLine (typingUsers : gmap Z bool) (item : HomeScreen.Conversation)
  : StatusLine :=
  if bool_decide (is_Some (typingUsers !! HomeScreen.other_user_id item)) then typing
  else if HomeScreen.other_user_online item then online
  else offline.

(** The text of the unread badge of [renderConversation]; [None] when no
    badge is drawn. *)
Definition unreadBadge (item : HomeScreen.Conversation) : option string :=
  if 0 <? HomeScreen.unread_count item then
    Some (if 99 <? HomeScreen.unread_count item then "99+"%string
          else pretty (HomeScreen.unread_count item))
  else None.

End HomeTyping.

(** ** The socket service *)

Module SocketService.

Inductive AppState : Type := active | background | inactive.

#[global] Instance AppState_eq_dec : EqDecision AppState.
Proof. solve_decision. Defined.

(** What [socket.emit] puts on the wire. *)
Inductive Frame : Type :=
| Authenticate (token : string)
| Heartbeat
| AppStateChange (state : AppState)
| Join (conversationId : Z)
| Leave (conversationId : Z)
| MessageSend (conversationId : Z) (content : string) (senderId : Z)
| TypingStart (conversationId userId : Z)
| TypingStop (conversationId userId : Z)
| MessageRead (conversationId userId : Z)
| Custom (eventName data : string).

#[global] Instance Frame_eq_dec : EqDecision Frame.
Proof. solve_decision. Defined.

(** The fields of [SocketService]. A live socket is represented by the
    token its lifecycle handlers closed over, and [lifecycle] says whether
    these handlers are still registered on it; [heartbeatInterval] by
    whether an interval is set; [emitted] is the outbound traffic so far. *)
Record State : Type := mkState {
  socket : option string;
  lifecycle : bool;
  isConnected : bool;
  heartbeatInterval : bool;
  emitted : list Frame
}.

Definition initial : State := mkState None false false false [].

Definition set_socket (v : option string) (s : State) : State :=
  mkState v (lifecycle s) (isConnected s) (heartbeatInterval s) (emitted s).

Definition set_lifecycle (v : bool) (s : State) : State :=
  mkState (socket s) v (isConnected s) (heartbeatInterval s) (emitted s).

Definition set_isConnected (v : bool) (s : State) : State :=
  mkState (socket s) (lifecycle s) v (heartbeatInterval s) (emitted s).

Definition set_heartbeatInterval (v : bool) (s : State) : State :=
  mkState (socket s) (lifecycle s) (isConnected s) v (emitted s).

(** [this.socket?.emit(...)] *)
Definition emit (f : Frame) (s : State) : State :=
  match socket s with
  | Some _ =>
      mkState (socket s) (lifecycle s) (isConnected s) (heartbeatInterval s) (emitted s ++ [f])
  | None => s
  end.

(** [if (this.socket && this.isConnected) this.socket.emit(...)] *)
Definition emitWhenConnected (f : Frame) (s : State) : State :=
  if bool_decide (is_Some (socket s)) && isConnected s then emit f s else s.

(** [connect()], given what storage holds under ['authToken']: the
    returned boolean and the state after. The new socket has the six
    lifecycle handlers. *)
Definition connect (token : option string) (s : State) : bool * State :=
  match token with
  | Some t =>
      if truthy_str t then (true, set_lifecycle true (set_socket (Some t) s)) else (false, s)
  | None => (false, s)
  end.

Definition startHeartbeat (s : State) : State := set_heartbeatInterval true s.

Definition stopHeartbeat (s : State) : State := set_heartbeatInterval false s.

Definition disconnect (s : State) : State :=
  let s1 := stopHeartbeat s in
  match socket s1 with
  | Some _ => set_isConnected false (set_lifecycle false (set_socket None s1))
  | None => s1
  end.

(** [removeAllListeners()]: [socket.removeAllListeners()] without an
    event name removes every listener of the socket, the lifecycle
    handlers that [connect()] registered with [socket.on] among them. *)
Definition removeAllListeners (s : State) : State :=
  match socket s with
  | Some _ => set_lifecycle false s
  | None => s
  end.

(** The lifecycle handlers registered by [connect()]; [token] is the one
    they closed over. *)
Definition onConnect (token : string) (s : State) : State :=
  emit (Authenticate token) (set_isConnected true s).

Definition onAuthenticated (s : State) : State := startHeartbeat s.

Definition onAuthenticationError (s : State) : State := set_isConnected false s.

Definition onConnectError (s : State) : State := set_isConnected false s.

Definition onDisconnect (s : State) : State := stopHeartbeat (set_isConnected false s).

Definition onReconnect (token : string) (s : State) : State :=
  emit (Authenticate token) (set_isConnected true s).

(** The callback of the heartbeat interval. *)
Definition onHeartbeatInterval (s : State) : State := emitWhenConnected Heartbeat s.

(** The send operations. *)
Definition updateAppState (state : AppState) (s : State) : State :=
  emitWhenConnected (AppStateChange state) s.

Definition joinConversation (conversationId : Z) (s : State) : State :=
  emitWhenConnected (Join conversationId) s.

Definition leaveConversation (conversationId : Z) (s : State) : State :=
  emitWhenConnected (Leave conversationId) s.

Definition sendMessage (conversationId : Z) (content : string) (senderId : Z) (s : State)
  : State :=
  emitWhenConnected (MessageSend conversationId content senderId) s.

Definition startTyping (conversationId userId : Z) (s : State) : State :=
  emitWhenConnected (TypingStart conversationId userId) s.

Definition stopTyping (conversationId userId : Z) (s : State) : State :=
  emitWhenConnected (TypingStop conversationId userId) s.

Definition markAsRead (conversationId userId : Z) (s : State) : State :=
  emitWhenConnected (MessageRead conversationId userId) s.

Definition emitCustomEvent (eventName data : string) (s : State) : State :=
  emitWhenConnected (Custom eventName data) s.

(** A call of one of the typed send operations. *)
Inductive Send : Type :=
| CallJoin (conversationId : Z)
| CallLeave (conversationId : Z)
| CallSendMessage (conversationId : Z) (content : string) (senderId : Z)
| CallStartTyping (conversationId userId : Z)
| CallStopTyping (conversationId userId : Z)
| CallMarkAsRead (conversationId userId : Z)
| CallEmitCustomEvent (eventName data : string).

Definition send (c : Send) (s : State) : State :=
  match c with
  | CallJoin cid => joinConversation cid s
  | CallLeave cid => leaveConversation cid s
  | CallSendMessage cid content senderId => sendMessage cid content senderId s
  | CallStartTyping cid u => startTyping cid u s
  | CallStopTyping cid u => stopTyping cid u s
  | CallMarkAsRead cid u => markAsRead cid u s
  | CallEmitCustomEvent n d => emitCustomEvent n d s
  end.

(** The frame a send operation emits when it emits. *)
Definition frameOf (c : Send) : Frame :=
  match c with
  | CallJoin cid => Join cid
  | CallLeave cid => Leave cid
  | CallSendMessage cid content senderId => MessageSend cid content senderId
  | CallStartTyping cid u => TypingStart cid u
  | CallStopTyping cid u => TypingStop cid u
  | CallMarkAsRead cid u => MessageRead cid u
  | CallEmitCustomEvent n d => Custom n d
  end.

(** What can happen to the service: calls from the screens, lifecycle
    events of the transport, the heartbeat interval. *)
Inductive Input : Type :=
| InConnect (token : option string)
| InDisconnect
| InRemoveAllListeners
| InUpdateAppState (state : AppState)
| InSend (c : Send)
| OnConnect
| OnAuthenticated
| OnAuthenticationError
| OnConnectError
| OnDisconnect
| OnReconnect
| OnHeartbeatInterval.

(** The token the lifecycle handlers of the live socket closed over, while
    they are registered. *)
Definition handlers (s : State) : option string :=
  if lifecycle s then socket s else None.

(** Lifecycle events reach the handlers of the live socket, as long as
    they are registered; the interval runs its callback only while it is
    set. *)
Definition step (s : State) (i : Input) : State :=
  match i with
  | InConnect token => snd (connect token s)
  | InDisconnect => disconnect s
  | InRemoveAllListeners => removeAllListeners s
  | InUpdateAppState st => updateAppState st s
  | InSend c => send c s
  | OnConnect => match handlers s with Some t => onConnect t s | None => s end
  | OnAuthenticated => match handlers s with Some _ => onAuthenticated s | None => s end
  | OnAuthenticationError =>
      match handlers s with Some _ => onAuthenticationError s | None => s end
  | OnConnectError => match handlers s with Some _ => onConnectError s | None => s end
  | OnDisconnect => match handlers s with Some _ => onDisconnect s | None => s end
  | OnReconnect => match handlers s with Some t => onReconnect t s | None => s end
  | OnHeartbeatInterval => if heartbeatInterval s then onHeartbeatInterval s else s
  end.

Definition run (s : State) (inputs : list Input) : State := foldl step s inputs.

End SocketService.
(** ** The chat screen *)

Module ChatScreen.

Inductive DeliveryStatus : Type := sent | delivered | read.

#[global] Instance DeliveryStatus_eq_dec : EqDecision DeliveryStatus.
Proof. solve_decision. Defined.

(** [interface Message] *)
Record Message : Type := mkMessage {
  id : Z;
  conversation_id : Z;
  sender_id : Z;
  content : string;
  message_type : string;
  is_delivered : bool;
  is_read : bool;
  delivered_at : option string;
  read_at : option string;
  created_at : string;
  sender_name : string;
  deliveryStatus : option DeliveryStatus
}.

(** [{ ...msg, is_delivered: v }] *)
Definition set_is_delivered (v : bool) (msg : Message) : Message :=
  mkMessage (id msg) (conversation_id msg) (sender_id msg) (content msg) (message_type msg)
    v (is_read msg) (delivered_at msg) (read_at msg) (created_at msg) (sender_name msg)
    (deliveryStatus msg).

(** [{ ...msg, is_read: v }] *)
Definition set_is_read (v : bool) (msg : Message) : Message :=
  mkMessage (id msg) (conversation_id msg) (sender_id msg) (content msg) (message_type msg)
    (is_delivered msg) v (delivered_at msg) (read_at msg) (created_at msg) (sender_name msg)
    (deliveryStatus msg).

(** The indicator [getTickStatus] draws for an own message: one tick,
    two gray ticks, two blue ticks. *)
Definition tickStatus (item : Message) : DeliveryStatus :=
  if is_read item then read
  else if is_delivered item then delivered
  else sent.

(** The payload of [message:new]: a message and the room it belongs to. *)
Record NewMessage : Type := mkNewMessage {
  conversationId : Z;
  message : Message
}.

(** The component state the listeners and the focus effect work on;
    [now] is what [new Date().toISOString()] returns. *)
Record State : Type := mkState {
  messages : list Message;
  currentUser : option User;
  isTyping : bool;
  otherUserOnline : bool;
  focused : bool;
  now : string
}.

Definition set_messages (v : list Message) (s : State) : State :=
  mkState v (currentUser s) (isTyping s) (otherUserOnline s) (focused s) (now s).

Definition set_currentUser (v : option User) (s : State) : State :=
  mkState (messages s) v (isTyping s) (otherUserOnline s) (focused s) (now s).

Definition set_isTyping (v : bool) (s : State) : State :=
  mkState (messages s) (currentUser s) v (otherUserOnline s) (focused s) (now s).

Definition set_otherUserOnline (v : bool) (s : State) : State :=
  mkState (messages s) (currentUser s) (isTyping s) v (focused s) (now s).

Definition set_focused (v : bool) (s : State) : State :=
  mkState (messages s) (currentUser s) (isTyping s) (otherUserOnline s) v (now s).

Definition set_now (v : string) (s : State) : State :=
  mkState (messages s) (currentUser s) (isTyping s) (otherUserOnline s) (focused s) v.

(** The updater of the [message:new] listener. *)
Definition addMessage (m : Message) (prev : list Message) : list Message :=
  match List.find (fun msg => strict_eq (id msg) (id m)) prev with
  | Some _ => prev
  | None =>
      let messageWithCorrectStatus :=
        set_is_delivered
          (strict_eq (deliveryStatus m) (Some delivered) || is_delivered m) m in
      prev ++ [messageWithCorrectStatus]
  end.

(** The updater of the [message:delivered] listener. *)
Definition markDelivered (messageId : Z) (prev : list Message) : list Message :=
  map (fun msg =>
    if strict_eq (id msg) messageId then set_is_delivered true msg else msg) prev.

(** The updater of the [message:read] listener;
    [data.messageIds?.includes(msg.id)] is falsy without [messageIds]. *)
Definition markRead (messageIds : option (list Z)) (prev : list Message) : list Message :=
  map (fun msg =>
    if match messageIds with
       | Some ids => bool_decide (id msg ∈ ids)
       | None => false
       end
    then set_is_read true msg else msg) prev.

(** The test [msg.sender_id !== currentUser.id && !msg.is_read]. *)
Definition unreadFrom (u : User) (msg : Message) : bool :=
  negb (strict_eq (sender_id msg) (user_id u)) && negb (is_read msg).

(** The updater of [markMessagesAsRead]; [readAt] is
    [new Date().toISOString()]. *)
Definition markOthersRead (u : User) (readAt : string) (prev : list Message)
  : list Message :=
  map (fun msg =>
    if unreadFrom u msg
    then mkMessage (id msg) (conversation_id msg) (sender_id msg) (content msg)
           (message_type msg) (is_delivered msg) true (delivered_at msg)
           (Some readAt) (created_at msg) (sender_name msg) (deliveryStatus msg)
    else msg) prev.

(** [updatePendingMessageDeliveryStatus()] of a render whose
    [currentUser] is [cu]. *)
Definition updatePendingMessageDeliveryStatus (cu : option User) (s : State) : State :=
  match cu with
  | None => s
  | Some u =>
      set_messages
        (map (fun msg =>
           if strict_eq (sender_id msg) (user_id u) && negb (is_delivered msg)
           then set_is_delivered true msg else msg) (messages s)) s
  end.

(** The callback of [useFocusEffect], as far as the list goes: with the
    user loaded and an unread message of somebody else in the list,
    [markMessagesAsRead()] runs. (The custom events it emits are in
    [ChatActions]; the status fetch it starts is not modelled.) *)
Definition focusCallback (s : State) : State :=
  match currentUser s with
  | Some u =>
      if existsb (unreadFrom u) (messages s)
      then set_messages (markOthersRead u (now s) (messages s)) s
      else s
  | None => s
  end.

(** A render in which [currentUser] or [messages] has changed recreates
    the callback (deps [[currentUser, messages, conversationId]]), and
    [useFocusEffect] runs the new callback when the screen is focused. *)
Definition rerender (s : State) : State :=
  if focused s then focusCallback s else s.

(** The user the listeners test against. [setupSocketListeners()] is
    called by the mount effect alone, in the first render, where
    [currentUser] is still [null]. *)
Definition mountUser : option User := None.

Section Listeners.

(** The route parameters of the screen. *)
Variables (thisConversation otherUserId : Z).

(** The [currentUser] of the render that registered the listeners (in
    the program, [mountUser]). *)
Variable cu : option User.

Definition onNewMessage (m : NewMessage) (s : State) : State :=
  if strict_eq (conversationId m) thisConversation
  then set_messages (addMessage (message m) (messages s)) s
  else s.

Definition onTypingStart (cid userId : Z) (s : State) : State :=
  if strict_eq cid thisConversation
     && negb (strict_eq (val userId) (currentUserId cu))
  then set_isTyping true s else s.

Definition onTypingStop (cid userId : Z) (s : State) : State :=
  if strict_eq cid thisConversation
     && negb (strict_eq (val userId) (currentUserId cu))
  then set_isTyping false s else s.

Definition onUserStatusChange (userId : Z) (isOnline : bool) (s : State) : State :=
  if strict_eq userId otherUserId then
    let s1 := set_otherUserOnline isOnline s in
    if isOnline then updatePendingMessageDeliveryStatus cu s1 else s1
  else s.

Definition onUserTypingStatus (userId : Z) (typing : bool) (s : State) : State :=
  if strict_eq userId otherUserId then set_isTyping typing s else s.

Definition onMessageDelivered (cid messageId : Z) (s : State) : State :=
  if strict_eq cid thisConversation
  then set_messages (markDelivered messageId (messages s)) s
  else s.

Definition onMessageRead (cid : Z) (messageIds : option (list Z)) (s : State) : State :=
  if strict_eq cid thisConversation
  then set_messages (markRead messageIds (messages s)) s
  else s.

(** What can happen to the screen: the inbound events it listens to, the
    end of [loadUserData], focus and blur, the wall clock moving on. *)
Inductive Event : Type :=
| EvMessageNew (m : NewMessage)
| EvTypingStart (cid userId : Z)
| EvTypingStop (cid userId : Z)
| EvUserStatusChange (userId : Z) (isOnline : bool)
| EvUserTypingStatus (userId : Z) (typing : bool)
| EvMessageDelivered (cid messageId : Z)
| EvMessageRead (cid : Z) (messageIds : option (list Z))
| EvUserLoaded (user : User)
| EvFocus
| EvBlur
| EvClock (time : string).

(** The listener of an inbound event (nothing for the other events). *)
Definition listen (s : State) (e : Event) : State :=
  match e with
  | EvMessageNew m => onNewMessage m s
  | EvTypingStart c u => onTypingStart c u s
  | EvTypingStop c u => onTypingStop c u s
  | EvUserStatusChange u b => onUserStatusChange u b s
  | EvUserTypingStatus u b => onUserTypingStatus u b s
  | EvMessageDelivered c m => onMessageDelivered c m s
  | EvMessageRead c ids => onMessageRead c ids s
  | _ => s
  end.

(** Whether the listener hands [setMessages] an updater that returns a
    new array: every [prev.map(...)] does, whatever it changes, and
    [return prev] does not. *)
Definition newList (s : State) (e : Event) : bool :=
  match e with
  | EvMessageNew m =>
      strict_eq (conversationId m) thisConversation
      && match List.find (fun msg => strict_eq (id msg) (id (message m))) (messages s) with
         | Some _ => false
         | None => true
         end
  | EvUserStatusChange u b =>
      strict_eq u otherUserId && b && bool_decide (is_Some cu)
  | EvMessageDelivered c _ => strict_eq c thisConversation
  | EvMessageRead c _ => strict_eq c thisConversation
  | _ => false
  end.

Definition step (s : State) (e : Event) : State :=
  match e with
  | EvUserLoaded u => rerender (set_currentUser (Some u) s)
  | EvFocus => if focused s then s else focusCallback (set_focused true s)
  | EvBlur => set_focused false s
  | EvClock t => set_now t s
  | _ => if newList s e then rerender (listen s e) else listen s e
  end.

Definition run (s : State) (es : list Event) : State := foldl step s es.

End Listeners.

End ChatScreen.

(** ** The actions of the chat screen *)

Module ChatActions.

Import ChatScreen.

(** The timeout set by [handleTyping]; its callback stops the typing
    indicator of the user who was typing. *)
Record Timer : Type := mkTimer {
  timer_id : nat;
  timer_due : Z;
  timer_user : Z
}.

(** A [conversationsAPI.getOrCreate] call of [handleSendMessage] that has
    not returned yet, with what the function holds across the [await]. *)
Record Creating : Type := mkCreating {
  cr_text : string;
  cr_timeout : option nat;
  cr_user : Z
}.

(** How [getOrCreate] ends: with [response.success] and
    [response.conversation.id], or with an error. *)
Inductive CreateOutcome : Type :=
| Created (success : bool) (newConversationId : Z)
| Failed.

Record State : Type := mkState {
  chat : ChatScreen.State;
  newMessage : string;
  sending : bool;
  typingTimeout : option nat;
  clock : Z;
  timers : list Timer;
  nextTimer : nat;
  service : SocketService.State;
  creating : list Creating;
  replacedWith : option Z;        (* [router.replace] to another conversation *)
  alerts : list string
}.

Definition set_chat (v : ChatScreen.State) (s : State) : State :=
  mkState v (newMessage s) (sending s) (typingTimeout s) (clock s) (timers s)
    (nextTimer s) (service s) (creating s) (replacedWith s) (alerts s).

Definition set_newMessage (v : string) (s : State) : State :=
  mkState (chat s) v (sending s) (typingTimeout s) (clock s) (timers s)
    (nextTimer s) (service s) (creating s) (replacedWith s) (alerts s).

Definition set_sending (v : bool) (s : State) : State :=
  mkState (chat s) (newMessage s) v (typingTimeout s) (clock s) (timers s)
    (nextTimer s) (service s) (creating s) (replacedWith s) (alerts s).

Definition set_typingTimeout (v : option nat) (s : State) : State :=
  mkState (chat s) (newMessage s) (sending s) v (clock s) (timers s)
    (nextTimer s) (service s) (creating s) (replacedWith s) (alerts s).

Definition set_clock (v : Z) (s : State) : State :=
  mkState (chat s) (newMessage s) (sending s) (typingTimeout s) v (timers s)
    (nextTimer s) (service s) (creating s) (replacedWith s) (alerts s).

Definition set_timers (v : list Timer) (s : State) : State :=
  mkState (chat s) (newMessage s) (sending s) (typingTimeout s) (clock s) v
    (nextTimer s) (service s) (creating s) (replacedWith s) (alerts s).

Definition set_nextTimer (v : nat) (s : State) : State :=
  mkState (chat s) (newMessage s) (sending s) (typingTimeout s) (clock s) (timers s)
    v (service s) (creating s) (replacedWith s) (alerts s).

Definition set_service (v : SocketService.State) (s : State) : State :=
  mkState (chat s) (newMessage s) (sending s) (typingTimeout s) (clock s) (timers s)
    (nextTimer s) v (creating s) (replacedWith s) (alerts s).

Definition set_creating (v : list Creating) (s : State) : State :=
  mkState (chat s) (newMessage s) (sending s) (typingTimeout s) (clock s) (timers s)
    (nextTimer s) (service s) v (replacedWith s) (alerts s).

Definition set_replacedWith (v : option Z) (s : State) : State :=
  mkState (chat s) (newMessage s) (sending s) (typingTimeout s) (clock s) (timers s)
    (nextTimer s) (service s) (creating s) v (alerts s).

Definition alert (text : string) (s : State) : State :=
  mkState (chat s) (newMessage s) (sending s) (typingTimeout s) (clock s) (timers s)
    (nextTimer s) (service s) (creating s) (replacedWith s) (alerts s ++ [text]).

(** [setTimeout(..., delay)] with the callback of [handleTyping]. *)
Definition setTimeout (userId : Z) (delay : Z) (s : State) : nat * State :=
  let t := nextTimer s in
  (t, set_nextTimer (S t) (set_timers (timers s ++ [mkTimer t (clock s + delay) userId]) s)).

Definition clearTimeout (t : nat) (s : State) : State :=
  set_timers (filter (fun x => timer_id x <> t) (timers s)) s.

Section Actions.

(** The conversation id of the route; it is taken to be a number. *)
Variable conversationId : Z.

(** The payload [{ conversationId, userId }] of the custom events, as the
    service puts it on the wire. *)
Variable payload : Z -> nullable Z -> string.

(** [String.prototype.trim] *)
Variable trim : string -> string.

(** [notifyConversationListUnreadCleared()] *)
Definition notifyConversationListUnreadCleared (s : State) : State :=
  set_service
    (SocketService.emitCustomEvent "conversation_opened"
       (payload conversationId (currentUserId (currentUser (chat s)))) (service s)) s.

(** [markMessagesAsRead()]; [readAt] is [new Date().toISOString()]. *)
Definition markMessagesAsRead (readAt : string) (s : State) : State :=
  match currentUser (chat s) with
  | None => s
  | Some u =>
      let unreadMessages := List.filter (unreadFrom u) (messages (chat s)) in
      if (length unreadMessages =? 0)%nat then s
      else
        let s1 := set_service
                    (SocketService.emitCustomEvent "message:read"
                       (payload conversationId (val (user_id u))) (service s)) s in
        set_chat
          (set_messages (markOthersRead u readAt (messages (chat s1))) (chat s1)) s1
  end.

(** The callback of [useFocusEffect], with what it emits (the status
    fetch it starts is not modelled). *)
Definition focusCallback (s : State) : State :=
  match currentUser (chat s) with
  | Some u =>
      match messages (chat s) with
      | [] => notifyConversationListUnreadCleared s
      | _ :: _ =>
          if existsb (unreadFrom u) (messages (chat s))
          then notifyConversationListUnreadCleared
                 (markMessagesAsRead (now (chat s)) s)
          else s
      end
  | None => s
  end.

(** [handleTyping(text)] *)
Definition handleTyping (text : string) (s : State) : State :=
  let s1 := set_newMessage text s in
  match currentUser (chat s1) with
  | Some u =>
      let s2 := set_service
                  (SocketService.startTyping conversationId (user_id u) (service s1)) s1 in
      let s3 := match typingTimeout s2 with
                | Some t => clearTimeout t s2
                | None => s2
                end in
      let '(t, s4) := setTimeout (user_id u) 1000 s3 in
      set_typingTimeout (Some t) s4
  | None => s1
  end.

(** The callback of the timeout of [handleTyping]. *)
Definition typingTimedOut (userId : Z) (s : State) : State :=
  set_typingTimeout None
    (set_service (SocketService.stopTyping conversationId userId (service s)) s).

Definition fire (s : State) (t : nat) : State :=
  match List.find (fun x => bool_decide (timer_id x = t)) (timers s) with
  | Some x => typingTimedOut (timer_user x) (clearTimeout t s)
  | None => s
  end.

(** One millisecond passes. *)
Definition tick (s : State) : State :=
  let s1 := set_clock (clock s + 1) s in
  let due := filter (fun x => timer_due x <= clock s1) (timers s1) in
  foldl fire s1 (map timer_id due).

Definition elapse (ms : nat) (s : State) : State := Nat.iter ms tick s.

(** The part of [handleSendMessage] from [socketService.sendMessage] to
    the [finally] block; [text], [timeout] and [userId] are the values of
    [newMessage], [typingTimeout] and [currentUser.id] the call holds. *)
Definition finishSend (text : string) (timeout : option nat) (userId : Z) (s : State)
  : State :=
  let s1 := set_service
              (SocketService.sendMessage conversationId (trim text) userId (service s)) s in
  let s2 := set_newMessage "" s1 in
  let s3 := set_service (SocketService.stopTyping conversationId userId (service s2)) s2 in
  let s4 := match timeout with
            | Some t => set_typingTimeout None (clearTimeout t s3)
            | None => s3
            end in
  set_sending false s4.

(** [handleSendMessage()] up to its [await], or to its end when it does
    not await. *)
Definition handleSendMessage (s : State) : State :=
  match currentUser (chat s) with
  | None => s
  | Some u =>
      if negb (truthy_str (trim (newMessage s))) then s
      else
        let s1 := set_sending true s in
        if negb (truthy_num conversationId)
        then set_creating
               (creating s1 ++ [mkCreating (newMessage s) (typingTimeout s) (user_id u)]) s1
        else finishSend (newMessage s) (typingTimeout s) (user_id u) s1
  end.

(** The [i]-th [getOrCreate] call in flight ends. *)
Definition getOrCreateDone (i : nat) (o : CreateOutcome) (s : State) : State :=
  match creating s !! i with
  | Some c =>
      let s1 := set_creating (delete i (creating s)) s in
      match o with
      | Created true newConversationId =>
          set_sending false (set_replacedWith (Some newConversationId) s1)
      | Created false _ => finishSend (cr_text c) (cr_timeout c) (cr_user c) s1
      | Failed => set_sending false (alert "Failed to send message" s1)
      end
  | None => s
  end.

(** Keystrokes: after each wait the input changes to the text. *)
Fixpoint typeKeys (keys : list (nat * string)) (s : State) : State :=
  match keys with
  | [] => s
  | (g, text) :: keys' => typeKeys keys' (handleTyping text (elapse g s))
  end.

End Actions.

End ChatActions.

(** ** Sample data

    The local user is user 1 (Alice); conversation 7 is the one with
    user 9 (Bob). *)

Module Samples.

(** [parseInt] without a radix, on a string of ASCII characters: leading
    white space is skipped, a sign is taken, [0x] or [0X] switches to
    base 16, and the longest run of digits is read; [None] ([NaN]) when
    there is no digit. *)
Definition isSpace (a : Ascii.ascii) : bool :=
  let n := Ascii.nat_of_ascii a in
  (n =? 32)%nat || ((9 <=? n)%nat && (n <=? 13)%nat).

Fixpoint skipSpaces (s : string) : string :=
  match s with
  | String a s' => if isSpace a then skipSpaces s' else s
  | EmptyString => s
  end.

Definition digitOf (radix : Z) (a : Ascii.ascii) : option Z :=
  let n := Z.of_nat (Ascii.nat_of_ascii a) in
  let d := if (48 <=? n) && (n <=? 57) then Some (n - 48)
           else if (97 <=? n) && (n <=? 122) then Some (n - 87)
           else if (65 <=? n) && (n <=? 90) then Some (n - 55)
           else None in
  match d with
  | Some d => if d <? radix then Some d else None
  | None => None
  end.

Fixpoint leadingDigits (radix : Z) (acc : option Z) (s : string) : option Z :=
  match s with
  | EmptyString => acc
  | String a s' =>
      match digitOf radix a with
      | Some d => leadingDigits radix (Some (radix * default 0 acc + d)) s'
      | None => acc
      end
  end.

Definition parseInt (s : string) : option Z :=
  let s1 := skipSpaces s in
  let signed :=
    match s1 with
    | String a s' =>
        if (Ascii.nat_of_ascii a =? 45)%nat then (-1, s')
        else if (Ascii.nat_of_ascii a =? 43)%nat then (1, s')
        else (1, s1)
    | EmptyString => (1, s1)
    end in
  let based :=
    match snd signed with
    | String a (String b s') =>
        if (Ascii.nat_of_ascii a =? 48)%nat
           && ((Ascii.nat_of_ascii b =? 120)%nat || (Ascii.nat_of_ascii b =? 88)%nat)
        then (16, s')
        else (10, snd signed)
    | _ => (10, snd signed)
    end in
  Z.mul (fst signed) <$> leadingDigits (fst based) None (snd based).

Definition alice : Session.User := Session.mkUser 1.

(** Stands for [JSON.parse] on what the samples keep under ['user']. *)
Definition parseUser (s : string) : option Session.User :=
  if decide (s = "alice"%string) then Some alice else None.

(** Storage after Alice has logged in. *)
Definition stored : gmap string string :=
  <["authToken"%string := "token"%string]> (<["user"%string := "alice"%string]> ∅).

(** 2024-05-01T10:00:00Z in milliseconds. *)
Definition morning : Z := 1714557600000.

(** Conversation 7 as the list holds it, with a given unread count. *)
Definition local7 (unread : Z) : HomeScreen.Conversation :=
  HomeScreen.mkConversation 7 9 "Bob" "bob@example.com" "bob.png" true
    "2024-05-01T09:58:00Z" (val "see you"%string) "2024-05-01T10:00:00Z" 9 unread None.

(** Conversation 7 as a pull returns it. *)
Definition server7 (lastMessage : string) (unread : HomeScreen.RawCount)
  : HomeScreen.ServerConversation :=
  HomeScreen.mkConversation 7 9 "Bob" "bob@example.com" "bob.png" true
    "2024-05-01T09:58:00Z" (val lastMessage) "2024-05-01T10:00:00Z" 9 unread None.

(** The render of the mount effect, and the render that follows
    [setCurrentUser], whose focus callback is kept. *)
Definition mountRender : HomeScreen.Render := HomeScreen.firstRender.

Definition userRender : HomeScreen.Render :=
  HomeScreen.mkRender [] (Some alice) false false 0.

(** The list screen of Alice when its mount effect has run up to its
    pull. *)
Definition mounting : HomeScreen.State :=
  HomeScreen.mount parseUser (HomeScreen.initial morning stored).

(** The pull of the mount effect is answered after 80 ms, with three
    unread messages in conversation 7. *)
Definition loaded : HomeScreen.State :=
  Eval vm_compute in
  HomeScreen.run parseInt mounting
    (replicate 80 HomeScreen.EvTick
     ++ [HomeScreen.EvResponse 0
           (HomeScreen.Resolved true [server7 "see you" (HomeScreen.CountString "3")])]).

(** Two seconds after the mount: the sync of the focus effect was
    answered 100 ms after it was sent, and the typing refresh of the focus
    effect has run. *)
Definition home : HomeScreen.State :=
  Eval vm_compute in
  HomeScreen.run parseInt loaded
    (replicate 620 HomeScreen.EvTick
     ++ [HomeScreen.EvResponse 0
           (HomeScreen.Resolved true [server7 "see you" (HomeScreen.CountNumber 3)])]
     ++ replicate 1300 HomeScreen.EvTick).

(** The same screen while the pull of a silent sync is in flight: the
    server has pushed [conversations_updated] for Alice, and the 500 ms of
    the debounce have passed. *)
Definition syncing : HomeScreen.State :=
  Eval vm_compute in
  HomeScreen.run parseInt home
    (HomeScreen.EvSocket (HomeScreen.ConversationsUpdated (val 1))
     :: replicate 500 HomeScreen.EvTick).

(** The list screen when the pull of the mount effect is answered only
    after 900 ms, seen two seconds after the mount: the typing refresh of
    the focus effect has registered its listeners before the mount effect
    registered its own. *)
Definition homeAfterSlowLoad : HomeScreen.State :=
  Eval vm_compute in
  HomeScreen.run parseInt mounting
    (replicate 700 HomeScreen.EvTick
     ++ [HomeScreen.EvResponse 1
           (HomeScreen.Resolved true [server7 "see you" (HomeScreen.CountNumber 3)])]
     ++ replicate 200 HomeScreen.EvTick
     ++ [HomeScreen.EvResponse 0
           (HomeScreen.Resolved true [server7 "see you" (HomeScreen.CountString "3")])]
     ++ replicate 1100 HomeScreen.EvTick).

(** [message:new{conversationId=7, senderId=9, id=101}] *)
Definition message101 : HomeScreen.NewMessage :=
  HomeScreen.mkNewMessage (val 101) 7 9 "2024-05-01T10:05:00Z" (val "hello"%string).

(** A message of Alice herself, as the server sends it back. *)
Definition ownMessage : HomeScreen.NewMessage :=
  HomeScreen.mkNewMessage (val 201) 7 1 "2024-05-01T10:06:00Z" (val "hi Bob"%string).

(** A read event of conversation 7 scoped to Bob, one scoped to Alice,
    and one without a user id. *)
Definition readByBob : HomeScreen.ReadData := HomeScreen.mkReadData 7 (val 9).

Definition readByAlice : HomeScreen.ReadData := HomeScreen.mkReadData 7 (val 1).

Definition readByNobody : HomeScreen.ReadData := HomeScreen.mkReadData 7 undefined.

(** Message 101 of Alice in the chat screen, in the sent state. *)
Definition own101 : ChatScreen.Message :=
  ChatScreen.mkMessage 101 7 1 "hello" "text" false false None None
    "2024-05-01T10:05:00Z" "Alice" (Some ChatScreen.sent).

(** Message 102 of Bob. *)
Definition bob102 : ChatScreen.Message :=
  ChatScreen.mkMessage 102 7 9 "hi Alice" "text" false false None None
    "2024-05-01T10:06:00Z" "Bob" None.

(** A [message:new] that reuses the id 101 with other fields. *)
Definition other101 : ChatScreen.Message :=
  ChatScreen.mkMessage 101 7 9 "something else" "text" true false None None
    "2024-05-01T10:07:00Z" "Bob" (Some ChatScreen.delivered).

(** The chat screen of conversation 7 holding message 101, focused, with
    the user loaded. *)
Definition chat : ChatScreen.State :=
  ChatScreen.mkState [own101] (Some alice) false false true "2024-05-01T10:10:00Z".

End Samples.

(** ** Facts about the conventions *)

Module JsFacts.

Lemma lookup_map {A B} (f : A -> B) (l : list A) (i : nat) :
  map f l !! i = f <$> (l !! i).
Proof.
  revert i. induction l as [|a l IH]; intros [|i]; simpl; auto.
Qed.

Lemma strict_eq_true {A} `{EqDecision A} (a b : A) : strict_eq a b = true <-> a = b.
Proof. unfold strict_eq. apply bool_decide_eq_true. Qed.

Lemma strict_eq_false {A} `{EqDecision A} (a b : A) : strict_eq a b = false <-> a <> b.
Proof. unfold strict_eq. apply bool_decide_eq_false. Qed.

Lemma num_or_zero_id (n : Z) : num_or_zero n = n.
Proof.
  unfold num_or_zero, truthy_num.
  destruct (Z.eqb_spec n 0); simpl; congruence.
Qed.

Lemma strict_eq_refl {A} `{EqDecision A} (a : A) : strict_eq a a = true.
Proof. unfold strict_eq. apply bool_decide_eq_true_2. reflexivity. Qed.

End JsFacts.

Import JsFacts.

(** ** Facts about the handlers of the conversation list screen *)

Module HomeFacts.

Import HomeScreen.

(** What the list handlers write: the list and the processed keys. *)
Definition listView (s : State) : list Conversation * gset string :=
  (conversations s, processedMessageKeys s).

Lemma clearRef_listView (ref : option nat) (s : State) :
  listView (clearRef ref s) = listView s.
Proof. destruct ref; reflexivity. Qed.

Lemma updateConversationsSilently_listView (r : Render) (s : State) :
  listView (updateConversationsSilently r s) = listView s.
Proof.
  unfold updateConversationsSilently.
  destruct (r_isUpdatingConversations r); [reflexivity |].
  destruct (updateTimeoutRef s); reflexivity.
Qed.

Lemma refreshTypingStatus_listView (r : Render) (s : State) :
  listView (refreshTypingStatus r s) = listView s.
Proof.
  unfold refreshTypingStatus.
  destruct (r_isRefreshingTyping r); [reflexivity |].
  destruct (typingTimeoutRef s); reflexivity.
Qed.

Lemma focusCleanup_listView (s : State) : listView (focusCleanup s) = listView s.
Proof.
  unfold focusCleanup.
  change (listView (clearRef (typingTimeoutRef (clearRef (updateTimeoutRef s) s))
                      (clearRef (updateTimeoutRef s) s)) = listView s).
  rewrite !clearRef_listView. reflexivity.
Qed.

Lemma focusCallback_listView (r : Render) (s : State) :
  listView (focusCallback r s) = listView s.
Proof.
  unfold focusCallback. destruct (r_currentUser r); [| reflexivity].
  simpl. change (listView (updateConversationsSilently r s) = listView s).
  apply updateConversationsSilently_listView.
Qed.

Lemma setupSocketListeners_listView (r : Render) (s : State) :
  listView (setupSocketListeners r s) = listView s.
Proof. reflexivity. Qed.

Lemma runTask_listView (task : Task) (s : State) : listView (runTask task s) = listView s.
Proof.
  destruct task as [|r now|r| |r|r]; simpl; try reflexivity.
  - destruct (strict_eq _ _); [apply updateConversationsSilently_listView | reflexivity].
  - apply updateConversationsSilently_listView.
  - apply refreshTypingStatus_listView.
Qed.

Lemma fire_listView (s : State) (t : nat) : listView (fire s t) = listView s.
Proof.
  unfold fire. destruct (List.find _ _); [| reflexivity].
  rewrite runTask_listView. reflexivity.
Qed.

Lemma foldl_fire_listView (ids : list nat) (s : State) :
  listView (foldl fire s ids) = listView s.
Proof.
  revert s. induction ids as [|t ids IH]; intros s; simpl; [reflexivity |].
  rewrite IH. apply fire_listView.
Qed.

Lemma tick_listView (s : State) : listView (tick s) = listView s.
Proof. unfold tick. rewrite foldl_fire_listView. reflexivity. Qed.

Lemma elapse_listView (n : nat) (s : State) : listView (elapse n s) = listView s.
Proof.
  induction n as [|n IH]; [reflexivity |].
  unfold elapse in *. simpl. rewrite tick_listView. exact IH.
Qed.

Lemma listView_conversations (s s' : State) :
  listView s' = listView s -> conversations s' = conversations s.
Proof. unfold listView. congruence. Qed.

Lemma listView_keys (s s' : State) :
  listView s' = listView s -> processedMessageKeys s' = processedMessageKeys s.
Proof. unfold listView. congruence. Qed.

(** *** The [message:new] listener *)

Lemma onNewMessage_falsy (r : Render) (message : NewMessage) (s : State) :
  truthy_num (conversationId message) = false -> onNewMessage r message s = s.
Proof. intros Ht. unfold onNewMessage. rewrite Ht. reflexivity. Qed.

Lemma onNewMessage_duplicate (r : Render) (message : NewMessage) (s : State) :
  truthy_num (conversationId message) = true ->
  messageKey message ∈ processedMessageKeys s ->
  onNewMessage r message s = log (LogDuplicateMessage (messageKey message)) s.
Proof.
  intros Ht Hin. unfold onNewMessage. rewrite Ht.
  rewrite bool_decide_eq_true_2 by assumption. reflexivity.
Qed.

Lemma onNewMessage_fresh (r : Render) (message : NewMessage) (s : State) :
  truthy_num (conversationId message) = true ->
  messageKey message ∉ processedMessageKeys s ->
  conversations (onNewMessage r message s)
  = updateConversationWithNewMessage (r_currentUser r) message (conversations s)
  /\ processedMessageKeys (onNewMessage r message s)
     = {[messageKey message]} ∪ processedMessageKeys s
  /\ console (onNewMessage r message s) = console s
  /\ listeners (onNewMessage r message s) = listeners s.
Proof.
  intros Ht Hin. unfold onNewMessage. rewrite Ht.
  rewrite bool_decide_eq_false_2 by assumption.
  unfold checkAndAddNewConversation; simpl.
  destruct (findConversation _ _); simpl; auto.
Qed.

Lemma onNewMessage_key_recorded (r : Render) (message : NewMessage) (s : State) :
  truthy_num (conversationId message) = true ->
  messageKey message ∈ processedMessageKeys (onNewMessage r message s).
Proof.
  intros Ht.
  destruct (decide (messageKey message ∈ processedMessageKeys s)) as [Hin|Hin].
  - rewrite onNewMessage_duplicate by assumption. exact Hin.
  - destruct (onNewMessage_fresh r message s Ht Hin) as (_ & -> & _). set_solver.
Qed.

Lemma onNewMessage_keys (r : Render) (message : NewMessage) (s : State) :
  processedMessageKeys s ⊆ processedMessageKeys (onNewMessage r message s).
Proof.
  destruct (truthy_num (conversationId message)) eqn:Ht.
  - destruct (decide (messageKey message ∈ processedMessageKeys s)) as [Hin|Hin].
    + rewrite onNewMessage_duplicate by assumption. reflexivity.
    + destruct (onNewMessage_fresh r message s Ht Hin) as (_ & -> & _). set_solver.
  - rewrite onNewMessage_falsy by assumption. reflexivity.
Qed.

(** [n] more lines on the console. *)
Definition logs (l : LogLine) (n : nat) (s : State) : State :=
  set_console (console s ++ replicate n l) s.

Lemma logs_0 (l : LogLine) (s : State) : logs l 0 s = s.
Proof. unfold logs. simpl. rewrite app_nil_r. destruct s; reflexivity. Qed.

Lemma logs_S (l : LogLine) (n : nat) (s : State) : logs l n (log l s) = logs l (S n) s.
Proof.
  unfold logs, log. simpl. rewrite <- app_assoc. reflexivity.
Qed.

(** Listeners that find the key processed only log. *)
Lemma listeners_skip_duplicate (message : NewMessage) (ls : list Render) (s : State) :
  truthy_num (conversationId message) = true ->
  messageKey message ∈ processedMessageKeys s ->
  foldl (listen (MessageNew message)) s ls
  = logs (LogDuplicateMessage (messageKey message)) (length ls) s.
Proof.
  intros Ht. revert s. induction ls as [|r ls IH]; intros s Hin; simpl.
  - symmetry. apply logs_0.
  - rewrite onNewMessage_duplicate by assumption.
    rewrite IH by exact Hin. apply logs_S.
Qed.

Lemma listeners_skip_falsy (message : NewMessage) (ls : list Render) (s : State) :
  truthy_num (conversationId message) = false ->
  foldl (listen (MessageNew message)) s ls = s.
Proof.
  intros Ht. induction ls as [|r ls IH]; simpl; [reflexivity |].
  rewrite onNewMessage_falsy by assumption. exact IH.
Qed.

(** A [message:new] whose key is new is handled by the listener
    registered first; the others find its key processed. *)
Lemma deliver_new_fresh (message : NewMessage) (r : Render) (rest : list Render)
    (s : State) :
  listeners s = r :: rest ->
  truthy_num (conversationId message) = true ->
  messageKey message ∉ processedMessageKeys s ->
  deliver (MessageNew message) s
  = logs (LogDuplicateMessage (messageKey message)) (length rest)
      (onNewMessage r message s).
Proof.
  intros Hl Ht Hin. unfold deliver. rewrite Hl. simpl.
  apply listeners_skip_duplicate; [assumption |].
  apply onNewMessage_key_recorded. assumption.
Qed.

Lemma deliver_new_duplicate (message : NewMessage) (s : State) :
  truthy_num (conversationId message) = true ->
  messageKey message ∈ processedMessageKeys s ->
  deliver (MessageNew message) s
  = logs (LogDuplicateMessage (messageKey message)) (length (listeners s)) s.
Proof. intros Ht Hin. unfold deliver. apply listeners_skip_duplicate; assumption. Qed.

(** *** The read and opened listeners *)

(** The event carries the user id of the render. *)
Definition scopedTo (data : ReadData) (r : Render) : bool :=
  strict_eq (rd_userId data) (currentUserId (r_currentUser r)).

Lemma clearUnreadCountForConversation_again (cid : Z) (l : list Conversation) :
  clearUnreadCountForConversation cid (clearUnreadCountForConversation cid l)
  = clearUnreadCountForConversation cid l.
Proof.
  unfold clearUnreadCountForConversation. rewrite map_map. apply map_ext. intros x.
  destruct (strict_eq (conversation_id x) cid) eqn:E; simpl; rewrite E; reflexivity.
Qed.

Lemma updateUserOnlineStatus_again (u : Z) (b : bool) (l : list Conversation) :
  updateUserOnlineStatus u b (updateUserOnlineStatus u b l) = updateUserOnlineStatus u b l.
Proof.
  unfold updateUserOnlineStatus. rewrite map_map. apply map_ext. intros x.
  destruct (strict_eq (other_user_id x) u) eqn:E; simpl; rewrite E; reflexivity.
Qed.

(** The read or opened listeners [ls] run in turn: the count is cleared
    when the conversation id is truthy and the event carries the user id
    of the render of one of them. *)
Lemma listeners_clear (e : SocketEvent) (data : ReadData) (ls : list Render) (s : State) :
  e = MessageRead data \/ e = ConversationOpened data ->
  listView (foldl (listen e) s ls)
  = (if truthy_num (rd_conversationId data) && existsb (scopedTo data) ls
     then clearUnreadCountForConversation (rd_conversationId data) (conversations s)
     else conversations s,
     processedMessageKeys s).
Proof.
  intros He. revert s. induction ls as [|r ls IH]; intros s.
  - simpl. rewrite andb_false_r. reflexivity.
  - simpl foldl. rewrite IH. simpl existsb.
    assert (listen e s r
            = if truthy_num (rd_conversationId data) && scopedTo data r
              then set_conversations
                     (clearUnreadCountForConversation (rd_conversationId data)
                        (conversations s)) s
              else log match e with
                       | ConversationOpened _ => LogIgnoredOpened data
                       | _ => LogIgnoredRead data
                       end s) as ->.
    { destruct He as [-> | ->]; reflexivity. }
    destruct (truthy_num (rd_conversationId data)); simpl; [| reflexivity].
    destruct (scopedTo data r); simpl.
    + rewrite clearUnreadCountForConversation_again.
      destruct (existsb _ ls); reflexivity.
    + reflexivity.
Qed.

Lemma deliver_read (data : ReadData) (s : State) :
  listView (deliver (MessageRead data) s)
  = (if truthy_num (rd_conversationId data) && existsb (scopedTo data) (listeners s)
     then clearUnreadCountForConversation (rd_conversationId data) (conversations s)
     else conversations s,
     processedMessageKeys s).
Proof. apply listeners_clear. auto. Qed.

Lemma deliver_opened (data : ReadData) (s : State) :
  listView (deliver (ConversationOpened data) s)
  = (if truthy_num (rd_conversationId data) && existsb (scopedTo data) (openedListeners s)
     then clearUnreadCountForConversation (rd_conversationId data) (conversations s)
     else conversations s,
     processedMessageKeys s).
Proof. apply listeners_clear. auto. Qed.

Lemma listeners_updated (userId : nullable Z) (ls : list Render) (s : State) :
  listView (foldl (listen (ConversationsUpdated userId)) s ls) = listView s.
Proof.
  revert s. induction ls as [|r ls IH]; intros s; simpl; [reflexivity |].
  rewrite IH. unfold onConversationsUpdated.
  destruct (strict_eq _ _); [apply updateConversationsSilently_listView | reflexivity].
Qed.

Lemma listeners_status (userId : Z) (isOnline : bool) (ls : list Render) (s : State) :
  listView (foldl (listen (UserStatusChange userId isOnline)) s ls)
  = (match ls with
     | [] => conversations s
     | _ :: _ => conversations (onUserStatusChange userId isOnline s)
     end,
     processedMessageKeys s).
Proof.
  revert s. induction ls as [|r ls IH]; intros s; [reflexivity |].
  simpl foldl. rewrite IH. unfold onUserStatusChange.
  destruct (truthy_num userId); simpl.
  - rewrite updateUserOnlineStatus_again. destruct ls; reflexivity.
  - destruct ls; reflexivity.
Qed.

(** *** The processed keys only grow *)

Lemma listen_keys (e : SocketEvent) (s : State) (r : Render) :
  processedMessageKeys s ⊆ processedMessageKeys (listen e s r).
Proof.
  destruct e as [m|d|d|u|u b]; simpl.
  - apply onNewMessage_keys.
  - unfold onMessageRead. destruct (_ && _); reflexivity.
  - unfold onConversationOpened. destruct (_ && _); reflexivity.
  - unfold onConversationsUpdated. destruct (strict_eq _ _); [| reflexivity].
    rewrite (listView_keys _ _ (updateConversationsSilently_listView r s)). reflexivity.
  - unfold onUserStatusChange. destruct (truthy_num _); reflexivity.
Qed.

Lemma foldl_listen_keys (e : SocketEvent) (ls : list Render) (s : State) :
  processedMessageKeys s ⊆ processedMessageKeys (foldl (listen e) s ls).
Proof.
  revert s. induction ls as [|r ls IH]; intros s; simpl; [reflexivity |].
  etransitivity; [apply (listen_keys e s r) | apply IH].
Qed.

Lemma deliver_keys (e : SocketEvent) (s : State) :
  processedMessageKeys s ⊆ processedMessageKeys (deliver e s).
Proof. unfold deliver. apply foldl_listen_keys. Qed.

Lemma complete_keys parseInt (r : Request) (o : PullOutcome) (s : State) :
  processedMessageKeys (complete parseInt r o s) = processedMessageKeys s.
Proof.
  destruct r as [[r0|]| | |r0 message], o as [[|] l | status]; simpl; try reflexivity;
    try (destruct (strict_eq status (Some 401)); reflexivity).
  destruct (findConversation _ _); [reflexivity |].
  apply (listView_keys _ _ (updateConversationsSilently_listView _ _)).
Qed.

Lemma step_keys parseInt (e : Event) (s : State) :
  processedMessageKeys s ⊆ processedMessageKeys (step parseInt s e).
Proof.
  destruct e as [e| | | | | | | |i o]; simpl.
  - apply deliver_keys.
  - reflexivity.
  - unfold focus. destruct (focused s); [reflexivity |].
    rewrite (listView_keys _ _ (focusCallback_listView _ _)). reflexivity.
  - unfold blur. destruct (focused s); [| reflexivity].
    rewrite (listView_keys _ _ (focusCleanup_listView _)). reflexivity.
  - reflexivity.
  - unfold onStatusInterval. destruct (intervals s); [| reflexivity].
    rewrite (listView_keys _ _ (refreshTypingStatus_listView _ _)). reflexivity.
  - unfold onConversationInterval. destruct (intervals s); [| reflexivity].
    rewrite (listView_keys _ _ (updateConversationsSilently_listView _ _)). reflexivity.
  - rewrite (listView_keys _ _ (tick_listView _)). reflexivity.
  - unfold respond. destruct (pending s !! i); [| reflexivity].
    rewrite complete_keys. reflexivity.
Qed.

Lemma run_keys parseInt (es : list Event) (s : State) :
  processedMessageKeys s ⊆ processedMessageKeys (run parseInt s es).
Proof.
  revert s. induction es as [|e es IH]; intros s; simpl; [reflexivity |].
  etransitivity; [apply (step_keys parseInt e) | apply IH].
Qed.

(** *** Listeners leave the listener table alone *)

Lemma updateConversationsSilently_listeners (r : Render) (s : State) :
  listeners (updateConversationsSilently r s) = listeners s
  /\ openedListeners (updateConversationsSilently r s) = openedListeners s.
Proof.
  unfold updateConversationsSilently.
  destruct (r_isUpdatingConversations r); [auto |].
  destruct (updateTimeoutRef s); auto.
Qed.

Lemma listen_listeners (e : SocketEvent) (s : State) (r : Render) :
  listeners (listen e s r) = listeners s
  /\ openedListeners (listen e s r) = openedListeners s.
Proof.
  destruct e as [m|d|d|u|u b]; simpl.
  - unfold onNewMessage. destruct (truthy_num _); [| auto].
    case_bool_decide; [auto |].
    unfold checkAndAddNewConversation; simpl. destruct (findConversation _ _); auto.
  - unfold onMessageRead. destruct (_ && _); auto.
  - unfold onConversationOpened. destruct (_ && _); auto.
  - unfold onConversationsUpdated. destruct (strict_eq _ _); [| auto].
    apply updateConversationsSilently_listeners.
  - unfold onUserStatusChange. destruct (truthy_num _); auto.
Qed.

Lemma foldl_listen_listeners (e : SocketEvent) (ls : list Render) (s : State) :
  listeners (foldl (listen e) s ls) = listeners s
  /\ openedListeners (foldl (listen e) s ls) = openedListeners s.
Proof.
  revert s. induction ls as [|r ls IH]; intros s; simpl; [auto |].
  destruct (IH (listen e s r)) as [-> ->]. apply listen_listeners.
Qed.

Lemma deliver_listeners (e : SocketEvent) (s : State) :
  listeners (deliver e s) = listeners s.
Proof. unfold deliver. apply foldl_listen_listeners. Qed.

Lemma logs_clear_console (l : LogLine) (n : nat) (s : State) :
  set_console [] (logs l n s) = set_console [] s.
Proof. reflexivity. Qed.

Lemma logs_listeners (l : LogLine) (n : nat) (s : State) :
  listeners (logs l n s) = listeners s.
Proof. reflexivity. Qed.

(** *** The debounce of the silent sync *)

(** Exactly one live timer: the debounce timer the ref points to, not yet
    due. [p] and [q] are the pulls made so far and the pulls in flight,
    [c] the console. *)
Definition armed (due : Z) (p : nat) (q : list Request) (c : list LogLine) (s : State)
  : Prop :=
  pulls s = p /\ pending s = q /\ console s = c
  /\ clock s < due
  /\ exists t, timers s = [mkTimer t due SyncTask] /\ updateTimeoutRef s = Some t.

(** The debounce timer has fired: its pull is in flight and marked. *)
Definition fired (p : nat) (q : list Request) (c : list LogLine) (s : State) : Prop :=
  isUpdatingConversations s = true
  /\ pulls s = S p /\ pending s = q ++ [ReqSync] /\ console s = c
  /\ timers s = [].

Lemma call_when_quiet (r : Render) (s : State) :
  r_isUpdatingConversations r = false ->
  timers s = [] ->
  armed (clock s + 500) (pulls s) (pending s) (console s) (updateConversationsSilently r s)
  /\ clock (updateConversationsSilently r s) = clock s.
Proof.
  intros Hr Ht. unfold updateConversationsSilently, armed. rewrite Hr.
  destruct (updateTimeoutRef s) as [t|]; simpl; rewrite ?Ht; simpl;
    (split; [| reflexivity]); repeat split; try lia; eauto.
Qed.

Lemma call_when_armed (r : Render) (due : Z) (p : nat) (q : list Request)
    (c : list LogLine) (s : State) :
  r_isUpdatingConversations r = false ->
  armed due p q c s ->
  armed (clock s + 500) p q c (updateConversationsSilently r s)
  /\ clock (updateConversationsSilently r s) = clock s.
Proof.
  intros Hr (Hp & Hq & Hc & Hlt & t & Ht & Href).
  unfold updateConversationsSilently, armed. rewrite Hr, Href. simpl. rewrite Ht.
  rewrite filter_cons. simpl. rewrite decide_False by tauto. rewrite filter_nil. simpl.
  split; [| reflexivity]. repeat split; try assumption; try lia. eauto.
Qed.

Lemma tick_no_timer (s : State) :
  timers s = [] -> tick s = set_clock (clock s + 1) s.
Proof. intros Ht. unfold tick. simpl. rewrite Ht. reflexivity. Qed.

Lemma tick_armed_early (due : Z) (p : nat) (q : list Request) (c : list LogLine)
    (s : State) :
  armed due p q c s -> clock s + 1 < due ->
  armed due p q c (tick s) /\ clock (tick s) = clock s + 1.
Proof.
  intros (Hp & Hq & Hc & Hlt & t & Ht & Href) Hearly.
  unfold tick. simpl. rewrite Ht, filter_cons. simpl.
  rewrite decide_False by lia. rewrite filter_nil. simpl.
  split; [| reflexivity]. unfold armed; simpl. repeat split; try assumption. eauto.
Qed.

Lemma tick_armed_due (due : Z) (p : nat) (q : list Request) (c : list LogLine)
    (s : State) :
  armed due p q c s -> due <= clock s + 1 ->
  fired p q c (tick s) /\ clock (tick s) = clock s + 1.
Proof.
  intros (Hp & Hq & Hc & Hlt & t & Ht & Href) Hdue.
  unfold tick. simpl. rewrite Ht, filter_cons. simpl.
  rewrite decide_True by lia. rewrite filter_nil. simpl.
  unfold fire. simpl. rewrite Ht. simpl.
  rewrite bool_decide_eq_true_2 by reflexivity. simpl.
  split; [| reflexivity]. unfold fired, clearTimeout; simpl.
  rewrite Ht, filter_cons. simpl. rewrite decide_False by tauto.
  rewrite Hp, Hq, Hc. auto.
Qed.

Lemma elapse_succ (n : nat) (s : State) : elapse (S n) s = elapse n (tick s).
Proof. unfold elapse. apply Nat.iter_succ_r. Qed.

Lemma elapse_fired (p : nat) (q : list Request) (c : list LogLine) (n : nat) (s : State) :
  fired p q c s -> fired p q c (elapse n s).
Proof.
  revert s. induction n as [|n IH]; intros s Hs; [exact Hs |].
  rewrite elapse_succ. apply IH.
  destruct Hs as (Hu & Hp & Hq & Hc & Ht). rewrite tick_no_timer by assumption.
  unfold fired; simpl. auto.
Qed.

Lemma elapse_armed_early (due : Z) (p : nat) (q : list Request) (c : list LogLine)
    (n : nat) (s : State) :
  armed due p q c s -> clock s + Z.of_nat n < due ->
  armed due p q c (elapse n s) /\ clock (elapse n s) = clock s + Z.of_nat n.
Proof.
  revert s. induction n as [|n IH]; intros s Ha Hlt.
  - simpl. split; [assumption | lia].
  - rewrite elapse_succ.
    destruct (tick_armed_early due p q c s Ha) as [Ha' Hc']; [lia |].
    destruct (IH (tick s) Ha') as [Ha'' Hc'']; [lia |].
    split; [assumption | lia].
Qed.

Lemma elapse_armed_due (due : Z) (p : nat) (q : list Request) (c : list LogLine)
    (n : nat) (s : State) :
  armed due p q c s -> due <= clock s + Z.of_nat n ->
  fired p q c (elapse n s).
Proof.
  revert s. induction n as [|n IH]; intros s Ha Hle.
  - destruct Ha as (_ & _ & _ & Hc & _). simpl in Hle. lia.
  - rewrite elapse_succ.
    destruct (Z_lt_le_dec (clock s + 1) due) as [Hearly|Hdue].
    + destruct (tick_armed_early due p q c s Ha Hearly) as [Ha' Hc'].
      apply IH; [assumption | lia].
    + apply elapse_fired. apply (tick_armed_due due p q c s Ha Hdue).
Qed.

(** [burst r gaps s]: a call of [updateConversationsSilently] of render
    [r] after each of the waits [gaps] (in milliseconds), starting from
    [s]. *)
Fixpoint burst (r : Render) (gaps : list nat) (s : State) : State :=
  match gaps with
  | [] => s
  | g :: gaps' => burst r gaps' (updateConversationsSilently r (elapse g s))
  end.

Lemma burst_armed (r : Render) (gaps : list nat) (p : nat) (q : list Request)
    (c : list LogLine) (s : State) :
  r_isUpdatingConversations r = false ->
  Forall (fun g => (g < 500)%nat) gaps ->
  armed (clock s + 500) p q c s ->
  armed (clock (burst r gaps s) + 500) p q c (burst r gaps s).
Proof.
  intros Hr Hg. revert s. induction Hg as [|g gaps Hlt _ IH]; intros s Ha; [exact Ha |].
  simpl. apply IH.
  destruct (elapse_armed_early _ p q c g s Ha) as [Ha' _]; [lia |].
  destruct (call_when_armed r _ p q c _ Hr Ha') as [Ha'' Hc]. rewrite Hc. exact Ha''.
Qed.

(** A burst of calls, each less than the debounce delay after the one
    before, makes no pull while it lasts and exactly one once the delay has
    passed after its last call. *)
Lemma burst_one_pull (r : Render) (gaps : list nat) (w : nat) (s : State) :
  r_isUpdatingConversations r = false ->
  timers s = [] ->
  Forall (fun g => (g < 500)%nat) gaps ->
  (500 <= w)%nat ->
  pulls (burst r gaps (updateConversationsSilently r s)) = pulls s
  /\ fired (pulls s) (pending s) (console s)
       (elapse w (burst r gaps (updateConversationsSilently r s))).
Proof.
  intros Hr Ht Hg Hw.
  destruct (call_when_quiet r s Hr Ht) as [Ha Hc]. rewrite <- Hc in Ha.
  pose proof (burst_armed r gaps _ _ _ _ Hr Hg Ha) as Hb.
  split.
  - destruct Hb as (Hp & _). exact Hp.
  - eapply elapse_armed_due; [exact Hb | lia].
Qed.

End HomeFacts.

(** ** Properties of the conversation list screen *)

Module HomeProps.

Import HomeScreen HomeFacts.

(** The freshness test of the specification: the three last-message
    fields of the local and of the incoming conversation agree. *)
Definition preserveLocal (existing incoming : Conversation) : Prop :=
  last_message_time existing = last_message_time incoming
  /\ last_message existing = last_message incoming
  /\ last_message_sender_id existing = last_message_sender_id incoming.

Lemma shouldPreserveUnreadCount_spec (existing incoming : Conversation) :
  shouldPreserveUnreadCount existing incoming = true <-> preserveLocal existing incoming.
Proof.
  unfold shouldPreserveUnreadCount, preserveLocal.
  rewrite !andb_true_iff, !strict_eq_true. tauto.
Qed.

Lemma mergeConversation_unread (existing incoming : Conversation) :
  (preserveLocal existing incoming ->
   unread_count incoming < unread_count existing ->
   unread_count (mergeConversation existing incoming) = unread_count existing)
  /\ (~ (preserveLocal existing incoming
         /\ unread_count incoming < unread_count existing) ->
      unread_count (mergeConversation existing incoming) = unread_count incoming).
Proof.
  unfold mergeConversation; simpl.
  destruct (shouldPreserveUnreadCount existing incoming) eqn:Hp; simpl.
  - apply shouldPreserveUnreadCount_spec in Hp.
    destruct (Z.ltb_spec (unread_count incoming) (unread_count existing)).
    + split; [reflexivity | tauto].
    + split; [lia | reflexivity].
  - assert (~ preserveLocal existing incoming) as Hn.
    { rewrite <- shouldPreserveUnreadCount_spec. congruence. }
    split; [tauto | reflexivity].
Qed.

Lemma processConversation_id parseInt (raw : ServerConversation) :
  conversation_id (processConversation parseInt raw) = conversation_id raw.
Proof. reflexivity. Qed.

Lemma conversations_sync_success parseInt (l : list ServerConversation) (s : State) :
  conversations (complete parseInt ReqSync (Resolved true l) s)
  = mergeSnapshot (processConversations parseInt l) (conversations s).
Proof. reflexivity. Qed.

(** C1. Snapshot merge freshness rule. When a silent sync succeeds, every
    snapshot entry that has a local conversation of the same id is merged
    with it: the merged entry keeps the local unread count when the three
    last-message fields agree and the local count is strictly greater than
    the incoming one, and takes the incoming count in every other case. *)
Theorem snapshot_merge_freshness
    (parseInt : string -> option Z) (s : State) (l : list ServerConversation)
    (i : nat) (raw : ServerConversation) (existing : Conversation) :
  l !! i = Some raw ->
  findConversation (conversation_id raw) (conversations s) = Some existing ->
  let incoming := processConversation parseInt raw in
  exists merged,
    conversations (complete parseInt ReqSync (Resolved true l) s) !! i = Some merged
    /\ (preserveLocal existing incoming ->
        unread_count incoming < unread_count existing ->
        unread_count merged = unread_count existing)
    /\ (~ (preserveLocal existing incoming
           /\ unread_count incoming < unread_count existing) ->
        unread_count merged = unread_count incoming).
Proof.
  intros Hl Hfind incoming.
  exists (mergeConversation existing incoming). split.
  - rewrite conversations_sync_success. unfold mergeSnapshot, processConversations.
    rewrite lookup_map, lookup_map, Hl. simpl.
    rewrite Hfind. reflexivity.
  - apply mergeConversation_unread.
Qed.

(** *** The [message:new] listener *)

Lemma updateConversationWithNewMessage_lookup
    (cu : option User) (message : NewMessage) (prev : list Conversation)
    (i : nat) (conv : Conversation) :
  prev !! i = Some conv ->
  conversation_id conv = conversationId message ->
  updateConversationWithNewMessage cu message prev !! i
  = Some {| conversation_id := conversation_id conv;
            other_user_id := other_user_id conv;
            other_user_name := other_user_name conv;
            other_user_email := other_user_email conv;
            other_user_avatar := other_user_avatar conv;
            other_user_online := other_user_online conv;
            other_user_last_seen := other_user_last_seen conv;
            last_message := content message;
            last_message_time := created_at message;
            last_message_sender_id := sender_id message;
            unread_count :=
              if negb (strict_eq (val (sender_id message)) (currentUserId cu))
              then unread_count conv + 1 else unread_count conv;
            other_user_typing := other_user_typing conv |}.
Proof.
  intros Hi Hid. unfold updateConversationWithNewMessage.
  rewrite lookup_map, Hi. simpl.
  rewrite (proj2 (strict_eq_true _ _) Hid), num_or_zero_id. reflexivity.
Qed.

Lemma lookup_unread_after_duplicate
    (r : Render) (message : NewMessage) (s s' : State) (i : nat) (conv : Conversation) :
  conversations s'
  = updateConversationWithNewMessage (r_currentUser r) message (conversations s) ->
  val (sender_id message) <> currentUserId (r_currentUser r) ->
  conversations s !! i = Some conv ->
  conversation_id conv = conversationId message ->
  exists conv', conversations s' !! i = Some conv'
                /\ unread_count conv' = unread_count conv + 1.
Proof.
  intros -> Hsender Hi Hid.
  erewrite updateConversationWithNewMessage_lookup by eassumption.
  eexists. split; [reflexivity |]. simpl.
  rewrite (proj2 (strict_eq_false _ _) Hsender). reflexivity.
Qed.

Lemma deliver_new_twice (message : NewMessage) (s : State) :
  set_console [] (deliver (MessageNew message) (deliver (MessageNew message) s))
  = set_console [] (deliver (MessageNew message) s).
Proof.
  destruct (truthy_num (conversationId message)) eqn:Ht.
  - assert (forall s0, messageKey message ∈ processedMessageKeys s0 ->
                       set_console [] (deliver (MessageNew message) s0)
                       = set_console [] s0) as Hknown.
    { intros s0 Hin. rewrite deliver_new_duplicate by assumption. reflexivity. }
    destruct (decide (messageKey message ∈ processedMessageKeys s)) as [Hin|Hin].
    + rewrite Hknown; [reflexivity |].
      apply (deliver_keys (MessageNew message) s). exact Hin.
    + destruct (listeners s) as [|r rest] eqn:Hl.
      * unfold deliver at 2. rewrite Hl. simpl. reflexivity.
      * rewrite (deliver_new_fresh message r rest s Hl Ht Hin).
        rewrite Hknown; [reflexivity |].
        simpl. apply onNewMessage_key_recorded. assumption.
  - unfold deliver. rewrite !listeners_skip_falsy by assumption. reflexivity.
Qed.

(** C2. Idempotence of the [message:new] listener. Applying an event a
    second time leaves every cell of the state but the console as the
    first application left it; when the conversation id is truthy the
    second application is exactly the "duplicate skipped" console line,
    whichever render the listener is of and also when other events were
    handled in between; a duplicated fresh event from a sender other than
    the user of the listener's render leaves the unread count of its
    conversation one above what it was. The same holds of the event as the
    socket delivers it to all the listeners registered: the first one
    handles it, once. *)
Theorem message_event_idempotent
    (parseInt : string -> option Z) (r : Render) (message : NewMessage) (s : State) :
  set_console [] (onNewMessage r message (onNewMessage r message s))
  = set_console [] (onNewMessage r message s)
  /\ (forall (es : list Event) (r' : Render),
      truthy_num (conversationId message) = true ->
      let s1 := run parseInt (onNewMessage r message s) es in
      onNewMessage r' message s1 = log (LogDuplicateMessage (messageKey message)) s1)
  /\ (forall (i : nat) (conv : Conversation),
      truthy_num (conversationId message) = true ->
      messageKey message ∉ processedMessageKeys s ->
      val (sender_id message) <> currentUserId (r_currentUser r) ->
      conversations s !! i = Some conv ->
      conversation_id conv = conversationId message ->
      exists conv',
        conversations (onNewMessage r message (onNewMessage r message s)) !! i = Some conv'
        /\ unread_count conv' = unread_count conv + 1)
  /\ set_console [] (step parseInt (step parseInt s (EvSocket (MessageNew message)))
                       (EvSocket (MessageNew message)))
     = set_console [] (step parseInt s (EvSocket (MessageNew message)))
  /\ (forall (rest : list Render) (i : nat) (conv : Conversation),
      listeners s = r :: rest ->
      truthy_num (conversationId message) = true ->
      messageKey message ∉ processedMessageKeys s ->
      val (sender_id message) <> currentUserId (r_currentUser r) ->
      conversations s !! i = Some conv ->
      conversation_id conv = conversationId message ->
      exists conv',
        conversations (step parseInt (step parseInt s (EvSocket (MessageNew message)))
                         (EvSocket (MessageNew message))) !! i = Some conv'
        /\ unread_count conv' = unread_count conv + 1).
Proof.
  assert (forall (es : list Event) (r' : Render),
          truthy_num (conversationId message) = true ->
          onNewMessage r' message (run parseInt (onNewMessage r message s) es)
          = log (LogDuplicateMessage (messageKey message))
              (run parseInt (onNewMessage r message s) es))
    as Hlater.
  { intros es r' Ht. apply onNewMessage_duplicate; [assumption |].
    apply (run_keys parseInt es). apply onNewMessage_key_recorded; assumption. }
  pose proof (Hlater [] r) as Hsecond. simpl in Hsecond.
  split; [| split; [| split; [| split]]].
  - destruct (truthy_num (conversationId message)) eqn:Ht.
    + rewrite Hsecond by reflexivity. reflexivity.
    + rewrite !onNewMessage_falsy by assumption. reflexivity.
  - exact Hlater.
  - intros i conv Ht Hfresh Hsender Hi Hid.
    rewrite Hsecond by assumption.
    destruct (onNewMessage_fresh r message s Ht Hfresh) as (Hconvs & _).
    eapply lookup_unread_after_duplicate; eassumption.
  - simpl. apply deliver_new_twice.
  - intros rest i conv Hl Ht Hfresh Hsender Hi Hid.
    destruct (onNewMessage_fresh r message s Ht Hfresh) as (Hconvs & _).
    assert (conversations (deliver (MessageNew message) (deliver (MessageNew message) s))
            = conversations (onNewMessage r message s)) as Hc.
    { pose proof (deliver_new_twice message s) as Htwice.
      rewrite (deliver_new_fresh message r rest s Hl Ht Hfresh) in Htwice at 2.
      apply (f_equal conversations) in Htwice. exact Htwice. }
    simpl. eapply lookup_unread_after_duplicate; [| eassumption..].
    rewrite Hc. exact Hconvs.
Qed.

(** *** What the listeners of the first render test against *)

Lemma existsb_scopedTo_nobody (data : ReadData) (ls : list Render) :
  (exists r, r ∈ ls /\ r_currentUser r = None) ->
  rd_userId data = undefined ->
  existsb (scopedTo data) ls = true.
Proof.
  intros (r & Hin & Hr) Hu. apply existsb_exists. exists r.
  split; [apply list_elem_of_In; exact Hin |].
  unfold scopedTo. rewrite Hr, Hu. reflexivity.
Qed.

Lemma existsb_scopedTo_somebody (data : ReadData) (ls : list Render) (u : Z) :
  Forall (fun r => r_currentUser r = None) ls ->
  rd_userId data = val u ->
  existsb (scopedTo data) ls = false.
Proof.
  intros Hall Hu. induction Hall as [|r ls Hr _ IH]; [reflexivity |].
  simpl. rewrite IH, orb_false_r. unfold scopedTo. rewrite Hr, Hu. reflexivity.
Qed.

Lemma clearUnreadCountForConversation_lookup
    (cid : Z) (l : list Conversation) (i : nat) (conv : Conversation) :
  l !! i = Some conv ->
  conversation_id conv = cid ->
  clearUnreadCountForConversation cid l !! i = Some (set_unread_count 0 conv).
Proof.
  intros Hi Hid. unfold clearUnreadCountForConversation.
  rewrite lookup_map, Hi. simpl. rewrite (proj2 (strict_eq_true _ _) Hid). reflexivity.
Qed.

(** C3, where the code breaks it. A [message:read] or
    [conversation_opened] listener compares the user id of the event with
    the [currentUser] of the render that registered it, and the listeners
    the mount effect registers are those of the first render, where
    [currentUser] is still [null]: the comparison is with [undefined]. So,
    for an event with a truthy conversation id: the count of the
    conversation is cleared exactly when the event carries the user id of
    the render of one of the registered listeners; with a listener of a
    render without user registered, an event that carries no user id
    clears the count, whoever the local user is; and as long as only such
    listeners are registered, an event that carries a user id clears
    nothing, also when the id is the local user's. *)
Theorem unread_clearing_stale_closure
    (parseInt : string -> option Z) (data : ReadData) (s : State) (e : SocketEvent)
    (ls : list Render) :
  (e = MessageRead data /\ ls = listeners s)
  \/ (e = ConversationOpened data /\ ls = openedListeners s) ->
  truthy_num (rd_conversationId data) = true ->
  let s' := step parseInt s (EvSocket e) in
  conversations s'
  = (if existsb (scopedTo data) ls
     then clearUnreadCountForConversation (rd_conversationId data) (conversations s)
     else conversations s)
  /\ ((exists r, r ∈ ls /\ r_currentUser r = None) ->
      rd_userId data = undefined ->
      forall (i : nat) (conv : Conversation),
        conversations s !! i = Some conv ->
        conversation_id conv = rd_conversationId data ->
        exists conv', conversations s' !! i = Some conv' /\ unread_count conv' = 0)
  /\ (Forall (fun r => r_currentUser r = None) ls ->
      forall u : Z, rd_userId data = val u -> conversations s' = conversations s).
Proof.
  intros He Ht. simpl.
  assert (conversations (deliver e s)
          = if existsb (scopedTo data) ls
            then clearUnreadCountForConversation (rd_conversationId data) (conversations s)
            else conversations s) as Hc.
  { destruct He as [[-> ->] | [-> ->]].
    - pose proof (deliver_read data s) as H. rewrite Ht in H. simpl in H.
      apply (f_equal fst) in H. exact H.
    - pose proof (deliver_opened data s) as H. rewrite Ht in H. simpl in H.
      apply (f_equal fst) in H. exact H. }
  split; [exact Hc |]. split.
  - intros Hr Hu i conv Hi Hid.
    rewrite Hc, (existsb_scopedTo_nobody data ls Hr Hu).
    erewrite clearUnreadCountForConversation_lookup by eassumption.
    eexists. split; reflexivity.
  - intros Hall u Hu. rewrite Hc, (existsb_scopedTo_somebody data ls u Hall Hu).
    reflexivity.
Qed.

(** C4, where the code breaks it. The [message:new] listener passes the
    event to the [updateConversationWithNewMessage] of its render, which
    compares the sender with the [currentUser] of that render. An event
    with a new key is handled by the listener registered first; when that
    is a listener of a render without user (the mount effect registers
    one), the unread count of the conversation goes up by one whoever the
    sender is, the local user included. The last-message summary is the
    event's and the online, typing and last-seen fields are kept. *)
Theorem own_message_counts_as_unread
    (parseInt : string -> option Z) (message : NewMessage) (s : State)
    (r : Render) (rest : list Render) (i : nat) (conv : Conversation) :
  listeners s = r :: rest ->
  r_currentUser r = None ->
  truthy_num (conversationId message) = true ->
  messageKey message ∉ processedMessageKeys s ->
  conversations s !! i = Some conv ->
  conversation_id conv = conversationId message ->
  exists merged,
    conversations (step parseInt s (EvSocket (MessageNew message))) !! i = Some merged
    /\ unread_count merged = unread_count conv + 1
    /\ last_message merged = content message
    /\ last_message_time merged = created_at message
    /\ last_message_sender_id merged = sender_id message
    /\ other_user_online merged = other_user_online conv
    /\ other_user_typing merged = other_user_typing conv
    /\ other_user_last_seen merged = other_user_last_seen conv.
Proof.
  intros Hl Hr Ht Hfresh Hi Hid. simpl.
  rewrite (deliver_new_fresh message r rest s Hl Ht Hfresh).
  destruct (onNewMessage_fresh r message s Ht Hfresh) as (Hconvs & _).
  change (conversations (logs (LogDuplicateMessage (messageKey message)) (length rest)
                           (onNewMessage r message s)))
    with (conversations (onNewMessage r message s)).
  rewrite Hconvs, Hr.
  erewrite updateConversationWithNewMessage_lookup by eassumption.
  eexists. split; [reflexivity |]. simpl. repeat split.
Qed.

(** What the listener does in general: the count goes up exactly when the
    sender is not the user of the render of the listener. *)
Lemma event_merge_of_render
    (cu : option User) (message : NewMessage) (prev : list Conversation)
    (i : nat) (conv : Conversation) :
  prev !! i = Some conv ->
  conversation_id conv = conversationId message ->
  exists merged,
    updateConversationWithNewMessage cu message prev !! i = Some merged
    /\ last_message merged = content message
    /\ last_message_time merged = created_at message
    /\ last_message_sender_id merged = sender_id message
    /\ (unread_count merged = unread_count conv + 1
        <-> val (sender_id message) <> currentUserId cu)
    /\ (val (sender_id message) = currentUserId cu ->
        unread_count merged = unread_count conv)
    /\ other_user_online merged = other_user_online conv
    /\ other_user_typing merged = other_user_typing conv
    /\ other_user_last_seen merged = other_user_last_seen conv.
Proof.
  intros Hi Hid.
  eexists. split.
  { apply updateConversationWithNewMessage_lookup; eassumption. }
  simpl. repeat split; try reflexivity.
  - intros Hu Heq. rewrite (proj2 (strict_eq_true _ _) Heq) in Hu. simpl in Hu. lia.
  - intros Hne. rewrite (proj2 (strict_eq_false _ _) Hne). reflexivity.
  - intros Heq. rewrite (proj2 (strict_eq_true _ _) Heq). reflexivity.
Qed.

(** *** The debounced silent sync *)

(** C7, where the code breaks it. The guard of
    [updateConversationsSilently] reads [isUpdatingConversations] as the
    render of the caller saw it, and every caller (the interval of the
    mount effect, the listeners, the focus callback) belongs to a render
    in which it was [false]. A call by such a render is therefore never
    dropped and never logs the skip, whatever the cell holds: it sets the
    debounce timer, and once the 500 ms have passed another pull is made,
    beside the pulls that are in flight. *)
Theorem silent_sync_call_in_flight
    (r : Render) (s : State) (w : nat) :
  r_isUpdatingConversations r = false ->
  timers s = [] ->
  (500 <= w)%nat ->
  let s' := updateConversationsSilently r s in
  console s' = console s
  /\ timers s' = [mkTimer (nextTimer s) (clock s + 500) SyncTask]
  /\ pulls (elapse w s') = S (pulls s)
  /\ pending (elapse w s') = pending s ++ [ReqSync]
  /\ console (elapse w s') = console s.
Proof.
  intros Hr Ht Hw. simpl.
  destruct (call_when_quiet r s Hr Ht) as [Ha Hc].
  assert (fired (pulls s) (pending s) (console s)
            (elapse w (updateConversationsSilently r s))) as (_ & Hp & Hq & Hl & _).
  { eapply elapse_armed_due; [exact Ha | lia]. }
  destruct Ha as (_ & _ & Hl0 & _).
  split; [exact Hl0 |]. split; [| auto].
  unfold updateConversationsSilently. rewrite Hr.
  destruct (updateTimeoutRef s); simpl; rewrite Ht; reflexivity.
Qed.

(** *** Failing pulls *)

(** The session is torn down: the stored token and user are gone and the
    router shows the login screen. *)
Definition tornDown (s : State) : Prop :=
  storage s !! "authToken"%string = None
  /\ storage s !! "user"%string = None
  /\ route s = "/login"%string.

Lemma credentials_removed (m : gmap string string) :
  Api.onResponseError (Some 401) m !! "authToken"%string = None
  /\ Api.onResponseError (Some 401) m !! "user"%string = None.
Proof.
  unfold Api.onResponseError. rewrite strict_eq_refl.
  rewrite lookup_delete_ne, !lookup_delete_eq by discriminate. auto.
Qed.

Lemma credentials_removed_twice (m : gmap string string) :
  delete "user"%string (delete "authToken"%string (Api.onResponseError (Some 401) m))
  = Api.onResponseError (Some 401) m.
Proof.
  destruct (credentials_removed m) as [Ht Hu].
  rewrite (delete_id _ "authToken"%string) by exact Ht.
  apply delete_id. exact Hu.
Qed.

(** C6, as amended. A failing pull leaves the conversation list as it was
    and writes two console lines, the one of the API wrapper and the one
    of the function that made the pull. With status 401 the response
    interceptor of the client has removed the token and the user from
    storage, whichever function made the pull; with any other failure
    storage and route stay as they were. The router goes to the login
    screen only when the pull was made by [loadConversations] or
    [refreshUserStatus]: a failure of the pull of the silent sync or of the
    new-conversation check leaves the route alone whatever the status. A
    failed silent sync clears the in-flight mark. *)
Theorem pull_failure_policy
    (parseInt : string -> option Z) (r : Request) (status : option Z) (s : State) :
  let s' := complete parseInt r (Rejected status) s in
  conversations s' = conversations s
  /\ (exists line, console s' = console s ++ [ErrFetching; line])
  /\ (status = Some 401 ->
      storage s' !! "authToken"%string = None /\ storage s' !! "user"%string = None)
  /\ (status <> Some 401 -> storage s' = storage s /\ route s' = route s)
  /\ ((exists caller, r = ReqLoad caller) \/ r = ReqStatus ->
      status = Some 401 -> tornDown s')
  /\ (r = ReqSync \/ (exists r0 m, r = ReqNewConversation r0 m) -> route s' = route s)
  /\ (r = ReqSync -> isUpdatingConversations s' = false).
Proof.
  simpl. split; [| split; [| split; [| split; [| split; [| split]]]]].
  - destruct r as [[r0|]| | |r0 m]; simpl; try reflexivity;
      destruct (strict_eq status (Some 401)); reflexivity.
  - destruct r as [[r0|]| | |r0 m]; simpl;
      try (destruct (strict_eq status (Some 401)); simpl);
      rewrite <- app_assoc; simpl; eauto.
  - intros ->. destruct r as [[r0|]| | |r0 m]; simpl;
      rewrite ?strict_eq_refl; simpl; rewrite ?credentials_removed_twice;
      apply credentials_removed.
  - intros Hne.
    destruct r as [[r0|]| | |r0 m]; simpl; unfold Api.onResponseError;
      rewrite ?(proj2 (strict_eq_false _ _) Hne); split; reflexivity.
  - intros Hr ->. unfold tornDown.
    destruct Hr as [[[r0|] ->] | ->]; simpl; rewrite ?strict_eq_refl; simpl;
      rewrite ?credentials_removed_twice;
      (split; [apply credentials_removed | split; [apply credentials_removed | reflexivity]]).
  - intros [-> | (r0 & m & ->)]; reflexivity.
  - intros ->. reflexivity.
Qed.

(** *** The examples of the specification, and the claims at sample data *)

(** Example 2: local unread count 3, snapshot with the same last message
    and unread count 1: the merged list keeps 3. *)
Example snapshot_keeps_local_count :
  map unread_count
    (conversations
       (step Samples.parseInt Samples.syncing
          (EvResponse 0 (Resolved true [Samples.server7 "see you" (CountNumber 1)]))))
  = [3].
Proof. reflexivity. Qed.

(** Example 3: local unread count 3, snapshot with another last message
    and unread count 4 (sent as a string): the merged list takes 4. *)
Example snapshot_wins_on_new_message :
  map unread_count
    (conversations
       (step Samples.parseInt Samples.syncing
          (EvResponse 0 (Resolved true [Samples.server7 "on my way" (CountString "4")]))))
  = [4].
Proof. reflexivity. Qed.

(** Example 1: the event for message 101 of user 9 arrives twice, on the
    screen with the listeners of two renders registered. *)
Example duplicate_event_counts_once :
  map unread_count
    (conversations
       (run Samples.parseInt Samples.home
          [EvSocket (MessageNew Samples.message101);
           EvSocket (MessageNew Samples.message101)]))
  = [4].
Proof. vm_compute. reflexivity. Qed.

(** Example 5: five calls, 20 ms apart; 499 ms after the last one no pull
    has been made, 500 ms after it one has. *)
Example five_calls_one_pull :
  let calls := burst Samples.mountRender [20; 20; 20; 20]%nat
                 (updateConversationsSilently Samples.mountRender Samples.home) in
  pulls Samples.home = 2%nat
  /\ pulls (elapse 499 calls) = 2%nat /\ pulls (elapse 500 calls) = 3%nat
  /\ pulls (elapse 5000 calls) = 3%nat.
Proof. vm_compute. auto. Qed.

(** The mount effect registers the listeners of the first render; the
    typing refresh of the focus effect adds those of the render that
    followed [setCurrentUser]. *)
Example listeners_after_mount :
  listeners Samples.loaded = [Samples.mountRender]
  /\ listeners Samples.home = [Samples.mountRender; Samples.userRender]
  /\ openedListeners Samples.home
     = [Samples.mountRender; Samples.mountRender; Samples.userRender; Samples.userRender]
  /\ intervals Samples.home = Some Samples.mountRender
  /\ focusRender Samples.home = Samples.userRender.
Proof. repeat split. Qed.

(** Which listener comes first depends on how long the pull of the mount
    effect takes: answered after the typing refresh of the focus effect
    has run, it leaves the listener of the later render in front, and a
    message of the local user is then not counted. *)
Example own_message_after_slow_load :
  map r_currentUser (listeners Samples.homeAfterSlowLoad) = [Some Samples.alice; None]
  /\ map unread_count
       (conversations (step Samples.parseInt Samples.homeAfterSlowLoad
                         (EvSocket (MessageNew Samples.ownMessage))))
     = [3].
Proof. vm_compute. auto. Qed.

(** The follow-up sync of the [message:new] listener compares the
    [lastMessageUpdate] of its render with the time of the event: one
    second after the event its timer fires and nothing is scheduled. *)
Example follow_up_never_syncs :
  let s := step Samples.parseInt Samples.home (EvSocket (MessageNew Samples.message101)) in
  map timer_task (timers s) = [FollowUpTask Samples.mountRender (clock Samples.home)]
  /\ lastMessageUpdate s = clock Samples.home
  /\ timers (elapse 1000 s) = []
  /\ pulls (elapse 1000 s) = pulls s.
Proof. vm_compute. auto. Qed.

(** The new-conversation check searches the list of its render, which is
    empty: it pulls for a message of a conversation the list holds. *)
Example known_conversation_is_pulled :
  pending (step Samples.parseInt Samples.home (EvSocket (MessageNew Samples.message101)))
  = [ReqNewConversation Samples.mountRender Samples.message101].
Proof. vm_compute. reflexivity. Qed.

Lemma snapshot_merge_freshness_witness :
  [Samples.server7 "see you" (CountNumber 1)] !! 0%nat
  = Some (Samples.server7 "see you" (CountNumber 1))
  /\ findConversation 7 (conversations Samples.home) = Some (Samples.local7 3)
  /\ exists merged,
      conversations
        (complete Samples.parseInt ReqSync
           (Resolved true [Samples.server7 "see you" (CountNumber 1)]) Samples.home)
      !! 0%nat = Some merged
      /\ unread_count merged = 3.
Proof.
  split; [reflexivity |]. split; [reflexivity |].
  destruct (snapshot_merge_freshness Samples.parseInt Samples.home
              [Samples.server7 "see you" (CountNumber 1)] 0
              (Samples.server7 "see you" (CountNumber 1)) (Samples.local7 3)
              eq_refl eq_refl) as (merged & Hm & Hkeep & _).
  exists merged. split; [exact Hm |].
  apply Hkeep; [repeat split | reflexivity].
Defined.

Lemma message101_is_new : messageKey Samples.message101 ∉ processedMessageKeys Samples.home.
Proof. apply (bool_decide_unpack _). vm_compute. reflexivity. Defined.

Lemma ownMessage_is_new : messageKey Samples.ownMessage ∉ processedMessageKeys Samples.home.
Proof. apply (bool_decide_unpack _). vm_compute. reflexivity. Defined.

Lemma message_event_idempotent_witness :
  exists conv',
    conversations
      (step Samples.parseInt
         (step Samples.parseInt Samples.home (EvSocket (MessageNew Samples.message101)))
         (EvSocket (MessageNew Samples.message101))) !! 0%nat
    = Some conv'
    /\ unread_count conv' = 3 + 1.
Proof.
  apply (proj2 (proj2 (proj2 (proj2
           (message_event_idempotent Samples.parseInt Samples.mountRender
              Samples.message101 Samples.home))))
           [Samples.userRender] 0%nat (Samples.local7 3)).
  - reflexivity.
  - reflexivity.
  - exact message101_is_new.
  - simpl. discriminate.
  - reflexivity.
  - reflexivity.
Defined.

(** C3 at the failing input: the screen of Alice (user 1) two seconds
    after its mount, with three unread messages in conversation 7, gets
    [message:read { conversationId: 7 }] without a user id, and the count
    is cleared; right after the mount effect has registered its listeners,
    [message:read { conversationId: 7, userId: 1 }], Alice's own, clears
    nothing. *)
Lemma unread_clearing_stale_closure_witness :
  currentUser Samples.home = Some Samples.alice
  /\ map unread_count (conversations Samples.home) = [3]
  /\ (exists conv',
      conversations (step Samples.parseInt Samples.home
                       (EvSocket (MessageRead Samples.readByNobody))) !! 0%nat
      = Some conv'
      /\ unread_count conv' = 0)
  /\ conversations (step Samples.parseInt Samples.loaded
                      (EvSocket (MessageRead Samples.readByAlice)))
     = conversations Samples.loaded.
Proof.
  assert (Forall (fun r => r_currentUser r = None) (listeners Samples.loaded)) as Hfirst.
  { apply Forall_cons. split; [reflexivity | apply Forall_nil_2]. }
  split; [reflexivity |]. split; [reflexivity |]. split.
  - apply (proj1 (proj2 (unread_clearing_stale_closure Samples.parseInt
                           Samples.readByNobody Samples.home
                           (MessageRead Samples.readByNobody) (listeners Samples.home)
                           (or_introl (conj eq_refl eq_refl)) eq_refl))
             (ex_intro _ Samples.mountRender (conj (list_elem_of_here _ _) eq_refl))
             eq_refl 0%nat (Samples.local7 3) eq_refl eq_refl).
  - apply (proj2 (proj2 (unread_clearing_stale_closure Samples.parseInt
                           Samples.readByAlice Samples.loaded
                           (MessageRead Samples.readByAlice) (listeners Samples.loaded)
                           (or_introl (conj eq_refl eq_refl)) eq_refl))
             Hfirst 1 eq_refl).
Defined.

(** C4 at the failing input: the screen of Alice gets the [message:new]
    of a message Alice herself sent to conversation 7, and the unread
    count of conversation 7 goes from 3 to 4. *)
Lemma own_message_counts_as_unread_witness :
  HomeScreen.sender_id Samples.ownMessage = user_id Samples.alice
  /\ currentUser Samples.home = Some Samples.alice
  /\ exists merged,
      conversations (step Samples.parseInt Samples.home
                       (EvSocket (MessageNew Samples.ownMessage))) !! 0%nat
      = Some merged
      /\ unread_count merged = 3 + 1.
Proof.
  split; [reflexivity |]. split; [reflexivity |].
  destruct (own_message_counts_as_unread Samples.parseInt Samples.ownMessage Samples.home
              Samples.mountRender [Samples.userRender] 0%nat (Samples.local7 3)
              eq_refl eq_refl eq_refl ownMessage_is_new eq_refl eq_refl)
    as (merged & Hm & Hu & _).
  exists merged. split; [exact Hm | exact Hu].
Defined.

(** C7 at the failing input: while the pull of a silent sync is in
    flight and marked, the server pushes [conversations_updated] for Alice
    again and the listener calls [updateConversationsSilently]; 500 ms
    later a second pull is in flight beside the first, and no skip has
    been logged. *)
Lemma silent_sync_call_in_flight_witness :
  isUpdatingConversations Samples.syncing = true
  /\ pending Samples.syncing = [ReqSync]
  /\ step Samples.parseInt Samples.syncing (EvSocket (ConversationsUpdated (val 1)))
     = updateConversationsSilently Samples.userRender Samples.syncing
  /\ pending (elapse 500 (updateConversationsSilently Samples.userRender Samples.syncing))
     = [ReqSync; ReqSync]
  /\ console (elapse 500 (updateConversationsSilently Samples.userRender Samples.syncing))
     = [].
Proof.
  split; [reflexivity |]. split; [reflexivity |]. split; [reflexivity |].
  pose proof (silent_sync_call_in_flight Samples.userRender Samples.syncing 500
                eq_refl eq_refl (le_n 500)) as H.
  cbv zeta in H. destruct H as (_ & _ & _ & Hq & Hc).
  split; [exact Hq | exact Hc].
Defined.

(** C6, the claim as worded fails: the pull of the silent sync is rejected
    with status 401; the interceptor of the client has removed the token
    and the user, and the router stays where it was. *)
Lemma silent_sync_unauthorized_no_redirect :
  pending Samples.syncing = [ReqSync]
  /\ (let s' := step Samples.parseInt Samples.syncing (EvResponse 0 (Rejected (Some 401))) in
      storage s' !! "authToken"%string = None
      /\ storage s' !! "user"%string = None
      /\ route s' = "/"%string
      /\ ~ tornDown s'
      /\ conversations s' = conversations Samples.syncing).
Proof.
  split; [reflexivity |].
  assert (route (step Samples.parseInt Samples.syncing (EvResponse 0 (Rejected (Some 401))))
          = "/"%string) as Hroute by reflexivity.
  split; [vm_compute; reflexivity |]. split; [vm_compute; reflexivity |].
  split; [exact Hroute |]. split; [| reflexivity].
  intros (_ & _ & Hlogin). rewrite Hroute in Hlogin. discriminate.
Qed.

Lemma pull_failure_policy_witness :
  tornDown (complete Samples.parseInt (ReqLoad FromRefresh) (Rejected (Some 401))
              Samples.home)
  /\ route (complete Samples.parseInt ReqSync (Rejected (Some 401)) Samples.home)
     = route Samples.home
  /\ storage (complete Samples.parseInt ReqSync (Rejected (Some 401)) Samples.home)
     !! "authToken"%string = None
  /\ storage (complete Samples.parseInt ReqSync (Rejected (Some 500)) Samples.home)
     = storage Samples.home.
Proof.
  pose proof (pull_failure_policy Samples.parseInt (ReqLoad FromRefresh) (Some 401)
                Samples.home) as (_ & _ & _ & _ & Hdown & _).
  pose proof (pull_failure_policy Samples.parseInt ReqSync (Some 401) Samples.home)
    as (_ & _ & Hgone & _ & _ & Hroute & _).
  pose proof (pull_failure_policy Samples.parseInt ReqSync (Some 500) Samples.home)
    as (_ & _ & _ & Hkeep & _).
  split; [| split; [| split]].
  - apply Hdown; [left; eexists; reflexivity | reflexivity].
  - apply Hroute. left. reflexivity.
  - apply (proj1 (Hgone eq_refl)).
  - apply Hkeep. discriminate.
Defined.

End HomeProps.

(** ** Properties of the chat screen *)

Module ChatProps.

Import ChatScreen.

Lemma find_id_Some (m : Message) (prev : list Message) :
  (exists m0, m0 ∈ prev /\ id m0 = id m) ->
  exists m1, List.find (fun msg => strict_eq (id msg) (id m)) prev = Some m1.
Proof.
  intros (m0 & Hin & Hid).
  induction prev as [|x prev IH]; [inversion Hin |].
  simpl. unfold strict_eq at 1. case_bool_decide; [eauto |].
  apply IH. inversion Hin; subst; [contradiction | assumption].
Qed.

Lemma find_id_None (m : Message) (prev : list Message) :
  List.find (fun msg => strict_eq (id msg) (id m)) prev = None ->
  id m ∉ map id prev.
Proof.
  induction prev as [|x prev IH]; simpl; [intros _; apply not_elem_of_nil |].
  unfold strict_eq at 1. case_bool_decide; [discriminate |].
  intros Hf. apply not_elem_of_cons. split; [congruence | auto].
Qed.

(** *** Delivery states only move forward *)

(** The order [sent < delivered < read] of the indicator. *)
Definition rank (d : DeliveryStatus) : nat :=
  match d with
  | sent => 0
  | delivered => 1
  | read => 2
  end.

(** [m'] is [m] later on: the same message, with no flag taken back. *)
Definition advances (m m' : Message) : Prop :=
  id m' = id m
  /\ (is_delivered m = true -> is_delivered m' = true)
  /\ (is_read m = true -> is_read m' = true).

Lemma advances_refl (m : Message) : advances m m.
Proof. unfold advances. auto. Qed.

Lemma advances_trans (a b c : Message) : advances a b -> advances b c -> advances a c.
Proof. unfold advances. intros (? & ? & ?) (? & ? & ?). repeat split; auto; congruence. Qed.

Lemma advances_rank (m m' : Message) :
  advances m m' -> (rank (tickStatus m) <= rank (tickStatus m'))%nat.
Proof.
  unfold advances, tickStatus. intros (_ & Hd & Hr).
  destruct (is_read m), (is_delivered m), (is_read m') eqn:R, (is_delivered m') eqn:D;
    simpl; try lia; try (specialize (Hr eq_refl); discriminate);
    try (specialize (Hd eq_refl); discriminate).
Qed.

Lemma map_advances (f : Message -> Message) (l : list Message) (i : nat) (m : Message) :
  (forall x, advances x (f x)) ->
  l !! i = Some m ->
  exists m', map f l !! i = Some m' /\ advances m m'.
Proof.
  intros Hf Hi. exists (f m). rewrite lookup_map, Hi. auto.
Qed.

Lemma listen_advances (this other : Z) (cu : option User) (e : Event) (s : State)
    (i : nat) (m : Message) :
  messages s !! i = Some m ->
  exists m', messages (listen this other cu s e) !! i = Some m' /\ advances m m'.
Proof.
  intros Hi.
  assert (exists m', messages s !! i = Some m' /\ advances m m') as Hsame.
  { exists m. split; [assumption | apply advances_refl]. }
  destruct e; simpl; try exact Hsame.
  - unfold onNewMessage. destruct (strict_eq _ _); [| exact Hsame]. simpl.
    unfold addMessage. destruct (List.find _ _); [exact Hsame |].
    exists m. split; [| apply advances_refl].
    apply lookup_app_l_Some. assumption.
  - unfold onTypingStart. destruct (_ && _); exact Hsame.
  - unfold onTypingStop. destruct (_ && _); exact Hsame.
  - unfold onUserStatusChange. destruct (strict_eq _ _); [| exact Hsame].
    destruct isOnline; [| exact Hsame].
    unfold updatePendingMessageDeliveryStatus. simpl.
    destruct cu; [| exact Hsame]. simpl.
    apply map_advances; [| assumption].
    intros x. destruct (_ && _); unfold advances; simpl; auto.
  - unfold onUserTypingStatus. destruct (strict_eq _ _); exact Hsame.
  - unfold onMessageDelivered. destruct (strict_eq _ _); [| exact Hsame]. simpl.
    apply map_advances; [| assumption].
    intros x. destruct (strict_eq _ _); unfold advances; simpl; auto.
  - unfold onMessageRead. destruct (strict_eq _ _); [| exact Hsame]. simpl.
    apply map_advances; [| assumption].
    intros x. destruct messageIds as [ids|]; [destruct (bool_decide _) |];
      unfold advances; simpl; auto.
Qed.

Lemma focusCallback_advances (s : State) (i : nat) (m : Message) :
  messages s !! i = Some m ->
  exists m', messages (focusCallback s) !! i = Some m' /\ advances m m'.
Proof.
  intros Hi. unfold focusCallback.
  destruct (currentUser s) as [u|]; [| exists m; split; [assumption | apply advances_refl]].
  destruct (existsb _ _); [| exists m; split; [assumption | apply advances_refl]].
  simpl. apply map_advances; [| assumption].
  intros x. destruct (unreadFrom u x); unfold advances; simpl; auto.
Qed.

Lemma rerender_advances (s : State) (i : nat) (m : Message) :
  messages s !! i = Some m ->
  exists m', messages (rerender s) !! i = Some m' /\ advances m m'.
Proof.
  intros Hi. unfold rerender. destruct (focused s).
  - apply focusCallback_advances. assumption.
  - exists m. split; [assumption | apply advances_refl].
Qed.

Lemma step_advances (this other : Z) (cu : option User) (e : Event) (s : State)
    (i : nat) (m : Message) :
  messages s !! i = Some m ->
  exists m', messages (step this other cu s e) !! i = Some m' /\ advances m m'.
Proof.
  intros Hi.
  assert (exists m', messages (if newList this other cu s e
                               then rerender (listen this other cu s e)
                               else listen this other cu s e) !! i = Some m'
                     /\ advances m m') as Hlisten.
  { destruct (listen_advances this other cu e s i m Hi) as (m1 & H1 & A1).
    destruct (newList this other cu s e); [| eauto].
    destruct (rerender_advances _ i m1 H1) as (m2 & H2 & A2).
    exists m2. split; [assumption | eapply advances_trans; eassumption]. }
  destruct e; try exact Hlisten; simpl.
  - apply rerender_advances. exact Hi.
  - destruct (focused s); [exists m; split; [assumption | apply advances_refl] |].
    apply focusCallback_advances. exact Hi.
Qed.

(** C8. Delivery-state monotonicity. Over any sequence of inbound events,
    whichever user the render of the listeners has, and with the focus
    effect running in between, a message of the list stays at its position
    with its id, a set [is_delivered] or [is_read] flag stays set, and the
    indicator drawn for it never moves back in the order sent, delivered,
    read. *)
Theorem delivery_state_monotone
    (this other : Z) (cu : option User) (es : list Event) (s : State)
    (i : nat) (m : Message) :
  messages s !! i = Some m ->
  exists m',
    messages (run this other cu s es) !! i = Some m'
    /\ id m' = id m
    /\ (is_delivered m = true -> is_delivered m' = true)
    /\ (is_read m = true -> is_read m' = true)
    /\ (rank (tickStatus m) <= rank (tickStatus m'))%nat.
Proof.
  intros Hi.
  assert (exists m', messages (run this other cu s es) !! i = Some m' /\ advances m m')
    as (m' & Hm' & Hadv).
  { revert s m Hi. induction es as [|e es IH]; intros s m Hi.
    - exists m. split; [assumption | apply advances_refl].
    - simpl. destruct (step_advances this other cu e s i m Hi) as (m1 & H1 & A1).
      destruct (IH _ _ H1) as (m2 & H2 & A2).
      exists m2. split; [assumption | eapply advances_trans; eassumption]. }
  exists m'. split; [assumption |].
  pose proof (advances_rank _ _ Hadv).
  destruct Hadv as (? & ? & ?). auto.
Qed.

(** *** One message per id *)

Lemma addMessage_known (m : Message) (prev : list Message) :
  (exists m0, m0 ∈ prev /\ id m0 = id m) -> addMessage m prev = prev.
Proof.
  intros H. unfold addMessage.
  destruct (find_id_Some m prev H) as (m1 & ->). reflexivity.
Qed.

Lemma addMessage_NoDup (m : Message) (prev : list Message) :
  NoDup (map id prev) -> NoDup (map id (addMessage m prev)).
Proof.
  intros Hnd. unfold addMessage.
  destruct (List.find _ _) eqn:Hf; [assumption |].
  rewrite map_app. simpl. apply NoDup_app. split; [assumption |]. split.
  - intros x Hx Hx'. apply list_elem_of_singleton in Hx'. subst x.
    apply (find_id_None m prev Hf). exact Hx.
  - apply NoDup_singleton.
Qed.

Lemma map_id_preserved (f : Message -> Message) (l : list Message) :
  (forall x, id (f x) = id x) -> map id (map f l) = map id l.
Proof.
  intros Hf. induction l as [|x l IH]; simpl; [reflexivity |].
  rewrite Hf, IH. reflexivity.
Qed.

Lemma listen_ids (this other : Z) (cu : option User) (e : Event) (s : State) :
  NoDup (map id (messages s)) ->
  NoDup (map id (messages (listen this other cu s e))).
Proof.
  intros Hnd. destruct e; simpl; try assumption.
  - unfold onNewMessage. destruct (strict_eq _ _); [| assumption]. simpl.
    apply addMessage_NoDup. assumption.
  - unfold onTypingStart. destruct (_ && _); assumption.
  - unfold onTypingStop. destruct (_ && _); assumption.
  - unfold onUserStatusChange. destruct (strict_eq _ _); [| assumption].
    destruct isOnline; [| assumption].
    unfold updatePendingMessageDeliveryStatus. simpl.
    destruct cu; [| assumption]. simpl.
    rewrite map_id_preserved; [assumption |].
    intros x. destruct (_ && _); reflexivity.
  - unfold onUserTypingStatus. destruct (strict_eq _ _); assumption.
  - unfold onMessageDelivered. destruct (strict_eq _ _); [| assumption]. simpl.
    unfold markDelivered. rewrite map_id_preserved; [assumption |].
    intros x. destruct (strict_eq _ _); reflexivity.
  - unfold onMessageRead. destruct (strict_eq _ _); [| assumption]. simpl.
    unfold markRead. rewrite map_id_preserved; [assumption |].
    intros x. destruct messageIds as [ids|]; [destruct (bool_decide _) |]; reflexivity.
Qed.

Lemma focusCallback_ids (s : State) :
  map id (messages (focusCallback s)) = map id (messages s).
Proof.
  unfold focusCallback. destruct (currentUser s) as [u|]; [| reflexivity].
  destruct (existsb _ _); [| reflexivity]. simpl.
  apply map_id_preserved. intros x. destruct (unreadFrom u x); reflexivity.
Qed.

Lemma rerender_ids (s : State) : map id (messages (rerender s)) = map id (messages s).
Proof. unfold rerender. destruct (focused s); [apply focusCallback_ids | reflexivity]. Qed.

Lemma step_NoDup (this other : Z) (cu : option User) (e : Event) (s : State) :
  NoDup (map id (messages s)) -> NoDup (map id (messages (step this other cu s e))).
Proof.
  intros Hnd.
  assert (NoDup (map id (messages (if newList this other cu s e
                                   then rerender (listen this other cu s e)
                                   else listen this other cu s e)))) as Hlisten.
  { pose proof (listen_ids this other cu e s Hnd).
    destruct (newList this other cu s e); [rewrite rerender_ids |]; assumption. }
  destruct e; try exact Hlisten; simpl.
  - rewrite rerender_ids. assumption.
  - destruct (focused s); [assumption |]. rewrite focusCallback_ids. assumption.
Qed.

(** C10. The message list holds one message per id. A list without two
    messages of one id stays so over any sequence of inbound events, and a
    [message:new] event of the open conversation whose id is the id of a
    message of the list leaves the list as it is, whatever its other
    fields. *)
Theorem message_ids_unique
    (this other : Z) (cu : option User) (es : list Event) (s : State) :
  NoDup (map id (messages s)) ->
  NoDup (map id (messages (run this other cu s es)))
  /\ (forall nm : NewMessage,
      (exists m0, m0 ∈ messages s /\ id m0 = id (message nm)) ->
      messages (step this other cu s (EvMessageNew nm)) = messages s).
Proof.
  intros Hnd. split.
  - revert s Hnd. induction es as [|e es IH]; intros s Hnd; [assumption |].
    simpl. apply IH. apply step_NoDup. assumption.
  - intros nm Hknown. simpl.
    destruct (find_id_Some (message nm) (messages s) Hknown) as (m1 & Hf).
    rewrite Hf, andb_false_r. unfold onNewMessage.
    destruct (strict_eq _ _); [| reflexivity]. simpl.
    apply addMessage_known. assumption.
Qed.

(** *** Read and delivered *)

(** The invariant of the data model: a read message is a delivered one. *)
Definition ReadImpliesDelivered (l : list Message) : Prop :=
  forall m, m ∈ l -> is_read m = true -> is_delivered m = true.

(** The listener of [e] puts a read flag on a message that has no
    delivered flag: a [message:read] of the open conversation lists a
    message of the list that is not delivered, or a [message:new] of the
    open conversation appends a message that says read and neither
    delivered nor [deliveryStatus = 'delivered']. *)
Definition ListenerReadsUndelivered (this : Z) (e : Event) (s : State) : Prop :=
  match e with
  | EvMessageRead cid (Some ids) =>
      cid = this
      /\ exists m, m ∈ messages s /\ id m ∈ ids /\ is_delivered m = false
  | EvMessageNew nm =>
      conversationId nm = this
      /\ List.find (fun msg => strict_eq (id msg) (id (message nm))) (messages s) = None
      /\ is_read (message nm) = true
      /\ deliveryStatus (message nm) <> Some delivered
      /\ is_delivered (message nm) = false
  | _ => False
  end.

Lemma ReadImpliesDelivered_map (f : Message -> Message) (l : list Message) :
  (forall x, is_read (f x) = true -> is_delivered (f x) = true
             \/ (is_read x = true /\ is_delivered (f x) = is_delivered x)) ->
  ReadImpliesDelivered l -> ReadImpliesDelivered (map f l).
Proof.
  intros Hf Hl m Hin Hr.
  apply list_elem_of_In, in_map_iff in Hin. destruct Hin as (x & <- & Hx).
  apply list_elem_of_In in Hx.
  destruct (Hf x Hr) as [Hd | [Hrx Hd]]; [assumption |].
  rewrite Hd. apply Hl; assumption.
Qed.

Lemma markRead_elem (ids : option (list Z)) (l : list Message) (m' : Message) :
  m' ∈ markRead ids l <->
  exists m, m ∈ l
    /\ m' = if match ids with
               | Some ids => bool_decide (id m ∈ ids)
               | None => false
               end
            then set_is_read true m else m.
Proof.
  unfold markRead. rewrite list_elem_of_In, in_map_iff. split.
  - intros (m & <- & Hin). exists m. rewrite list_elem_of_In. auto.
  - intros (m & Hin & ->). exists m. rewrite <- list_elem_of_In. auto.
Qed.

Lemma markRead_invariant (ids : option (list Z)) (l : list Message) :
  ReadImpliesDelivered l ->
  (ReadImpliesDelivered (markRead ids l)
   <-> ~ (exists m listed, ids = Some listed /\ m ∈ l /\ id m ∈ listed
                           /\ is_delivered m = false)).
Proof.
  intros Hinv. split.
  - intros Hafter (m & listed & -> & Hin & Hid & Hd).
    assert (set_is_read true m ∈ markRead (Some listed) l) as Hm.
    { apply markRead_elem. exists m. split; [assumption |].
      rewrite bool_decide_eq_true_2 by assumption. reflexivity. }
    specialize (Hafter _ Hm eq_refl). simpl in Hafter. congruence.
  - intros Hnone m' Hin' Hr.
    apply markRead_elem in Hin'. destruct Hin' as (m & Hin & ->).
    destruct ids as [listed|]; [| apply Hinv; assumption].
    case_bool_decide; [| apply Hinv; assumption].
    simpl. destruct (is_delivered m) eqn:Hd; [reflexivity |].
    exfalso. apply Hnone. eauto 10.
Qed.

Lemma addMessage_invariant (m : Message) (l : list Message) :
  ReadImpliesDelivered l ->
  (ReadImpliesDelivered (addMessage m l)
   <-> ~ (List.find (fun msg => strict_eq (id msg) (id m)) l = None
          /\ is_read m = true
          /\ deliveryStatus m <> Some delivered
          /\ is_delivered m = false)).
Proof.
  intros Hinv. unfold addMessage.
  destruct (List.find _ _) eqn:Hf.
  - split; [intros _ (? & _); discriminate | auto].
  - split.
    + intros Hafter (_ & Hr & Hs & Hd).
      assert (is_delivered
                (set_is_delivered
                   (strict_eq (deliveryStatus m) (Some delivered) || is_delivered m) m)
              = true) as Hm.
      { apply Hafter; [| exact Hr]. apply elem_of_app. right. constructor. }
      simpl in Hm. rewrite Hd, orb_false_r in Hm.
      unfold strict_eq in Hm. apply bool_decide_eq_true in Hm. contradiction.
    + intros Hnot x Hx Hr.
      apply elem_of_app in Hx. destruct Hx as [Hx | Hx]; [apply Hinv; assumption |].
      apply list_elem_of_singleton in Hx. subst x. simpl in *.
      destruct (is_delivered m) eqn:Hd; [apply orb_true_r |].
      rewrite orb_false_r. unfold strict_eq. apply bool_decide_eq_true.
      destruct (decide (deliveryStatus m = Some delivered)) as [|Hne]; [assumption |].
      exfalso. apply Hnot. auto.
Qed.
Lemma read_implies_delivered_listen
    (this other : Z) (cu : option User) (e : Event) (s : State) :
  ReadImpliesDelivered (messages s) ->
  (ReadImpliesDelivered (messages (listen this other cu s e))
   <-> ~ ListenerReadsUndelivered this e s).
Proof.
  intros Hinv.
  assert (forall P : Prop, ~ P -> (ReadImpliesDelivered (messages s) <-> ~ P)) as Hkeep.
  { intros P HP. split; auto. }
  destruct e; simpl; try (apply Hkeep; tauto).
  - unfold onNewMessage, strict_eq. case_bool_decide as Hc; simpl.
    + rewrite (addMessage_invariant _ _ Hinv). tauto.
    + apply Hkeep. tauto.
  - unfold onTypingStart. destruct (_ && _); apply Hkeep; tauto.
  - unfold onTypingStop. destruct (_ && _); apply Hkeep; tauto.
  - split; [tauto | intros _].
    unfold onUserStatusChange. destruct (strict_eq _ _); [| assumption].
    destruct isOnline; [| assumption].
    unfold updatePendingMessageDeliveryStatus. simpl.
    destruct cu; [| assumption]. simpl.
    apply ReadImpliesDelivered_map; [| assumption].
    intros x. destruct (_ && _); simpl; auto.
  - unfold onUserTypingStatus. destruct (strict_eq _ _); apply Hkeep; tauto.
  - split; [tauto | intros _].
    unfold onMessageDelivered. destruct (strict_eq _ _); [| assumption]. simpl.
    apply ReadImpliesDelivered_map; [| assumption].
    intros x. destruct (strict_eq _ _); simpl; auto.
  - unfold onMessageRead, strict_eq. case_bool_decide as Hc; simpl.
    + rewrite (markRead_invariant _ _ Hinv).
      destruct messageIds as [ids|].
      * split; intros Hn H; apply Hn.
        -- destruct H as (_ & m & ? & ? & ?). eauto 10.
        -- destruct H as (m & listed & Heq & ? & ? & ?). inversion Heq; subst. eauto 10.
      * split; [tauto | intros _ (m & listed & Heq & _); discriminate].
    + apply Hkeep. destruct messageIds; tauto.
Qed.

(** The invariant and the offending events as tests, for concrete lists. *)
Definition readImpliesDelivered (l : list Message) : bool :=
  forallb (fun m => implb (is_read m) (is_delivered m)) l.

Definition listenerReadsUndelivered (this : Z) (e : Event) (s : State) : bool :=
  match e with
  | EvMessageRead cid (Some ids) =>
      strict_eq cid this
      && existsb (fun m => bool_decide (id m ∈ ids) && negb (is_delivered m)) (messages s)
  | EvMessageNew nm =>
      strict_eq (conversationId nm) this
      && match List.find (fun msg => strict_eq (id msg) (id (message nm))) (messages s) with
         | Some _ => false
         | None => true
         end
      && is_read (message nm)
      && negb (strict_eq (deliveryStatus (message nm)) (Some delivered))
      && negb (is_delivered (message nm))
  | _ => false
  end.

Lemma readImpliesDelivered_spec (l : list Message) :
  readImpliesDelivered l = true <-> ReadImpliesDelivered l.
Proof.
  unfold readImpliesDelivered, ReadImpliesDelivered. rewrite forallb_forall. split.
  - intros H m Hin Hr. apply list_elem_of_In in Hin. specialize (H m Hin).
    rewrite Hr in H. exact H.
  - intros H m Hin. apply list_elem_of_In in Hin.
    destruct (is_read m) eqn:Hr; [| reflexivity]. simpl. apply H; assumption.
Qed.

Lemma listenerReadsUndelivered_spec (this : Z) (e : Event) (s : State) :
  listenerReadsUndelivered this e s = true <-> ListenerReadsUndelivered this e s.
Proof.
  destruct e as [nm| | | | | |cid [ids|]| | | |]; simpl;
    try (split; [discriminate | tauto]).
  - rewrite !andb_true_iff, !negb_true_iff.
    unfold strict_eq. rewrite bool_decide_eq_true, bool_decide_eq_false.
    destruct (List.find _ _); intuition congruence.
  - rewrite andb_true_iff, existsb_exists.
    unfold strict_eq. rewrite bool_decide_eq_true.
    split.
    + intros (Hc & m & Hin & Hm). apply andb_true_iff in Hm. destruct Hm as [Hid Hd].
      apply bool_decide_eq_true in Hid. apply negb_true_iff in Hd.
      apply list_elem_of_In in Hin. eauto 10.
    + intros (Hc & m & Hin & Hid & Hd). split; [assumption |].
      exists m. rewrite <- list_elem_of_In. split; [assumption |].
      rewrite Hd, bool_decide_eq_true_2 by assumption. reflexivity.
Qed.

Lemma read_implies_delivered_listen_test
    (this other : Z) (cu : option User) (e : Event) (s : State) :
  readImpliesDelivered (messages s) = true ->
  readImpliesDelivered (messages (listen this other cu s e))
  = negb (listenerReadsUndelivered this e s).
Proof.
  intros Hinv. apply readImpliesDelivered_spec in Hinv.
  pose proof (read_implies_delivered_listen this other cu e s Hinv) as Hstep.
  rewrite <- readImpliesDelivered_spec, <- listenerReadsUndelivered_spec in Hstep.
  destruct (readImpliesDelivered _), (listenerReadsUndelivered _ _ _); simpl;
    try reflexivity; exfalso; intuition congruence.
Qed.

(** *** The focus effect after the listener *)

(** The message is one of somebody else. *)
Definition foreign (cu : option User) (m : Message) : bool :=
  match cu with
  | Some u => negb (strict_eq (sender_id m) (user_id u))
  | None => false
  end.

(** The list holds an unread message of somebody else that is not
    delivered: [markMessagesAsRead] would leave it read and undelivered. *)
Definition foreignUndelivered (s : State) : bool :=
  match currentUser s with
  | Some u => existsb (fun m => unreadFrom u m && negb (is_delivered m)) (messages s)
  | None => false
  end.

Section Effect.

Variables (this other : Z) (cu : option User).

(** The state in which the focus callback runs after the event, when it
    runs, and whether it runs. *)
Definition beforeEffect (s : State) (e : Event) : State :=
  match e with
  | EvUserLoaded u => set_currentUser (Some u) s
  | EvFocus => set_focused true s
  | EvBlur | EvClock _ => step this other cu s e
  | _ => listen this other cu s e
  end.

Definition effectRuns (s : State) (e : Event) : bool :=
  match e with
  | EvUserLoaded _ => focused s
  | EvFocus => negb (focused s)
  | EvBlur | EvClock _ => false
  | _ => newList this other cu s e && focused s
  end.

(** The event leaves a read flag on an undelivered message: its listener
    puts one, or the focus callback that follows does. *)
Definition readsUndelivered (s : State) (e : Event) : bool :=
  listenerReadsUndelivered this e s
  || (effectRuns s e && foreignUndelivered (beforeEffect s e)).

(** No event of [es], handled in turn from [s], does. *)
Fixpoint neverReadsUndelivered (s : State) (es : list Event) : bool :=
  match es with
  | [] => true
  | e :: es' =>
      negb (readsUndelivered s e) && neverReadsUndelivered (step this other cu s e) es'
  end.

Lemma listen_focused (s : State) (e : Event) :
  focused (listen this other cu s e) = focused s.
Proof.
  destruct e; simpl; try reflexivity.
  - unfold onNewMessage. destruct (strict_eq _ _); reflexivity.
  - unfold onTypingStart. destruct (_ && _); reflexivity.
  - unfold onTypingStop. destruct (_ && _); reflexivity.
  - unfold onUserStatusChange. destruct (strict_eq _ _); [| reflexivity].
    destruct isOnline; [| reflexivity].
    unfold updatePendingMessageDeliveryStatus. destruct cu; reflexivity.
  - unfold onUserTypingStatus. destruct (strict_eq _ _); reflexivity.
  - unfold onMessageDelivered. destruct (strict_eq _ _); reflexivity.
  - unfold onMessageRead. destruct (strict_eq _ _); reflexivity.
Qed.

Lemma step_messages (s : State) (e : Event) :
  messages (step this other cu s e)
  = messages (if effectRuns s e then focusCallback (beforeEffect s e)
              else beforeEffect s e).
Proof.
  assert (messages (if newList this other cu s e
                    then rerender (listen this other cu s e)
                    else listen this other cu s e)
          = messages (if newList this other cu s e && focused s
                      then focusCallback (listen this other cu s e)
                      else listen this other cu s e)) as Hlisten.
  { unfold rerender. rewrite listen_focused.
    destruct (newList this other cu s e), (focused s); reflexivity. }
  destruct e; try exact Hlisten; simpl.
  - unfold rerender. simpl. destruct (focused s); reflexivity.
  - destruct (focused s); reflexivity.
Qed.

Lemma beforeEffect_test (s : State) (e : Event) :
  readImpliesDelivered (messages s) = true ->
  readImpliesDelivered (messages (beforeEffect s e))
  = negb (listenerReadsUndelivered this e s).
Proof.
  intros Hinv.
  pose proof (read_implies_delivered_listen_test this other cu e s Hinv) as Hlisten.
  destruct e; try exact Hlisten; simpl; exact Hinv.
Qed.

End Effect.

Lemma markOthersRead_test (u : User) (readAt : string) (l : list Message) :
  readImpliesDelivered (markOthersRead u readAt l)
  = readImpliesDelivered l
    && negb (existsb (fun m => unreadFrom u m && negb (is_delivered m)) l).
Proof.
  induction l as [|x l IH]; [reflexivity |].
  simpl. rewrite IH. unfold unreadFrom.
  destruct (strict_eq (sender_id x) (user_id u)) eqn:E1, (is_read x) eqn:E2,
    (is_delivered x) eqn:E3; simpl; rewrite ?E2, ?E3; simpl;
    destruct (readImpliesDelivered l), (existsb _ l); reflexivity.
Qed.

Lemma existsb_weaken {A} (f g : A -> bool) (l : list A) :
  existsb f l = false -> existsb (fun x => f x && g x) l = false.
Proof.
  induction l as [|x l IH]; simpl; [reflexivity |].
  intros H. apply orb_false_iff in H. destruct H as [-> H]. simpl. auto.
Qed.

Lemma existsb_lookup {A} (f : A -> bool) (l : list A) (i : nat) (x : A) :
  existsb f l = false -> l !! i = Some x -> f x = false.
Proof.
  revert i. induction l as [|y l IH]; intros [|i] H Hi; simpl in *; try discriminate;
    apply orb_false_iff in H; destruct H as [Hy H].
  - inversion Hi; subst. exact Hy.
  - eauto.
Qed.

Lemma focusCallback_test (s : State) :
  readImpliesDelivered (messages (focusCallback s))
  = readImpliesDelivered (messages s) && negb (foreignUndelivered s).
Proof.
  unfold focusCallback, foreignUndelivered.
  destruct (currentUser s) as [u|]; [| rewrite andb_true_r; reflexivity].
  destruct (existsb (unreadFrom u) (messages s)) eqn:He.
  - simpl. apply markOthersRead_test.
  - rewrite (existsb_weaken _ _ _ He), andb_true_r. reflexivity.
Qed.

Lemma read_implies_delivered_test
    (this other : Z) (cu : option User) (e : Event) (s : State) :
  readImpliesDelivered (messages s) = true ->
  readImpliesDelivered (messages (step this other cu s e))
  = negb (readsUndelivered this other cu s e).
Proof.
  intros Hinv. rewrite step_messages. unfold readsUndelivered.
  pose proof (beforeEffect_test this other cu s e Hinv) as Hb.
  destruct (effectRuns this other cu s e); simpl.
  - rewrite focusCallback_test, Hb, negb_orb. reflexivity.
  - rewrite Hb, orb_false_r. reflexivity.
Qed.

(** What the focus callback does to one message. *)
Lemma focusCallback_lookup (s : State) (i : nat) (m : Message) :
  messages s !! i = Some m ->
  exists m',
    messages (focusCallback s) !! i = Some m'
    /\ is_delivered m' = is_delivered m
    /\ is_read m' = is_read m || foreign (currentUser s) m.
Proof.
  intros Hi. unfold focusCallback, foreign.
  destruct (currentUser s) as [u|];
    [| exists m; rewrite orb_false_r; auto].
  destruct (existsb (unreadFrom u) (messages s)) eqn:He.
  - simpl. unfold markOthersRead. rewrite lookup_map, Hi. simpl.
    eexists. split; [reflexivity |]. unfold unreadFrom.
    destruct (strict_eq (sender_id m) (user_id u)), (is_read m) eqn:Er; simpl;
      rewrite ?Er; auto.
  - exists m. split; [assumption |]. split; [reflexivity |].
    pose proof (existsb_lookup _ _ _ _ He Hi) as Hm. unfold unreadFrom in Hm.
    destruct (strict_eq (sender_id m) (user_id u)), (is_read m) eqn:Er; simpl in *;
      congruence.
Qed.

(** C5, as amended. Neither the [message:read] listener nor
    [markMessagesAsRead], which the focus effect runs after every change of
    the list on a focused screen, touches [is_delivered] when it sets
    [is_read]. From a list in which every read message is delivered, an
    event leads to such a list again exactly when neither its listener nor
    the focus callback that follows puts a read flag on a message without
    a delivered flag, and so does a sequence of events none of which does.
    A [message:read] event leaves [is_delivered] as it is and sets
    [is_read] on the listed messages and, on a focused screen with the user
    loaded, on the messages of anybody else. On such a screen a new message
    of somebody else that comes undelivered ends read and undelivered. *)
Theorem read_implies_delivered_preserved
    (this other : Z) (cu : option User) (s : State) :
  readImpliesDelivered (messages s) = true ->
  (forall e : Event,
     readImpliesDelivered (messages (step this other cu s e))
     = negb (readsUndelivered this other cu s e))
  /\ (forall es : list Event,
      neverReadsUndelivered this other cu s es = true ->
      readImpliesDelivered (messages (run this other cu s es)) = true)
  /\ (forall (cid : Z) (ids : option (list Z)) (i : nat) (m : Message),
      messages s !! i = Some m ->
      exists m',
        messages (step this other cu s (EvMessageRead cid ids)) !! i = Some m'
        /\ is_delivered m' = is_delivered m
        /\ is_read m'
           = is_read m
             || (strict_eq cid this
                 && (match ids with
                     | Some ids => bool_decide (id m ∈ ids)
                     | None => false
                     end
                     || (focused s && foreign (currentUser s) m))))
  /\ (forall (nm : NewMessage) (u : User),
      conversationId nm = this ->
      List.find (fun msg => strict_eq (id msg) (id (message nm))) (messages s) = None ->
      focused s = true ->
      currentUser s = Some u ->
      sender_id (message nm) <> user_id u ->
      is_read (message nm) = false ->
      is_delivered (message nm) = false ->
      deliveryStatus (message nm) <> Some delivered ->
      readImpliesDelivered (messages (step this other cu s (EvMessageNew nm))) = false).
Proof.
  intros Hinv. split; [| split; [| split]].
  - intros e. apply read_implies_delivered_test. assumption.
  - intros es. revert s Hinv. induction es as [|e es IH]; intros s Hinv Hes.
    + exact Hinv.
    + simpl in Hes. apply andb_true_iff in Hes. destruct Hes as [He Hes].
      simpl. apply IH; [| assumption].
      rewrite read_implies_delivered_test by assumption. exact He.
  - intros cid ids i m Hi. rewrite step_messages. simpl.
    unfold onMessageRead.
    destruct (strict_eq cid this); simpl.
    + assert (markRead ids (messages s) !! i
              = Some (if match ids with
                         | Some ids => bool_decide (id m ∈ ids)
                         | None => false
                         end
                      then set_is_read true m else m)) as Hm.
      { unfold markRead. rewrite lookup_map, Hi. reflexivity. }
      destruct (focused s).
      * destruct (focusCallback_lookup (set_messages (markRead ids (messages s)) s) i _ Hm)
          as (m' & Hm' & Hd & Hr).
        exists m'. split; [exact Hm' |]. rewrite Hd, Hr. simpl.
        destruct ids as [ids|]; [destruct (bool_decide _) |]; simpl;
          unfold foreign; destruct (currentUser s); simpl;
          rewrite ?orb_true_r, ?orb_false_r; auto.
      * eexists. split; [exact Hm |].
        destruct ids as [ids|]; [destruct (bool_decide _) |]; simpl;
          rewrite ?orb_true_r, ?orb_false_r; auto.
    + exists m. rewrite orb_false_r. auto.
  - intros nm u Hc Hfresh Hf Hu Hsender Hr Hd Hs.
    rewrite read_implies_delivered_test by assumption.
    unfold readsUndelivered, effectRuns, beforeEffect, foreignUndelivered. simpl.
    unfold onNewMessage. rewrite Hfresh, Hf, (proj2 (strict_eq_true _ _) Hc). simpl.
    rewrite Hu. unfold addMessage. rewrite Hfresh.
    rewrite existsb_app. simpl. unfold unreadFrom at 2. simpl.
    rewrite (proj2 (strict_eq_false _ _) Hsender), Hr, Hd,
      (proj2 (strict_eq_false _ _) Hs). simpl.
    rewrite !orb_true_r. reflexivity.
Qed.

(** *** The examples of the specification, and the claims at sample data *)

(** Example 4: message 101 is sent, then confirmed delivered, then read. *)
Example sent_delivered_read :
  map tickStatus
    (messages (run 7 9 mountUser Samples.chat
                 [EvMessageDelivered 7 101; EvMessageRead 7 (Some [101])]))
  = [read].
Proof. reflexivity. Qed.

(** C5, the claim as worded fails: a [message:read] event that lists
    message 101 while it is still in the sent state leaves it read and not
    delivered. *)
Lemma read_event_on_sent_message :
  readImpliesDelivered (messages Samples.chat) = true
  /\ (let s' := step 7 9 mountUser Samples.chat (EvMessageRead 7 (Some [101])) in
      messages s' = [set_is_read true Samples.own101]
      /\ is_read (set_is_read true Samples.own101) = true
      /\ is_delivered (set_is_read true Samples.own101) = false
      /\ readImpliesDelivered (messages s') = false).
Proof. repeat split. Qed.

(** A message of Bob arrives, neither delivered nor read, on the focused
    screen of Alice: the focus effect marks it read, and the list holds a
    message that is read and not delivered. *)
Example incoming_message_read_undelivered :
  map (fun m => (id m, is_read m, is_delivered m))
    (messages (step 7 9 mountUser Samples.chat
                 (EvMessageNew (mkNewMessage 7 Samples.bob102))))
  = [(101, false, false); (102, true, false)].
Proof. reflexivity. Qed.

(** The listeners test against the user of the first render: when Bob
    comes online, the pending message of Alice is not promoted. *)
Example presence_promotes_nothing :
  map is_delivered
    (messages (step 7 9 mountUser Samples.chat (EvUserStatusChange 9 true)))
  = [false]
  /\ map is_delivered
       (messages (step 7 9 (Some Samples.alice) Samples.chat (EvUserStatusChange 9 true)))
     = [true].
Proof. split; reflexivity. Qed.

Lemma read_implies_delivered_preserved_witness :
  readImpliesDelivered (messages Samples.chat) = true
  /\ readImpliesDelivered
       (messages (run 7 9 mountUser Samples.chat
                    [EvMessageDelivered 7 101; EvMessageRead 7 (Some [101])]))
     = true
  /\ readImpliesDelivered
       (messages (step 7 9 mountUser Samples.chat (EvMessageRead 7 (Some [101]))))
     = negb (readsUndelivered 7 9 mountUser Samples.chat (EvMessageRead 7 (Some [101])))
  /\ readImpliesDelivered
       (messages (step 7 9 mountUser Samples.chat
                    (EvMessageNew (mkNewMessage 7 Samples.bob102))))
     = false.
Proof.
  split; [reflexivity |].
  destruct (read_implies_delivered_preserved 7 9 mountUser Samples.chat eq_refl)
    as (Hstep & Hrun & _ & Hnew).
  split; [| split].
  - apply Hrun. reflexivity.
  - apply Hstep.
  - apply (Hnew (mkNewMessage 7 Samples.bob102) Samples.alice);
      try reflexivity; simpl; discriminate.
Defined.

Lemma delivery_state_monotone_witness :
  exists m',
    messages (run 7 9 mountUser Samples.chat
                [EvMessageDelivered 7 101; EvMessageRead 7 (Some [101]);
                 EvUserStatusChange 9 false; EvMessageNew (mkNewMessage 7 Samples.bob102)])
    !! 0%nat = Some m'
    /\ (rank (tickStatus Samples.own101) <= rank (tickStatus m'))%nat.
Proof.
  destruct (delivery_state_monotone 7 9 mountUser
              [EvMessageDelivered 7 101; EvMessageRead 7 (Some [101]);
               EvUserStatusChange 9 false; EvMessageNew (mkNewMessage 7 Samples.bob102)]
              Samples.chat 0 Samples.own101 eq_refl)
    as (m' & Hm & _ & _ & _ & Hrank).
  exists m'. split; assumption.
Defined.

(** An event that reuses the id 101 is dropped although its sender, time
    and content differ; message 102 is added once. *)
Example chat_dedup_by_id :
  map id
    (messages (run 7 9 mountUser Samples.chat
                 [EvMessageNew (mkNewMessage 7 Samples.other101);
                  EvMessageNew (mkNewMessage 7 Samples.bob102);
                  EvMessageNew (mkNewMessage 7 Samples.bob102)]))
  = [101; 102].
Proof. reflexivity. Qed.

Lemma message_ids_unique_witness :
  NoDup (map id (messages (run 7 9 mountUser Samples.chat
                             [EvMessageNew (mkNewMessage 7 Samples.other101);
                              EvMessageNew (mkNewMessage 7 Samples.bob102);
                              EvMessageNew (mkNewMessage 7 Samples.bob102)])))
  /\ messages (step 7 9 mountUser Samples.chat
                 (EvMessageNew (mkNewMessage 7 Samples.other101)))
     = messages Samples.chat.
Proof.
  assert (NoDup (map id (messages Samples.chat))) as Hnd.
  { simpl. apply NoDup_singleton. }
  split.
  - apply (proj1 (message_ids_unique 7 9 mountUser _ Samples.chat Hnd)).
  - apply (proj2 (message_ids_unique 7 9 mountUser [] Samples.chat Hnd)).
    exists Samples.own101. split; [simpl; apply list_elem_of_singleton |]; reflexivity.
Defined.

End ChatProps.

(** ** Properties of the socket service *)

Module SocketProps.

Import SocketService.

(** Whether the [authenticated] event has been received in the current
    connect/reconnect cycle, as the specification words it: the event sets
    it, and every start or end of a cycle resets it. The service keeps no
    such flag. *)
Definition authenticatedStep (a : bool) (si : State * Input) : bool :=
  match snd si with
  | OnAuthenticated => match handlers (fst si) with Some _ => true | None => a end
  | OnConnect | OnReconnect | OnDisconnect | OnConnectError
  | OnAuthenticationError | InDisconnect | InConnect _ => false
  | _ => a
  end.

Fixpoint authenticatedFrom (a : bool) (s : State) (inputs : list Input) : bool :=
  match inputs with
  | [] => a
  | i :: inputs' => authenticatedFrom (authenticatedStep a (s, i)) (step s i) inputs'
  end.

Definition authenticatedAfter (inputs : list Input) : bool :=
  authenticatedFrom false initial inputs.

(** The transport reports a connection or a reconnection. *)
Definition isConnectEvent (i : Input) : bool :=
  match i with
  | OnConnect | OnReconnect => true
  | _ => false
  end.

(** The transport reports the end or the failure of a connection, or the
    authentication is refused. *)
Definition isCloseEvent (i : Input) : bool :=
  match i with
  | OnDisconnect | OnConnectError | OnAuthenticationError => true
  | _ => false
  end.

(** A lifecycle event of the transport. *)
Definition isLifecycleEvent (i : Input) : bool :=
  match i with
  | OnConnect | OnAuthenticated | OnAuthenticationError | OnConnectError
  | OnDisconnect | OnReconnect => true
  | _ => false
  end.

Lemma emitWhenConnected_closed (f : Frame) (s : State) :
  socket s = None \/ isConnected s = false -> emitWhenConnected f s = s.
Proof.
  intros [Hs | Hc]; unfold emitWhenConnected.
  - rewrite Hs. rewrite bool_decide_eq_false_2; [reflexivity |].
    intros [x Hx]. discriminate.
  - rewrite Hc, andb_false_r. reflexivity.
Qed.

Lemma emitWhenConnected_open (f : Frame) (s : State) :
  is_Some (socket s) -> isConnected s = true ->
  emitWhenConnected f s
  = mkState (socket s) (lifecycle s) (isConnected s) (heartbeatInterval s)
      (emitted s ++ [f]).
Proof.
  intros Hs Hc. unfold emitWhenConnected.
  rewrite bool_decide_eq_true_2 by assumption.
  destruct (isConnected s) eqn:E; [| discriminate]. simpl.
  unfold emit. destruct Hs as [t Ht]. rewrite Ht, E. reflexivity.
Qed.

Lemma send_emitWhenConnected (c : Send) (s : State) :
  send c s = emitWhenConnected (frameOf c) s.
Proof. destruct c; reflexivity. Qed.

Lemma handlers_cases (s : State) :
  handlers s = None \/ exists t, handlers s = Some t /\ socket s = Some t.
Proof.
  unfold handlers. destruct (lifecycle s); [| auto].
  destruct (socket s) as [t|]; eauto.
Qed.

Lemma step_before_connect (i : Input) (s : State) :
  isConnectEvent i = false ->
  isConnected s = false ->
  isConnected (step s i) = false /\ emitted (step s i) = emitted s.
Proof.
  intros Hi Hc.
  assert (forall f, emitWhenConnected f s = s) as Hclosed.
  { intros f. apply emitWhenConnected_closed. auto. }
  destruct i; simpl in *; try discriminate;
    unfold updateAppState, onHeartbeatInterval;
    rewrite ?send_emitWhenConnected, ?Hclosed; auto.
  - destruct token as [t|]; simpl; [destruct (truthy_str t) |]; auto.
  - unfold disconnect. simpl. destruct (socket s); auto.
  - unfold removeAllListeners. destruct (socket s); auto.
  - destruct (handlers s); auto.
  - destruct (handlers s); auto.
  - destruct (handlers s); auto.
  - destruct (handlers s); auto.
  - destruct (heartbeatInterval s); auto.
Qed.

Lemma run_before_connect (inputs : list Input) (s : State) :
  forallb (fun i => negb (isConnectEvent i)) inputs = true ->
  isConnected s = false ->
  isConnected (run s inputs) = false /\ emitted (run s inputs) = emitted s.
Proof.
  revert s. induction inputs as [|i inputs IH]; intros s Hall Hc; [auto |].
  simpl in Hall. apply andb_true_iff in Hall. destruct Hall as [Hi Hall].
  apply negb_true_iff in Hi.
  destruct (step_before_connect i s Hi Hc) as [Hc' He'].
  destruct (IH (step s i) Hall Hc') as [Hc'' He''].
  simpl. split; [assumption | congruence].
Qed.

Lemma step_closes (i : Input) (s : State) :
  i = InDisconnect \/ (isCloseEvent i = true /\ (lifecycle s = true \/ socket s = None)) ->
  socket (step s i) = None \/ isConnected (step s i) = false.
Proof.
  intros [-> | [Hi Hs]].
  - simpl. unfold disconnect. simpl. destruct (socket s) eqn:E; simpl; auto.
  - destruct i; try discriminate; simpl; unfold handlers;
      (destruct Hs as [-> | Hs];
       [destruct (socket s) eqn:E; simpl; auto
       | rewrite Hs; destruct (lifecycle s); auto]).
Qed.

(** C9, as amended. A typed send operation changes nothing when the
    service holds no socket or [isConnected] is false; with a socket and
    [isConnected] true it puts exactly its frame on the wire and changes
    nothing else, whether or not [authenticated] has been received. The
    gate is closed after [disconnect()], and after a [disconnect],
    [connect_error] or [authentication_error] event as long as the
    lifecycle handlers are registered; once [removeAllListeners()] has
    removed them, a lifecycle event changes nothing, so the gate stays as
    it is. Nothing at all is emitted before the first [connect] or
    [reconnect] event. *)
Theorem send_gating (c : Send) (s : State) (inputs : list Input) :
  (socket s = None \/ isConnected s = false -> send c s = s)
  /\ (is_Some (socket s) -> isConnected s = true ->
      send c s
      = mkState (socket s) (lifecycle s) (isConnected s) (heartbeatInterval s)
          (emitted s ++ [frameOf c]))
  /\ send c (step s InDisconnect) = step s InDisconnect
  /\ (forall i : Input,
      isCloseEvent i = true ->
      lifecycle s = true \/ socket s = None ->
      send c (step s i) = step s i)
  /\ (forall i : Input,
      isLifecycleEvent i = true ->
      step (removeAllListeners s) i = removeAllListeners s)
  /\ (forallb (fun i => negb (isConnectEvent i)) inputs = true ->
      emitted (run initial inputs) = []
      /\ send c (run initial inputs) = run initial inputs).
Proof.
  rewrite !send_emitWhenConnected.
  split; [| split; [| split; [| split; [| split]]]].
  - apply emitWhenConnected_closed.
  - apply emitWhenConnected_open.
  - apply emitWhenConnected_closed. apply step_closes. auto.
  - intros i Hi Hs. rewrite ?send_emitWhenConnected.
    apply emitWhenConnected_closed. apply step_closes. auto.
  - intros i Hi.
    assert (handlers (removeAllListeners s) = None) as Hh.
    { unfold removeAllListeners, handlers. destruct (socket s) eqn:E; simpl.
      - reflexivity.
      - rewrite E. destruct (lifecycle s); reflexivity. }
    destruct i; try discriminate; simpl; rewrite Hh; reflexivity.
  - intros Hall.
    destruct (run_before_connect inputs initial Hall eq_refl) as [Hc He].
    split; [exact He |].
    rewrite ?send_emitWhenConnected. apply emitWhenConnected_closed. auto.
Qed.

(** *** The claim at sample data *)

(** C9, the claim as worded fails: after [connect()] and the [connect]
    event, and before any [authenticated] event, [sendMessage] puts its
    frame on the wire. *)
Lemma send_before_authenticated :
  let inputs := [InConnect (Some "token"%string); OnConnect] in
  let s := run initial inputs in
  authenticatedAfter inputs = false
  /\ emitted s = [Authenticate "token"]
  /\ emitted (send (CallSendMessage 7 "hi" 1) s)
     = [Authenticate "token"; MessageSend 7 "hi" 1]
  /\ send (CallSendMessage 7 "hi" 1) s <> s.
Proof.
  simpl. repeat split. discriminate.
Qed.

(** The chat screen is left while the service is connected: its cleanup
    removes the lifecycle handlers too, and when the transport drops
    afterwards [isConnected] stays set and a send still calls
    [socket.emit]. *)
Example gate_open_after_removeAllListeners :
  let s := run initial [InConnect (Some "token"%string); OnConnect; OnAuthenticated;
                        InRemoveAllListeners; OnDisconnect] in
  isConnected s = true
  /\ emitted (send (CallSendMessage 7 "hi" 1) s)
     = [Authenticate "token"; MessageSend 7 "hi" 1].
Proof. split; reflexivity. Qed.

Lemma send_gating_witness :
  send (CallSendMessage 7 "hi" 1) initial = initial
  /\ send (CallSendMessage 7 "hi" 1)
       (run initial [InConnect (Some "token"%string); OnAuthenticated])
     = run initial [InConnect (Some "token"%string); OnAuthenticated]
  /\ emitted (send (CallSendMessage 7 "hi" 1)
                (run initial [InConnect (Some "token"%string); OnConnect; OnAuthenticated]))
     = [Authenticate "token"; MessageSend 7 "hi" 1]
  /\ send (CallSendMessage 7 "hi" 1)
       (run initial [InConnect (Some "token"%string); OnConnect; OnAuthenticated;
                     OnDisconnect])
     = run initial [InConnect (Some "token"%string); OnConnect; OnAuthenticated;
                    OnDisconnect].
Proof.
  split; [| split; [| split]].
  - apply (proj1 (send_gating (CallSendMessage 7 "hi" 1) initial [])).
    left. reflexivity.
  - apply (proj2 (proj2 (proj2 (proj2 (proj2
             (send_gating (CallSendMessage 7 "hi" 1) initial
                [InConnect (Some "token"%string); OnAuthenticated])))))).
    reflexivity.
  - rewrite (proj1 (proj2 (send_gating (CallSendMessage 7 "hi" 1)
                             (run initial [InConnect (Some "token"%string); OnConnect;
                                           OnAuthenticated]) []))).
    + reflexivity.
    + simpl. eauto.
    + reflexivity.
  - apply (proj1 (proj2 (proj2 (proj2
             (send_gating (CallSendMessage 7 "hi" 1)
                (run initial [InConnect (Some "token"%string); OnConnect; OnAuthenticated])
                []))))
             OnDisconnect eq_refl (or_introl eq_refl)).
Defined.

End SocketProps.

(** ** More about the conversation list: what each update keeps *)

Module HomeListProps.

Import HomeScreen HomeFacts.

Lemma findConversation_id {N} (cid : Z) (l : list (ConversationOf N)) (c : ConversationOf N) :
  findConversation cid l = Some c -> conversation_id c = cid.
Proof.
  unfold findConversation. intros H. apply find_some in H. destruct H as [_ H].
  exact (proj1 (strict_eq_true _ _) H).
Qed.

Lemma findConversation_None {N} (cid : Z) (l : list (ConversationOf N)) :
  findConversation cid l = None <-> cid ∉ map conversation_id l.
Proof.
  unfold findConversation. induction l as [|x l IH]; simpl.
  - split; [intros _; apply not_elem_of_nil | reflexivity].
  - unfold strict_eq at 1. case_bool_decide as Hx.
    + split; [discriminate |]. intros Hn. exfalso. apply Hn. subst cid. constructor.
    + rewrite IH, not_elem_of_cons. intuition congruence.
Qed.

Lemma existsb_conversation_id (cid : Z) (l : list Conversation) :
  existsb (fun conv => strict_eq (conversation_id conv) cid) l = false <->
  cid ∉ map conversation_id l.
Proof.
  induction l as [|x l IH]; simpl.
  - split; [intros _; apply not_elem_of_nil | reflexivity].
  - rewrite orb_false_iff, IH, not_elem_of_cons, strict_eq_false. intuition congruence.
Qed.

Lemma map_conversation_id_preserved
    {N M} (f : ConversationOf N -> ConversationOf M) (l : list (ConversationOf N)) :
  (forall x, conversation_id (f x) = conversation_id x) ->
  map conversation_id (map f l) = map conversation_id l.
Proof.
  intros Hf. induction l as [|x l IH]; simpl; [reflexivity |].
  rewrite Hf, IH. reflexivity.
Qed.

Lemma updateConversationWithNewMessage_ids cu message (l : list Conversation) :
  map conversation_id (updateConversationWithNewMessage cu message l)
  = map conversation_id l.
Proof.
  apply map_conversation_id_preserved. intros x. destruct (strict_eq _ _); reflexivity.
Qed.

Lemma clearUnreadCountForConversation_ids cid (l : list Conversation) :
  map conversation_id (clearUnreadCountForConversation cid l) = map conversation_id l.
Proof.
  apply map_conversation_id_preserved. intros x. destruct (strict_eq _ _); reflexivity.
Qed.

Lemma updateUserOnlineStatus_ids u b (l : list Conversation) :
  map conversation_id (updateUserOnlineStatus u b l) = map conversation_id l.
Proof.
  apply map_conversation_id_preserved. intros x. destruct (strict_eq _ _); reflexivity.
Qed.

Lemma mergePresence_ids response (l : list Conversation) :
  map conversation_id (mergePresence response l) = map conversation_id l.
Proof.
  apply map_conversation_id_preserved. intros x. destruct (findConversation _ _); reflexivity.
Qed.

Lemma processConversations_ids parseInt (l : list ServerConversation) :
  map conversation_id (processConversations parseInt l) = map conversation_id l.
Proof. apply map_conversation_id_preserved. reflexivity. Qed.

Lemma mergeSnapshot_ids (processed prev : list Conversation) :
  map conversation_id (mergeSnapshot processed prev) = map conversation_id processed.
Proof.
  apply map_conversation_id_preserved. intros x. destruct (findConversation _ _); reflexivity.
Qed.

(** X1. A [user_status_change] event changes nothing but the online flag:
    every conversation keeps its place, its id, its unread count, its
    last-message summary, its typing flag and its last-seen time, and its
    online flag becomes the event's exactly when the other participant is
    the event's user (an event with user id 0 is ignored). *)
Theorem presence_event_only_presence
    (userId : Z) (isOnline : bool) (s : State) (i : nat) (conv : Conversation) :
  conversations s !! i = Some conv ->
  exists conv',
    conversations (onUserStatusChange userId isOnline s) !! i = Some conv'
    /\ conversation_id conv' = conversation_id conv
    /\ unread_count conv' = unread_count conv
    /\ last_message conv' = last_message conv
    /\ last_message_time conv' = last_message_time conv
    /\ last_message_sender_id conv' = last_message_sender_id conv
    /\ other_user_typing conv' = other_user_typing conv
    /\ other_user_last_seen conv' = other_user_last_seen conv
    /\ other_user_online conv'
       = if truthy_num userId && strict_eq (other_user_id conv) userId
         then isOnline else other_user_online conv.
Proof.
  intros Hi. unfold onUserStatusChange.
  destruct (truthy_num userId); simpl.
  - unfold updateUserOnlineStatus. rewrite lookup_map, Hi. simpl.
    eexists. split; [reflexivity |].
    destruct (strict_eq _ _); simpl; repeat split; reflexivity.
  - exists conv. repeat split; assumption.
Qed.

(** X2. A successful presence refresh ([refreshUserStatus]) never drops,
    adds or reorders conversations and never touches an unread count, a
    last-message summary or a typing flag. A conversation missing from the
    response is left exactly as it was; one present in it takes the online
    flag of the response, and its last-seen time unless that is empty. *)
Theorem presence_refresh_keeps_list
    (parseInt : string -> option Z) (l : list ServerConversation) (s : State)
    (i : nat) (conv : Conversation) :
  conversations s !! i = Some conv ->
  let s' := complete parseInt ReqStatus (Resolved true l) s in
  length (conversations s') = length (conversations s)
  /\ exists conv',
      conversations s' !! i = Some conv'
      /\ conversation_id conv' = conversation_id conv
      /\ unread_count conv' = unread_count conv
      /\ last_message conv' = last_message conv
      /\ last_message_time conv' = last_message_time conv
      /\ last_message_sender_id conv' = last_message_sender_id conv
      /\ other_user_typing conv' = other_user_typing conv
      /\ (findConversation (conversation_id conv) l = None -> conv' = conv)
      /\ (forall updated,
          findConversation (conversation_id conv) l = Some updated ->
          other_user_online conv' = other_user_online updated
          /\ other_user_last_seen conv'
             = if decide (other_user_last_seen updated = ""%string)
               then other_user_last_seen conv
               else other_user_last_seen updated).
Proof.
  intros Hi. simpl. split.
  - unfold mergePresence. apply length_map.
  - unfold mergePresence. rewrite lookup_map, Hi. simpl.
    eexists. split; [reflexivity |].
    destruct (findConversation (conversation_id conv) l) as [u|]; simpl.
    + repeat (split; [reflexivity |]). split; [discriminate |].
      intros updated Hu. inversion Hu; subst. split; [reflexivity |].
      unfold str_or, truthy_str. destruct (decide _) as [He|He].
      * rewrite He. reflexivity.
      * rewrite bool_decide_eq_false_2 by assumption. reflexivity.
    + repeat (split; [reflexivity |]). intros updated Hu. discriminate.
Qed.


(** *** Applying a snapshot twice *)

Lemma mergeConversation_again (existing incoming : Conversation) :
  mergeConversation (mergeConversation existing incoming) incoming
  = mergeConversation existing incoming.
Proof.
  unfold mergeConversation, shouldPreserveUnreadCount. simpl.
  rewrite !strict_eq_refl. simpl.
  destruct (strict_eq (last_message_time existing) (last_message_time incoming)
            && strict_eq (last_message existing) (last_message incoming)
            && strict_eq (last_message_sender_id existing)
                 (last_message_sender_id incoming)
            && (unread_count incoming <? unread_count existing)) eqn:Hc.
  - apply andb_true_iff in Hc. destruct Hc as [_ Hlt]. rewrite Hlt. reflexivity.
  - rewrite Z.ltb_irrefl. reflexivity.
Qed.

Lemma mergeConversation_self (c : Conversation) : mergeConversation c c = c.
Proof.
  unfold mergeConversation. rewrite Z.ltb_irrefl, andb_false_r. destruct c; reflexivity.
Qed.

Lemma findConversation_map_unique
    (f : Conversation -> Conversation) (l : list Conversation) (x : Conversation) :
  (forall y, conversation_id (f y) = conversation_id y) ->
  NoDup (map conversation_id l) ->
  In x l ->
  findConversation (conversation_id x) (map f l) = Some (f x).
Proof.
  intros Hf. unfold findConversation.
  induction l as [|y l IH]; simpl; intros Hnd Hin; [contradiction |].
  apply NoDup_cons in Hnd. destruct Hnd as [Hy Hnd].
  unfold strict_eq at 1. rewrite Hf. case_bool_decide as Hid.
  - destruct Hin as [-> | Hin]; [reflexivity |].
    exfalso. apply Hy. rewrite Hid. apply list_elem_of_In, in_map. exact Hin.
  - destruct Hin as [-> | Hin]; [congruence |]. apply IH; assumption.
Qed.

Lemma mergeSnapshot_again (processed prev : list Conversation) :
  NoDup (map conversation_id processed) ->
  mergeSnapshot processed (mergeSnapshot processed prev) = mergeSnapshot processed prev.
Proof.
  intros Hnd. unfold mergeSnapshot at 1 3. apply map_ext_in. intros x Hin.
  unfold mergeSnapshot.
  rewrite (findConversation_map_unique _ processed x); [| | assumption | assumption].
  - destruct (findConversation (conversation_id x) prev).
    + apply mergeConversation_again.
    + apply mergeConversation_self.
  - intros y. destruct (findConversation _ _); reflexivity.
Qed.

(** X4. Applying the same snapshot twice is applying it once: when the
    response lists every conversation id at most once, a second successful
    silent sync with the same response leaves the state as the first one
    left it. *)
Theorem snapshot_merge_idempotent
    (parseInt : string -> option Z) (l : list ServerConversation) (s : State) :
  NoDup (map conversation_id l) ->
  complete parseInt ReqSync (Resolved true l)
    (complete parseInt ReqSync (Resolved true l) s)
  = complete parseInt ReqSync (Resolved true l) s.
Proof.
  intros Hnd. simpl. unfold set_isUpdatingConversations, set_conversations. simpl.
  rewrite mergeSnapshot_again; [reflexivity |].
  rewrite processConversations_ids. exact Hnd.
Qed.

(** *** What holds of the list after any sequence of events *)

Section ListInvariant.

Variable parseInt : string -> option Z.

(** [P] is a property of the list, [Q] one of a response. *)
Variable P : list Conversation -> Prop.
Variable Q : list ServerConversation -> Prop.

Hypothesis P_message :
  forall cu message l, P l -> P (updateConversationWithNewMessage cu message l).
Hypothesis P_clear : forall cid l, P l -> P (clearUnreadCountForConversation cid l).
Hypothesis P_online : forall u b l, P l -> P (updateUserOnlineStatus u b l).
Hypothesis P_presence : forall response l, P l -> P (mergePresence response l).
Hypothesis P_load : forall l, Q l -> P (processConversations parseInt l).
Hypothesis P_sync :
  forall l prev, Q l -> P prev -> P (mergeSnapshot (processConversations parseInt l) prev).
Hypothesis P_add :
  forall l cid c prev,
    Q l -> findConversation cid l = Some c -> P prev ->
    P (addNewConversation cid (processConversation parseInt c) prev).

(** Every response the event carries satisfies [Q]. *)
Definition okEvent (e : Event) : Prop :=
  match e with
  | EvResponse _ (Resolved _ l) => Q l
  | _ => True
  end.

Lemma listen_list_invariant (e : SocketEvent) (s : State) (r : Render) :
  P (conversations s) -> P (conversations (listen e s r)).
Proof.
  intros Hs. destruct e as [m|d|d|u|u b]; simpl.
  - unfold onNewMessage. destruct (truthy_num _); [| assumption].
    case_bool_decide; [assumption |].
    unfold checkAndAddNewConversation; simpl.
    destruct (findConversation _ _); simpl; apply P_message; assumption.
  - unfold onMessageRead. destruct (_ && _); simpl; auto.
  - unfold onConversationOpened. destruct (_ && _); simpl; auto.
  - unfold onConversationsUpdated. destruct (strict_eq _ _); [| assumption].
    rewrite (listView_conversations _ _ (updateConversationsSilently_listView r s)).
    assumption.
  - unfold onUserStatusChange. destruct (truthy_num _); simpl; auto.
Qed.

Lemma deliver_list_invariant (e : SocketEvent) (s : State) :
  P (conversations s) -> P (conversations (deliver e s)).
Proof.
  unfold deliver. generalize (match e with
                              | ConversationOpened _ => openedListeners s
                              | _ => listeners s
                              end).
  intros ls. revert s. induction ls as [|r ls IH]; intros s Hs; simpl; [assumption |].
  apply IH. apply listen_list_invariant. assumption.
Qed.

Lemma complete_list_invariant (r : Request) (o : PullOutcome) (s : State) :
  match o with Resolved _ l => Q l | Rejected _ => True end ->
  P (conversations s) -> P (conversations (complete parseInt r o s)).
Proof.
  intros Ho Hs.
  destruct r as [[r0|]| | |r0 message], o as [[|] l | status]; simpl in *; auto;
    try (destruct (strict_eq status (Some 401)); simpl; assumption).
  destruct (findConversation (conversationId message) l) eqn:Hf; simpl.
  - eapply P_add; eassumption.
  - rewrite (listView_conversations _ _ (updateConversationsSilently_listView r0 s)).
    assumption.
Qed.

Lemma step_list_invariant (e : Event) (s : State) :
  okEvent e -> P (conversations s) -> P (conversations (step parseInt s e)).
Proof.
  intros He Hs. destruct e as [e| | | | | | | |i o]; simpl.
  - apply deliver_list_invariant. assumption.
  - assumption.
  - unfold focus. destruct (focused s); [assumption |].
    rewrite (listView_conversations _ _ (focusCallback_listView _ _)). assumption.
  - unfold blur. destruct (focused s); [| assumption].
    rewrite (listView_conversations _ _ (focusCleanup_listView _)). assumption.
  - assumption.
  - unfold onStatusInterval. destruct (intervals s); [| assumption].
    rewrite (listView_conversations _ _ (refreshTypingStatus_listView _ _)). assumption.
  - unfold onConversationInterval. destruct (intervals s); [| assumption].
    rewrite (listView_conversations _ _ (updateConversationsSilently_listView _ _)).
    assumption.
  - rewrite (listView_conversations _ _ (tick_listView _)). assumption.
  - unfold respond. destruct (pending s !! i) as [r|]; [| assumption].
    apply complete_list_invariant; [| assumption].
    destruct o; [exact He | exact I].
Qed.

Lemma run_list_invariant (es : list Event) (s : State) :
  Forall okEvent es -> P (conversations s) -> P (conversations (run parseInt s es)).
Proof.
  intros Hes. revert s. induction Hes as [|e es He _ IH]; intros s Hs; [assumption |].
  simpl. apply IH. apply step_list_invariant; assumption.
Qed.

End ListInvariant.

(** Every pull response the event carries lists a conversation id at most
    once. *)
Definition uniqueResponse : Event -> Prop :=
  okEvent (fun l => NoDup (map conversation_id l)).

(** X5. One conversation per id. If the list holds no two conversations
    of one id and no pull response lists an id twice, the list holds no two
    conversations of one id after any sequence of socket events, calls,
    timer firings and pull results. *)
Theorem conversation_ids_stay_unique
    (parseInt : string -> option Z) (es : list Event) (s : State) :
  Forall uniqueResponse es ->
  NoDup (map conversation_id (conversations s)) ->
  NoDup (map conversation_id (conversations (run parseInt s es))).
Proof.
  apply (run_list_invariant parseInt
           (fun l => NoDup (map conversation_id l))
           (fun l => NoDup (map conversation_id l))).
  - intros. rewrite updateConversationWithNewMessage_ids. assumption.
  - intros. rewrite clearUnreadCountForConversation_ids. assumption.
  - intros. rewrite updateUserOnlineStatus_ids. assumption.
  - intros. rewrite mergePresence_ids. assumption.
  - intros. rewrite processConversations_ids. assumption.
  - intros. rewrite mergeSnapshot_ids, processConversations_ids. assumption.
  - intros l cid c prev _ Hf Hprev. unfold addNewConversation.
    destruct (existsb _ prev) eqn:He; [assumption |].
    simpl. apply NoDup_cons. split; [| assumption].
    rewrite (findConversation_id _ _ _ Hf). apply existsb_conversation_id. exact He.
Qed.

Lemma Forall_map_intro {A B} (R : B -> Prop) (f : A -> B) (l : list A) :
  (forall x, In x l -> R (f x)) -> Forall R (map f l).
Proof.
  induction l as [|x l IH]; simpl; intros H; constructor; auto.
Qed.

(** Every pull response the event carries has unread counts that
    normalise to a number that is not negative. *)
Definition countsResponse (parseInt : string -> option Z) : Event -> Prop :=
  okEvent (Forall (fun c => 0 <= normalizeUnread parseInt (unread_count c))).

(** X6. Unread counts are never negative. If no unread count of the list
    is negative and no pull response carries a count that normalises to a
    negative number, no unread count of the list is negative after any
    sequence of events. *)
Theorem unread_counts_stay_nonnegative
    (parseInt : string -> option Z) (es : list Event) (s : State) :
  Forall (countsResponse parseInt) es ->
  Forall (fun c => 0 <= unread_count c) (conversations s) ->
  Forall (fun c => 0 <= unread_count c) (conversations (run parseInt s es)).
Proof.
  apply (run_list_invariant parseInt
           (Forall (fun c => 0 <= unread_count c))
           (Forall (fun c => 0 <= normalizeUnread parseInt (unread_count c)))).
  - intros cu message l Hl. apply Forall_map_intro. intros x Hx.
    rewrite Forall_forall in Hl. specialize (Hl x (proj2 (list_elem_of_In _ _) Hx)).
    destruct (strict_eq _ _); [| assumption]. simpl. rewrite num_or_zero_id.
    destruct (negb _); lia.
  - intros cid l Hl. apply Forall_map_intro. intros x Hx.
    rewrite Forall_forall in Hl. specialize (Hl x (proj2 (list_elem_of_In _ _) Hx)).
    destruct (strict_eq _ _); [simpl; lia | assumption].
  - intros u b l Hl. apply Forall_map_intro. intros x Hx.
    rewrite Forall_forall in Hl. specialize (Hl x (proj2 (list_elem_of_In _ _) Hx)).
    destruct (strict_eq _ _); assumption.
  - intros response l Hl. apply Forall_map_intro. intros x Hx.
    rewrite Forall_forall in Hl. specialize (Hl x (proj2 (list_elem_of_In _ _) Hx)).
    destruct (findConversation _ _); assumption.
  - intros l Hl. apply Forall_map_intro. intros x Hx.
    rewrite Forall_forall in Hl. exact (Hl x (proj2 (list_elem_of_In _ _) Hx)).
  - intros l prev Hl Hprev. apply Forall_map_intro. intros x Hx.
    apply in_map_iff in Hx. destruct Hx as (raw & <- & Hraw).
    rewrite Forall_forall in Hl. specialize (Hl raw (proj2 (list_elem_of_In _ _) Hraw)).
    destruct (findConversation _ prev) as [existing|] eqn:Hf; [| exact Hl].
    unfold findConversation in Hf. apply find_some in Hf. destruct Hf as [Hin _].
    rewrite Forall_forall in Hprev.
    specialize (Hprev existing (proj2 (list_elem_of_In _ _) Hin)).
    unfold mergeConversation. simpl. destruct (_ && _); assumption.
  - intros l cid c prev Hl Hf Hprev. unfold addNewConversation.
    destruct (existsb _ prev); [assumption |].
    constructor; [| assumption]. simpl.
    unfold findConversation in Hf. apply find_some in Hf. destruct Hf as [Hin _].
    rewrite Forall_forall in Hl. exact (Hl c (proj2 (list_elem_of_In _ _) Hin)).
Qed.

(** *** At sample data *)

(** Conversation 8, with user 4, as a pull returns it. *)
Definition server8 (unread : RawCount) : ServerConversation :=
  mkConversation 8 4 "Dan" "dan@example.com" "dan.png" false
    "2024-05-01T08:00:00Z" (val "ok"%string) "2024-05-01T08:01:00Z" 4 unread None.

(** The mount of the sample screen with conversations 7 and 8, a message
    for conversation 7, and the answers to the sync of the focus effect
    and to the new-conversation check. *)
Definition sampleEvents : list Event :=
  replicate 80 EvTick
  ++ [EvResponse 0 (Resolved true [Samples.server7 "see you" (CountString "3");
                                   server8 CountAbsent]);
      EvSocket (MessageNew Samples.message101)]
  ++ replicate 520 EvTick
  ++ [EvResponse 1 (Resolved true [server8 (CountNumber 2);
                                   Samples.server7 "hello" (CountNumber 4)]);
      EvResponse 0 (Resolved true [server8 (CountNumber 2);
                                   Samples.server7 "hello" (CountNumber 4)])].

Example sample_run_result :
  map (fun c => (conversation_id c, unread_count c))
    (conversations (run Samples.parseInt Samples.mounting sampleEvents))
  = [(8, 2); (7, 4)].
Proof. vm_compute. reflexivity. Qed.

Lemma sampleEvents_unique : Forall uniqueResponse sampleEvents.
Proof.
  unfold sampleEvents. rewrite !Forall_app. split; [| split; [| split]].
  - apply Forall_replicate. exact I.
  - constructor; [simpl; apply (bool_decide_unpack _); reflexivity |].
    repeat constructor.
  - apply Forall_replicate. exact I.
  - constructor; [simpl; apply (bool_decide_unpack _); reflexivity |].
    constructor; [simpl; apply (bool_decide_unpack _); reflexivity | constructor].
Defined.

Lemma sampleEvents_counts : Forall (countsResponse Samples.parseInt) sampleEvents.
Proof.
  unfold sampleEvents. rewrite !Forall_app. split; [| split; [| split]].
  - apply Forall_replicate. exact I.
  - repeat constructor; vm_compute; discriminate.
  - apply Forall_replicate. exact I.
  - repeat constructor; vm_compute; discriminate.
Defined.

Lemma presence_event_only_presence_witness :
  exists conv',
    conversations (onUserStatusChange 9 false Samples.home) !! 0%nat = Some conv'
    /\ unread_count conv' = 3
    /\ other_user_online conv' = false.
Proof.
  destruct (presence_event_only_presence 9 false Samples.home 0 (Samples.local7 3) eq_refl)
    as (conv' & Hl & _ & Hu & _ & _ & _ & _ & _ & Ho).
  exists conv'. split; [exact Hl |]. split; [exact Hu | exact Ho].
Defined.

Lemma presence_refresh_keeps_list_witness :
  exists conv',
    conversations
      (complete Samples.parseInt ReqStatus
         (Resolved true [server8 (CountNumber 2);
                         Samples.server7 "hello" (CountNumber 9)]) Samples.home)
    !! 0%nat = Some conv'
    /\ unread_count conv' = 3
    /\ last_message conv' = val "see you"%string.
Proof.
  destruct (presence_refresh_keeps_list Samples.parseInt
              [server8 (CountNumber 2); Samples.server7 "hello" (CountNumber 9)]
              Samples.home 0 (Samples.local7 3) eq_refl)
    as (_ & conv' & Hl & _ & Hu & Hm & _).
  exists conv'. split; [exact Hl |]. split; [exact Hu | exact Hm].
Defined.

Lemma snapshot_merge_idempotent_witness :
  let response := [server8 (CountNumber 2); Samples.server7 "see you" (CountNumber 1)] in
  complete Samples.parseInt ReqSync (Resolved true response)
    (complete Samples.parseInt ReqSync (Resolved true response) Samples.home)
  = complete Samples.parseInt ReqSync (Resolved true response) Samples.home.
Proof.
  apply snapshot_merge_idempotent. simpl.
  apply (bool_decide_unpack _). reflexivity.
Defined.

Lemma conversation_ids_stay_unique_witness :
  NoDup (map conversation_id
           (conversations (run Samples.parseInt Samples.mounting sampleEvents))).
Proof.
  apply conversation_ids_stay_unique.
  - exact sampleEvents_unique.
  - simpl. apply NoDup_nil_2.
Defined.

Lemma unread_counts_stay_nonnegative_witness :
  Forall (fun c => 0 <= unread_count c)
    (conversations (run Samples.parseInt Samples.mounting sampleEvents)).
Proof.
  apply unread_counts_stay_nonnegative.
  - exact sampleEvents_counts.
  - simpl. apply Forall_nil_2.
Defined.

End HomeListProps.

(** ** More about the silent sync and the listeners *)

Module HomeSyncProps.

Import HomeScreen HomeFacts.

Definition isSyncTimer (x : Timer) : bool :=
  match timer_task x with
  | SyncTask => true
  | _ => false
  end.

(** The live debounce timers of the silent sync. *)
Definition syncTimers (s : State) : list Timer := List.filter isSyncTimer (timers s).

(** At most one debounce timer is live, the one the ref points to. *)
Definition debounced (s : State) : Prop :=
  syncTimers s = []
  \/ exists x, syncTimers s = [x] /\ updateTimeoutRef s = Some (timer_id x).

Lemma syncTimers_filter (P : Timer -> Prop) `{forall x, Decision (P x)} (l : list Timer) :
  List.filter isSyncTimer (filter P l) = filter P (List.filter isSyncTimer l).
Proof.
  induction l as [|a l IH]; [reflexivity |].
  rewrite filter_cons. simpl.
  destruct (decide (P a)) as [Ha|Ha], (isSyncTimer a) eqn:E; simpl;
    rewrite ?E, ?filter_cons, ?decide_True, ?decide_False by assumption;
    rewrite ?IH; reflexivity.
Qed.

(** The timers of the sync in [s'] are among those of [s], in order. *)
Definition fewerSyncTimers (s s' : State) : Prop :=
  updateTimeoutRef s' = updateTimeoutRef s
  /\ syncTimers s' `sublist_of` syncTimers s.

Lemma fewerSyncTimers_refl (s s' : State) :
  updateTimeoutRef s' = updateTimeoutRef s ->
  syncTimers s' = syncTimers s ->
  fewerSyncTimers s s'.
Proof. intros Hr Ht. split; [assumption |]. rewrite Ht. reflexivity. Qed.

Lemma fewerSyncTimers_trans (s1 s2 s3 : State) :
  fewerSyncTimers s1 s2 -> fewerSyncTimers s2 s3 -> fewerSyncTimers s1 s3.
Proof.
  intros (Hr1 & H1) (Hr2 & H2). split; [congruence |]. etransitivity; eassumption.
Qed.

Lemma fewerSyncTimers_debounced (s s' : State) :
  fewerSyncTimers s s' -> debounced s -> debounced s'.
Proof.
  intros (Hr & Ht) [Hs | (x & Hs & Hx)]; unfold debounced; rewrite Hs in Ht.
  - left. apply sublist_nil_r. exact Ht.
  - apply sublist_cons_r in Ht. destruct Ht as [Ht | (l' & Hl & Ht)].
    + left. apply sublist_nil_r. exact Ht.
    + apply sublist_nil_r in Ht. subst l'. right. exists x. split; congruence.
Qed.

Lemma clearTimeout_fewer (t : nat) (s : State) : fewerSyncTimers s (clearTimeout t s).
Proof.
  split; [reflexivity |].
  unfold syncTimers, clearTimeout. simpl. rewrite syncTimers_filter.
  apply sublist_filter.
Qed.

Lemma clearRef_fewer (ref : option nat) (s : State) : fewerSyncTimers s (clearRef ref s).
Proof.
  destruct ref; [apply clearTimeout_fewer | apply fewerSyncTimers_refl; reflexivity].
Qed.

Lemma setTimeout_fewer (task : Task) (delay : Z) (s : State) :
  isSyncTimer (mkTimer (nextTimer s) (clock s + delay) task) = false ->
  fewerSyncTimers s (snd (setTimeout task delay s)).
Proof.
  intros Ht. apply fewerSyncTimers_refl; [reflexivity |].
  unfold syncTimers. simpl. rewrite List.filter_app. simpl. rewrite Ht.
  apply app_nil_r.
Qed.

Lemma updateConversationsSilently_debounced (r : Render) (s : State) :
  debounced s -> debounced (updateConversationsSilently r s).
Proof.
  intros Hd. unfold updateConversationsSilently.
  destruct (r_isUpdatingConversations r); [exact Hd |].
  assert (syncTimers (clearRef (updateTimeoutRef s) s) = []) as Hnone.
  { destruct Hd as [Hs | (x & Hs & Hx)].
    - destruct (clearRef_fewer (updateTimeoutRef s) s) as (_ & Hsub).
      rewrite Hs in Hsub. apply sublist_nil_r. exact Hsub.
    - rewrite Hx. unfold syncTimers, clearRef, clearTimeout. simpl.
      rewrite syncTimers_filter. fold (syncTimers s). rewrite Hs.
      rewrite filter_cons, filter_nil. rewrite decide_False by tauto. reflexivity. }
  right. eexists. unfold syncTimers in *. simpl.
  rewrite List.filter_app, Hnone. simpl. split; reflexivity.
Qed.

Lemma refreshTypingStatus_fewer (r : Render) (s : State) :
  fewerSyncTimers s (refreshTypingStatus r s).
Proof.
  unfold refreshTypingStatus.
  destruct (r_isRefreshingTyping r); [apply fewerSyncTimers_refl; reflexivity |].
  eapply fewerSyncTimers_trans; [apply (clearRef_fewer (typingTimeoutRef s)) |].
  apply fewerSyncTimers_refl; [reflexivity |].
  unfold syncTimers. simpl. rewrite List.filter_app. simpl. apply app_nil_r.
Qed.

Lemma focusCallback_debounced (r : Render) (s : State) :
  debounced s -> debounced (focusCallback r s).
Proof.
  intros Hd. unfold focusCallback. destruct (r_currentUser r); [| exact Hd].
  pose proof (updateConversationsSilently_debounced r s Hd) as H1.
  eapply fewerSyncTimers_debounced; [| exact H1].
  eapply fewerSyncTimers_trans; apply setTimeout_fewer; reflexivity.
Qed.

Lemma focusCleanup_debounced (s : State) : debounced s -> debounced (focusCleanup s).
Proof.
  apply fewerSyncTimers_debounced. unfold focusCleanup.
  eapply fewerSyncTimers_trans; [apply (clearRef_fewer (updateTimeoutRef s)) |].
  eapply fewerSyncTimers_trans; [apply clearRef_fewer |].
  apply fewerSyncTimers_refl; reflexivity.
Qed.

Lemma listen_debounced (e : SocketEvent) (s : State) (r : Render) :
  debounced s -> debounced (listen e s r).
Proof.
  intros Hd. destruct e as [m|d|d|u|u b]; simpl.
  - unfold onNewMessage. destruct (truthy_num _); [| exact Hd].
    case_bool_decide; [exact Hd |].
    eapply fewerSyncTimers_debounced; [| exact Hd].
    apply fewerSyncTimers_refl.
    + unfold checkAndAddNewConversation; simpl. destruct (findConversation _ _); reflexivity.
    + unfold syncTimers, checkAndAddNewConversation; simpl.
      destruct (findConversation _ _); simpl;
        rewrite List.filter_app; simpl; apply app_nil_r.
  - unfold onMessageRead. destruct (_ && _); exact Hd.
  - unfold onConversationOpened. destruct (_ && _); exact Hd.
  - unfold onConversationsUpdated. destruct (strict_eq _ _); [| exact Hd].
    apply updateConversationsSilently_debounced. exact Hd.
  - unfold onUserStatusChange. destruct (truthy_num _); exact Hd.
Qed.

Lemma deliver_debounced (e : SocketEvent) (s : State) :
  debounced s -> debounced (deliver e s).
Proof.
  unfold deliver. generalize (match e with
                              | ConversationOpened _ => openedListeners s
                              | _ => listeners s
                              end).
  intros ls. revert s. induction ls as [|r ls IH]; intros s Hd; simpl; [exact Hd |].
  apply IH. apply listen_debounced. exact Hd.
Qed.

Lemma runTask_debounced (task : Task) (s : State) :
  debounced s -> debounced (runTask task s).
Proof.
  intros Hd. destruct task as [|r now|r| |r|r]; simpl; try exact Hd.
  - destruct (strict_eq _ _); [| exact Hd].
    apply updateConversationsSilently_debounced. exact Hd.
  - eapply fewerSyncTimers_debounced; [| exact Hd].
    apply fewerSyncTimers_refl; [reflexivity |].
    unfold syncTimers. simpl. rewrite List.filter_app. simpl. apply app_nil_r.
  - apply updateConversationsSilently_debounced. exact Hd.
  - eapply fewerSyncTimers_debounced; [apply refreshTypingStatus_fewer | exact Hd].
Qed.

Lemma fire_debounced (s : State) (t : nat) : debounced s -> debounced (fire s t).
Proof.
  intros Hd. unfold fire. destruct (List.find _ _); [| exact Hd].
  apply runTask_debounced.
  eapply fewerSyncTimers_debounced; [apply clearTimeout_fewer | exact Hd].
Qed.

Lemma tick_debounced (s : State) : debounced s -> debounced (tick s).
Proof.
  intros Hd. unfold tick.
  generalize (map timer_id
                (filter (fun x => timer_due x <= clock (set_clock (clock s + 1) s))
                   (timers (set_clock (clock s + 1) s)))).
  intros ids.
  assert (debounced (set_clock (clock s + 1) s)) as Hd' by exact Hd.
  revert Hd'. generalize (set_clock (clock s + 1) s). clear s Hd.
  induction ids as [|t ids IH]; intros s Hd; simpl; [exact Hd |].
  apply IH. apply fire_debounced. exact Hd.
Qed.

Lemma complete_debounced parseInt (r : Request) (o : PullOutcome) (s : State) :
  debounced s -> debounced (complete parseInt r o s).
Proof.
  intros Hd.
  destruct r as [[r0|]| | |r0 message], o as [[|] l | status]; simpl; try exact Hd;
    try (destruct (strict_eq status (Some 401)); exact Hd).
  destruct (findConversation _ _); [exact Hd |].
  apply updateConversationsSilently_debounced. exact Hd.
Qed.

Lemma step_debounced parseInt (e : Event) (s : State) :
  debounced s -> debounced (step parseInt s e).
Proof.
  intros Hd. destruct e as [e| | | | | | | |i o]; simpl.
  - apply deliver_debounced. exact Hd.
  - exact Hd.
  - unfold focus. destruct (focused s); [exact Hd |].
    apply focusCallback_debounced. exact Hd.
  - unfold blur. destruct (focused s); [| exact Hd].
    apply focusCleanup_debounced. exact Hd.
  - exact Hd.
  - unfold onStatusInterval. destruct (intervals s); [| exact Hd].
    eapply fewerSyncTimers_debounced; [apply refreshTypingStatus_fewer | exact Hd].
  - unfold onConversationInterval. destruct (intervals s); [| exact Hd].
    apply updateConversationsSilently_debounced. exact Hd.
  - apply tick_debounced. exact Hd.
  - unfold respond. destruct (pending s !! i); [| exact Hd].
    apply complete_debounced. exact Hd.
Qed.

(** X7. The silent sync is debounced. Whatever happens to the screen,
    there is never more than one debounce timer of the sync live, and it
    is the one [updateTimeoutRef] points to. Calls of
    [updateConversationsSilently] by a render that saw no sync going on,
    each less than 500 ms after the one before, make no pull while they
    last and exactly one 500 ms after the last of them. *)
Theorem silent_sync_debounced
    (parseInt : string -> option Z) (es : list Event) (s : State) :
  debounced s ->
  let s' := run parseInt s es in
  debounced s'
  /\ (length (syncTimers s') <= 1)%nat
  /\ (forall x, x ∈ syncTimers s' -> updateTimeoutRef s' = Some (timer_id x))
  /\ (forall (r : Render) (gaps : list nat) (w : nat),
      r_isUpdatingConversations r = false ->
      timers s' = [] ->
      Forall (fun g => (g < 500)%nat) gaps ->
      (500 <= w)%nat ->
      let calls := burst r gaps (updateConversationsSilently r s') in
      pulls calls = pulls s'
      /\ pulls (elapse w calls) = S (pulls s')
      /\ pending (elapse w calls) = pending s' ++ [ReqSync]).
Proof.
  intros Hd. simpl.
  assert (debounced (run parseInt s es)) as Hrun.
  { revert s Hd. induction es as [|e es IH]; intros s Hd; [exact Hd |].
    simpl. apply IH. apply step_debounced. exact Hd. }
  split; [exact Hrun |]. split; [| split].
  - destruct Hrun as [-> | (x & -> & _)]; simpl; lia.
  - intros x Hx. destruct Hrun as [Hs | (y & Hs & Hy)]; rewrite Hs in Hx.
    + inversion Hx.
    + apply list_elem_of_singleton in Hx. subst x. exact Hy.
  - intros r gaps w Hr Ht Hg Hw.
    destruct (burst_one_pull r gaps w _ Hr Ht Hg Hw) as (Hcalls & _ & Hp & Hq & _).
    auto.
Qed.

(** Two calls in a row on the sample screen leave one timer; five calls
    20 ms apart make one pull. *)
Lemma silent_sync_debounced_witness :
  let s1 := run Samples.parseInt Samples.home
              [EvSocket (ConversationsUpdated (val 1)); EvTick;
               EvSocket (ConversationsUpdated (val 1))] in
  debounced Samples.home
  /\ (length (syncTimers s1) <= 1)%nat
  /\ pulls Samples.home = 2%nat
  /\ pulls (elapse 500
              (burst Samples.mountRender [20; 20; 20; 20]%nat
                 (updateConversationsSilently Samples.mountRender Samples.home)))
     = 3%nat.
Proof.
  assert (debounced Samples.home) as Hd by (left; reflexivity).
  assert (Forall (fun g => (g < 500)%nat) [20; 20; 20; 20]%nat) as Hgaps.
  { repeat (apply Forall_cons; split; [lia |]). apply Forall_nil_2. }
  cbv zeta. split; [exact Hd |]. split; [| split; [reflexivity |]].
  - exact (proj1 (proj2 (silent_sync_debounced Samples.parseInt
                           [EvSocket (ConversationsUpdated (val 1)); EvTick;
                            EvSocket (ConversationsUpdated (val 1))]
                           Samples.home Hd))).
  - exact (proj1 (proj2 (proj2 (proj2 (proj2 (silent_sync_debounced Samples.parseInt []
                                                Samples.home Hd)))
                                  Samples.mountRender [20; 20; 20; 20]%nat 500%nat
                                  eq_refl eq_refl Hgaps (le_n 500)))).
Defined.

(** *** Listeners registered again *)

(** The listeners the socket runs for an event. *)
Definition listenersOf (e : SocketEvent) (s : State) : list Render :=
  match e with
  | ConversationOpened _ => openedListeners s
  | _ => listeners s
  end.

Lemma logs_listView (l : LogLine) (n : nat) (s : State) : listView (logs l n s) = listView s.
Proof.
  revert s. induction n as [|n IH]; intros s; [rewrite logs_0; reflexivity |].
  rewrite <- logs_S, IH. reflexivity.
Qed.

(** What a listener leaves in the list depends on the list alone. *)
Lemma listen_listView_congr (e : SocketEvent) (r : Render) (s1 s2 : State) :
  listView s1 = listView s2 -> listView (listen e s1 r) = listView (listen e s2 r).
Proof.
  intros Hv.
  assert (conversations s1 = conversations s2) as Hc by (unfold listView in Hv; congruence).
  assert (processedMessageKeys s1 = processedMessageKeys s2) as Hk
    by (unfold listView in Hv; congruence).
  destruct e as [m|d|d|u|u b]; simpl.
  - unfold onNewMessage. destruct (truthy_num _); [| exact Hv].
    rewrite Hk. case_bool_decide; [exact Hv |].
    unfold checkAndAddNewConversation, listView; simpl.
    destruct (findConversation _ _); simpl; rewrite ?Hc, ?Hk; reflexivity.
  - unfold onMessageRead. destruct (_ && _); [| exact Hv].
    unfold listView; simpl. rewrite Hc, Hk. reflexivity.
  - unfold onConversationOpened. destruct (_ && _); [| exact Hv].
    unfold listView; simpl. rewrite Hc, Hk. reflexivity.
  - unfold onConversationsUpdated. destruct (strict_eq _ _); [| exact Hv].
    rewrite !updateConversationsSilently_listView. exact Hv.
  - unfold onUserStatusChange. destruct (truthy_num _); [| exact Hv].
    unfold listView; simpl. rewrite Hc, Hk. reflexivity.
Qed.

Lemma foldl_listen_listView_congr (e : SocketEvent) (ls : list Render) (s1 s2 : State) :
  listView s1 = listView s2 ->
  listView (foldl (listen e) s1 ls) = listView (foldl (listen e) s2 ls).
Proof.
  revert s1 s2. induction ls as [|r ls IH]; intros s1 s2 Hv; [exact Hv |].
  simpl. apply IH. apply listen_listView_congr. exact Hv.
Qed.

(** After the first [message:new] listener every other one finds the key
    processed. *)
Lemma listeners_new_first (message : NewMessage) (r : Render) (rest : list Render)
    (s : State) :
  listView (foldl (listen (MessageNew message)) s (r :: rest))
  = listView (onNewMessage r message s).
Proof.
  simpl. destruct (truthy_num (conversationId message)) eqn:Ht.
  - rewrite listeners_skip_duplicate; [apply logs_listView | exact Ht |].
    destruct (decide (messageKey message ∈ processedMessageKeys s)) as [Hin|Hin].
    + apply (onNewMessage_keys r message s). exact Hin.
    + apply onNewMessage_key_recorded. exact Ht.
  - rewrite listeners_skip_falsy by exact Ht. reflexivity.
Qed.

Lemma existsb_elem_of {A : Type} (f : A -> bool) (x : A) (l : list A) :
  x ∈ l -> f x = true -> existsb f l = true.
Proof.
  intros Hin Hf. apply existsb_exists. exists x.
  split; [apply list_elem_of_In; exact Hin | exact Hf].
Qed.

(** A listener whose render is registered already adds nothing to what
    the event does to the list. *)
Lemma foldl_listen_again (e : SocketEvent) (r : Render) (ls more : list Render)
    (s : State) :
  r ∈ ls -> Forall (fun x => x = r) more ->
  listView (foldl (listen e) s (ls ++ more)) = listView (foldl (listen e) s ls).
Proof.
  intros Hin Hmore.
  destruct e as [m|d|d|u|u b].
  - destruct ls as [|r0 rest]; [inversion Hin |].
    change ((r0 :: rest) ++ more) with (r0 :: (rest ++ more)).
    rewrite !listeners_new_first. reflexivity.
  - rewrite !(listeners_clear (MessageRead d) d) by auto.
    rewrite existsb_app.
    destruct (existsb (scopedTo d) more) eqn:E; [| rewrite orb_false_r; reflexivity].
    apply existsb_exists in E. destruct E as (x & Hx & Hs).
    rewrite Forall_forall in Hmore. apply list_elem_of_In in Hx.
    apply Hmore in Hx. subst x.
    rewrite (existsb_elem_of _ r ls Hin Hs). reflexivity.
  - rewrite !(listeners_clear (ConversationOpened d) d) by auto.
    rewrite existsb_app.
    destruct (existsb (scopedTo d) more) eqn:E; [| rewrite orb_false_r; reflexivity].
    apply existsb_exists in E. destruct E as (x & Hx & Hs).
    rewrite Forall_forall in Hmore. apply list_elem_of_In in Hx.
    apply Hmore in Hx. subst x.
    rewrite (existsb_elem_of _ r ls Hin Hs). reflexivity.
  - rewrite !listeners_updated. reflexivity.
  - rewrite !listeners_status.
    destruct ls as [|r0 rest]; [inversion Hin | reflexivity].
Qed.

Lemma deliver_setupSocketListeners (e : SocketEvent) (r : Render) (s : State) :
  r ∈ listenersOf e s ->
  listView (deliver e (setupSocketListeners r s)) = listView (deliver e s).
Proof.
  intros Hin. unfold deliver.
  transitivity (listView (foldl (listen e) s
                            (listenersOf e s
                             ++ match e with ConversationOpened _ => [r; r] | _ => [r] end))).
  - destruct e; apply foldl_listen_listView_congr; apply setupSocketListeners_listView.
  - apply (foldl_listen_again e r); [exact Hin |].
    destruct e; repeat (apply Forall_cons; split; [reflexivity |]); apply Forall_nil_2.
Qed.

Lemma setupSocketListeners_registered (e : SocketEvent) (r x : Render) (s : State) :
  x ∈ listenersOf e s -> x ∈ listenersOf e (setupSocketListeners r s).
Proof.
  intros Hin. destruct e; simpl in *; apply elem_of_app; left; exact Hin.
Qed.

(** X8. Listeners registered again do no harm to the list. Every typing
    refresh calls [setupSocketListeners] again without removing the
    listeners that are there, so one socket event runs several listeners
    in a row, of the same render or of different ones. Registering the
    listeners of a render that has its listeners registered already, once
    or [n] times, changes nothing of what an event does to the
    conversation list and to the set of processed keys. For [message:new]
    the render does not matter either: with a listener registered, the one
    registered first handles the message and every later one finds the
    key processed. *)
Theorem repeated_listeners_harmless
    (parseInt : string -> option Z) (e : SocketEvent) (r : Render) (s : State) :
  (forall n : nat,
      r ∈ listenersOf e s ->
      listView (step parseInt (Nat.iter n (setupSocketListeners r) s) (EvSocket e))
      = listView (step parseInt s (EvSocket e)))
  /\ (forall (message : NewMessage) (first : Render) (rest : list Render),
      e = MessageNew message ->
      listeners s = first :: rest ->
      listView (step parseInt (setupSocketListeners r s) (EvSocket e))
      = listView (onNewMessage first message s)
      /\ listView (step parseInt s (EvSocket e)) = listView (onNewMessage first message s)).
Proof.
  split.
  - intros n Hin. simpl.
    induction n as [|n IH]; [reflexivity |].
    simpl. rewrite deliver_setupSocketListeners; [exact IH |].
    clear IH. induction n as [|n IH]; [exact Hin |].
    simpl. apply setupSocketListeners_registered. exact IH.
  - intros message first rest -> Hl. simpl. unfold deliver. simpl. rewrite Hl. split.
    + change ((first :: rest) ++ [r]) with (first :: (rest ++ [r])).
      rewrite (listeners_new_first message first (rest ++ [r])).
      apply (listen_listView_congr (MessageNew message) first).
      apply setupSocketListeners_listView.
    + apply (listeners_new_first message first rest).
Qed.

Lemma repeated_listeners_harmless_witness :
  Samples.userRender ∈ listenersOf (MessageRead Samples.readByAlice) Samples.home
  /\ listView (step Samples.parseInt
                 (Nat.iter 3 (setupSocketListeners Samples.userRender) Samples.home)
                 (EvSocket (MessageRead Samples.readByAlice)))
     = listView (step Samples.parseInt Samples.home
                   (EvSocket (MessageRead Samples.readByAlice)))
  /\ listeners Samples.home = [Samples.mountRender; Samples.userRender]
  /\ listView (step Samples.parseInt
                 (setupSocketListeners Samples.userRender Samples.home)
                 (EvSocket (MessageNew Samples.ownMessage)))
     = listView (onNewMessage Samples.mountRender Samples.ownMessage Samples.home).
Proof.
  assert (Samples.userRender
          ∈ listenersOf (MessageRead Samples.readByAlice) Samples.home) as Hin.
  { apply list_elem_of_In. right. left. reflexivity. }
  split; [exact Hin |]. split; [| split; [reflexivity |]].
  - exact (proj1 (repeated_listeners_harmless Samples.parseInt
                    (MessageRead Samples.readByAlice) Samples.userRender Samples.home)
             3%nat Hin).
  - exact (proj1 (proj2 (repeated_listeners_harmless Samples.parseInt
                           (MessageNew Samples.ownMessage) Samples.userRender
                           Samples.home)
                    Samples.ownMessage Samples.mountRender [Samples.userRender]
                    eq_refl eq_refl)).
Defined.

End HomeSyncProps.

(** ** Properties of the typing indicators *)

Module HomeTypingProps.

Import HomeTyping.

Lemma step_lookup (cu : option User) (m : gmap Z bool) (e : Event) (u : Z) :
  step cu m e !! u = m !! u
  \/ (val u <> currentUserId cu /\ step cu m e !! u = Some true)
  \/ (val u <> currentUserId cu /\ step cu m e !! u = None).
Proof.
  destruct e as [u' name b | c u' | c u']; simpl;
    unfold onUserTypingStatus, onTypingStart, onTypingStop;
    (destruct (strict_eq (val u') (currentUserId cu)) eqn:Hme; simpl; [left; reflexivity |]);
    apply strict_eq_false in Hme;
    (destruct (decide (u' = u)) as [-> | Hne];
     [| left; try destruct b; rewrite ?lookup_insert_ne, ?lookup_delete_ne by assumption;
        reflexivity]).
  - destruct b; [right; left | right; right]; split; try assumption.
    + apply lookup_insert_eq.
    + apply lookup_delete_eq.
  - right; left. split; [assumption | apply lookup_insert_eq].
  - right; right. split; [assumption | apply lookup_delete_eq].
Qed.

(** The map holds no [false] and no user of [ls]'s renders. *)
Definition cleanFor (ls : list HomeScreen.Render) (me : Z) (m : gmap Z bool) : Prop :=
  (forall u b, m !! u = Some b -> b = true)
  /\ (Forall (fun r => currentUserId (HomeScreen.r_currentUser r) = val me) ls ->
      m !! me = None).

Lemma step_true (cu : option User) (m : gmap Z bool) (e : Event) :
  (forall u b, m !! u = Some b -> b = true) ->
  forall u b, step cu m e !! u = Some b -> b = true.
Proof.
  intros Htrue u b.
  destruct (step_lookup cu m e u) as [-> | [[_ ->] | [_ ->]]]; eauto; congruence.
Qed.

Lemma step_not_self (cu : option User) (m : gmap Z bool) (e : Event) (me : Z) :
  currentUserId cu = val me -> m !! me = None -> step cu m e !! me = None.
Proof.
  intros Hme Hm.
  destruct (step_lookup cu m e me) as [-> | [[Hne _] | [Hne _]]]; auto; congruence.
Qed.

Lemma deliver_true (ls : list HomeScreen.Render) (m : gmap Z bool) (e : Event) :
  (forall u b, m !! u = Some b -> b = true) ->
  forall u b, deliver ls m e !! u = Some b -> b = true.
Proof.
  unfold deliver. revert m. induction ls as [|r ls IH]; intros m Htrue; [exact Htrue |].
  simpl. apply IH. apply step_true. exact Htrue.
Qed.

Lemma deliver_not_self (ls : list HomeScreen.Render) (m : gmap Z bool) (e : Event)
    (me : Z) :
  Forall (fun r => currentUserId (HomeScreen.r_currentUser r) = val me) ls ->
  m !! me = None -> deliver ls m e !! me = None.
Proof.
  unfold deliver. intros Hall. revert m.
  induction Hall as [|r ls Hr _ IH]; intros m Hm; [exact Hm |].
  simpl. apply IH. apply step_not_self; assumption.
Qed.

(** A signal that [me] types, heard by a listener: where the map holds
    [me] it goes on holding it. *)
Lemma step_keeps_typing (cu : option User) (m : gmap Z bool) (e : Event) (me : Z) :
  (exists c, e = EvTypingStart c me) \/ (exists name, e = EvUserTypingStatus me name true) ->
  m !! me = Some true -> step cu m e !! me = Some true.
Proof.
  intros [[c ->] | [name ->]] Hm; simpl; unfold onTypingStart, onUserTypingStatus;
    destruct (negb _); try exact Hm; apply lookup_insert_eq.
Qed.

Lemma deliver_keeps_typing (ls : list HomeScreen.Render) (m : gmap Z bool) (e : Event)
    (me : Z) :
  (exists c, e = EvTypingStart c me) \/ (exists name, e = EvUserTypingStatus me name true) ->
  m !! me = Some true -> deliver ls m e !! me = Some true.
Proof.
  intros He. unfold deliver. revert m.
  induction ls as [|r ls IH]; intros m Hm; [exact Hm |].
  simpl. apply IH. apply step_keeps_typing; assumption.
Qed.

Lemma step_stores_typing (cu : option User) (m : gmap Z bool) (e : Event) (me : Z) :
  (exists c, e = EvTypingStart c me) \/ (exists name, e = EvUserTypingStatus me name true) ->
  currentUserId cu <> val me -> step cu m e !! me = Some true.
Proof.
  intros [[c ->] | [name ->]] Hcu; simpl; unfold onTypingStart, onUserTypingStatus;
    rewrite (proj2 (strict_eq_false (val me) (currentUserId cu))) by congruence;
    apply lookup_insert_eq.
Qed.

(** X9. What the typing map of the conversation list holds. Every
    registered listener runs on a typing event, each with the
    [currentUser] of the render that registered it. From the empty map and
    whatever the events, the map never holds a [false]; as long as every
    registered listener is of a render that has the local user, the local
    user is not a key. A listener of the first render, the one the mount
    effect registers, has no [currentUser]: with such a listener
    registered, a signal that the local user types is stored like anybody
    else's. *)
Theorem typing_map_of_closures
    (ls : list HomeScreen.Render) (es : list Event) (me : Z) :
  (forall u b, runAll ls ∅ es !! u = Some b -> b = true)
  /\ (Forall (fun r => currentUserId (HomeScreen.r_currentUser r) = val me) ls ->
      runAll ls ∅ es !! me = None)
  /\ (forall e,
      (exists c, e = EvTypingStart c me)
      \/ (exists name, e = EvUserTypingStatus me name true) ->
      HomeScreen.firstRender ∈ ls ->
      runAll ls ∅ (es ++ [e]) !! me = Some true).
Proof.
  assert (forall m, cleanFor ls me m -> cleanFor ls me (runAll ls m es)) as Hgen.
  { unfold runAll. induction es as [|e es IH]; intros m Hm; [exact Hm |].
    simpl. apply IH. destruct Hm as [Htrue Hself]. split.
    - apply deliver_true. exact Htrue.
    - intros Hall. apply deliver_not_self; auto. }
  destruct (Hgen ∅) as [Htrue Hself].
  { split.
    - intros u b H. rewrite lookup_empty in H. discriminate.
    - intros _. apply lookup_empty. }
  split; [exact Htrue |]. split; [exact Hself |].
  intros e He Hin. unfold runAll. rewrite foldl_app. simpl.
  fold (runAll ls ∅ es). generalize (runAll ls ∅ es). intros m.
  apply list_elem_of_split in Hin. destruct Hin as (l1 & l2 & ->).
  unfold deliver. rewrite foldl_app. simpl.
  apply (deliver_keeps_typing l2 _ e me He).
  apply step_stores_typing; [exact He |]. simpl. discriminate.
Qed.

Lemma typing_map_of_closures_witness :
  HomeScreen.firstRender ∈ HomeScreen.listeners Samples.home
  /\ runAll (HomeScreen.listeners Samples.home) ∅
       ([EvTypingStart 7 9; EvTypingStop 7 9] ++ [EvTypingStart 7 1]) !! 1
     = Some true
  /\ runAll [Samples.userRender] ∅ [EvTypingStart 7 9; EvTypingStart 7 1] !! 1 = None.
Proof.
  assert (HomeScreen.firstRender ∈ HomeScreen.listeners Samples.home) as Hin.
  { apply list_elem_of_In. left. reflexivity. }
  assert (Forall (fun r => currentUserId (HomeScreen.r_currentUser r) = val 1)
            [Samples.userRender]) as Hall.
  { apply Forall_cons. split; [reflexivity | apply Forall_nil_2]. }
  split; [exact Hin |]. split.
  - exact (proj2 (proj2 (typing_map_of_closures (HomeScreen.listeners Samples.home)
                           [EvTypingStart 7 9; EvTypingStop 7 9] 1))
             (EvTypingStart 7 1) (or_introl (ex_intro _ 7 eq_refl)) Hin).
  - exact (proj1 (proj2 (typing_map_of_closures [Samples.userRender]
                           [EvTypingStart 7 9; EvTypingStart 7 1] 1)) Hall).
Defined.

Definition signalFor (u : Z) (e : Event) : option bool :=
  match e with
  | EvUserTypingStatus u' _ b => if decide (u' = u) then Some b else None
  | EvTypingStart _ u' => if decide (u' = u) then Some true else None
  | EvTypingStop _ u' => if decide (u' = u) then Some false else None
  end.

(** Whether [u] is typing after the events [es], going by the last one
    that says something about [u]. *)
Fixpoint typingAfter (u : Z) (before : bool) (es : list Event) : bool :=
  match es with
  | [] => before
  | e :: es' => typingAfter u (default before (signalFor u e)) es'
  end.

Lemma step_signal (cu : option User) (m : gmap Z bool) (e : Event) (u : Z) :
  val u <> currentUserId cu ->
  bool_decide (is_Some (step cu m e !! u))
  = default (bool_decide (is_Some (m !! u))) (signalFor u e).
Proof.
  intros Hu.
  destruct e as [u' name b | c u' | c u']; simpl;
    unfold onUserTypingStatus, onTypingStart, onTypingStop;
    (destruct (decide (u' = u)) as [-> | Hne]; simpl;
     [rewrite (proj2 (strict_eq_false _ _) Hu); simpl
     | destruct (strict_eq (val u') (currentUserId cu)); simpl; try destruct b;
       rewrite ?lookup_insert_ne, ?lookup_delete_ne by assumption; reflexivity]).
  - destruct b.
    + rewrite lookup_insert_eq. reflexivity.
    + rewrite lookup_delete_eq. reflexivity.
  - rewrite lookup_insert_eq. reflexivity.
  - rewrite lookup_delete_eq. reflexivity.
Qed.

(** X10. The last signal wins, and nothing else ends a typing state. For
    a user other than the local one, the map holds the user after a
    sequence of typing events exactly when the last event about that user
    said typing (or, with no event about the user, when it held the user
    before); so the status line of the user's conversation reads typing
    exactly then, whatever the online flag, and the online flag decides
    otherwise. *)
Theorem typing_last_signal_wins
    (cu : option User) (m : gmap Z bool) (es : list Event)
    (item : HomeScreen.Conversation) :
  val (HomeScreen.other_user_id item) <> currentUserId cu ->
  let u := HomeScreen.other_user_id item in
  bool_decide (is_Some (run cu m es !! u))
  = typingAfter u (bool_decide (is_Some (m !! u))) es
  /\ statusLine (run cu m es) item
     = if typingAfter u (bool_decide (is_Some (m !! u))) es then typing
       else if HomeScreen.other_user_online item then online else offline.
Proof.
  intros Hu u.
  assert (bool_decide (is_Some (run cu m es !! u))
          = typingAfter u (bool_decide (is_Some (m !! u))) es) as Hrun.
  { revert m. induction es as [|e es IH]; intros m; [reflexivity |].
    simpl. rewrite IH, step_signal by assumption. reflexivity. }
  split; [exact Hrun |].
  unfold statusLine. fold u. rewrite Hrun. reflexivity.
Qed.

(** *** The unread badge *)

Lemma pretty_two_digits (n : Z) : 0 < n <= 99 -> (String.length (pretty n) <= 2)%nat.
Proof.
  intros Hn.
  assert (forallb (fun k => (String.length (pretty (Z.of_nat k)) <=? 2)%nat) (seq 1 99)
          = true) as Hall by (vm_compute; reflexivity).
  rewrite forallb_forall in Hall.
  specialize (Hall (Z.to_nat n)). rewrite Z2Nat.id in Hall by lia.
  apply Nat.leb_le, Hall, in_seq. lia.
Qed.

(** X11. The unread badge is drawn exactly for a positive count, shows
    the count in decimal up to 99 and [99+] above, and is never wider than
    three characters. *)
Theorem unread_badge_text (item : HomeScreen.Conversation) :
  (unreadBadge item = None <-> HomeScreen.unread_count item <= 0)
  /\ (forall t, unreadBadge item = Some t ->
      (String.length t <= 3)%nat
      /\ (HomeScreen.unread_count item <= 99 -> t = pretty (HomeScreen.unread_count item))
      /\ (99 < HomeScreen.unread_count item -> t = "99+"%string)).
Proof.
  unfold unreadBadge.
  destruct (Z.ltb_spec 0 (HomeScreen.unread_count item)) as [Hpos|Hneg].
  - split; [split; [discriminate | lia] |].
    intros t Ht. inversion Ht; subst; clear Ht.
    destruct (Z.ltb_spec 99 (HomeScreen.unread_count item)) as [Hbig|Hsmall].
    + split; [simpl; lia |]. split; [lia | reflexivity].
    + split; [| split; [reflexivity | lia]].
      pose proof (pretty_two_digits (HomeScreen.unread_count item)). lia.
  - split; [split; [lia | reflexivity] | discriminate].
Qed.

(** *** At sample data *)

(** Bob starts typing, Alice's own typing is broadcast back, Bob stops,
    Bob is reported typing again. *)
Definition sampleTyping : list Event :=
  [EvTypingStart 7 9; EvUserTypingStatus 1 "Alice" true; EvTypingStop 7 9;
   EvUserTypingStatus 9 "Bob" true].

Example sample_typing_map :
  map_to_list (run (Some Samples.alice) ∅ sampleTyping) = [(9, true)].
Proof. vm_compute. reflexivity. Qed.

Lemma typing_last_signal_wins_witness :
  statusLine (run (Some Samples.alice) ∅ sampleTyping) (Samples.local7 3) = typing
  /\ statusLine (run (Some Samples.alice) ∅ (sampleTyping ++ [EvTypingStop 7 9]))
       (Samples.local7 3) = online.
Proof.
  split.
  - rewrite (proj2 (typing_last_signal_wins (Some Samples.alice) ∅ sampleTyping
                      (Samples.local7 3) ltac:(simpl; discriminate))).
    reflexivity.
  - rewrite (proj2 (typing_last_signal_wins (Some Samples.alice) ∅
                      (sampleTyping ++ [EvTypingStop 7 9])
                      (Samples.local7 3) ltac:(simpl; discriminate))).
    reflexivity.
Defined.

(** The same events heard by the listeners of the mounted screen: the one
    of the first render stores Alice's own signal. *)
Example sample_typing_map_mounted :
  map_to_list (runAll (HomeScreen.listeners Samples.home) ∅ sampleTyping)
  = [(9, true); (1, true)].
Proof. vm_compute. reflexivity. Qed.

End HomeTypingProps.

(** ** The debounced typing refresh of the conversation list screen *)

Module HomeRefreshProps.

Import HomeScreen HomeFacts.

(** The debounce timer of a refresh of render [r], due at [due], is the
    only live timer and the ref points to it; [ls] and [ols] are the
    registered listeners, [c] the console. *)
Definition refreshArmed (r : Render) (due : Z) (ls ols : list Render) (c : list LogLine)
    (s : State) : Prop :=
  listeners s = ls /\ openedListeners s = ols /\ console s = c
  /\ clock s < due
  /\ exists t, timers s = [mkTimer t due (RefreshTask r)] /\ typingTimeoutRef s = Some t.

(** A refresh is going on; the timer that ends it, due at [due], is the
    only live timer. *)
Definition refreshing (due : Z) (ls ols : list Render) (c : list LogLine) (s : State)
  : Prop :=
  isRefreshingTyping s = true
  /\ listeners s = ls /\ openedListeners s = ols /\ console s = c
  /\ clock s < due
  /\ exists t, timers s = [mkTimer t due ResetTask].

Definition refreshed (ls ols : list Render) (c : list LogLine) (s : State) : Prop :=
  isRefreshingTyping s = false
  /\ listeners s = ls /\ openedListeners s = ols /\ console s = c
  /\ timers s = [].

Lemma refresh_when_quiet (r : Render) (s : State) :
  r_isRefreshingTyping r = false ->
  timers s = [] ->
  refreshArmed r (clock s + 300) (listeners s) (openedListeners s) (console s)
    (refreshTypingStatus r s)
  /\ clock (refreshTypingStatus r s) = clock s.
Proof.
  intros Hr Ht. unfold refreshTypingStatus, refreshArmed. rewrite Hr.
  destruct (typingTimeoutRef s) as [t|]; simpl; rewrite ?Ht; simpl;
    (split; [| reflexivity]); repeat split; try lia; eauto.
Qed.

Lemma refresh_when_armed (r : Render) (due : Z) (ls ols : list Render)
    (c : list LogLine) (s : State) :
  r_isRefreshingTyping r = false ->
  refreshArmed r due ls ols c s ->
  refreshArmed r (clock s + 300) ls ols c (refreshTypingStatus r s)
  /\ clock (refreshTypingStatus r s) = clock s.
Proof.
  intros Hr (Hl & Ho & Hc & Hlt & t & Ht & Href).
  unfold refreshTypingStatus, refreshArmed. rewrite Hr, Href. simpl. rewrite Ht.
  rewrite filter_cons. simpl. rewrite decide_False by tauto. rewrite filter_nil. simpl.
  split; [| reflexivity]. repeat split; try assumption; try lia. eauto.
Qed.

Lemma tick_refreshed (ls ols : list Render) (c : list LogLine) (s : State) :
  refreshed ls ols c s -> refreshed ls ols c (tick s) /\ clock (tick s) = clock s + 1.
Proof.
  intros (Hu & Hl & Ho & Hc & Ht). rewrite tick_no_timer by assumption.
  unfold refreshed. simpl. repeat split; assumption.
Qed.

Lemma refresh_tick_armed_early (r : Render) (due : Z) (ls ols : list Render)
    (c : list LogLine) (s : State) :
  refreshArmed r due ls ols c s -> clock s + 1 < due ->
  refreshArmed r due ls ols c (tick s) /\ clock (tick s) = clock s + 1.
Proof.
  intros (Hl & Ho & Hc & Hlt & t & Ht & Href) Hearly.
  unfold tick. simpl. rewrite Ht, filter_cons. simpl.
  rewrite decide_False by lia. rewrite filter_nil. simpl.
  split; [| reflexivity]. unfold refreshArmed; simpl. repeat split; try assumption. eauto.
Qed.

Lemma refresh_tick_armed_due (r : Render) (due : Z) (ls ols : list Render)
    (c : list LogLine) (s : State) :
  refreshArmed r due ls ols c s -> due <= clock s + 1 ->
  refreshing (due + 1000) (ls ++ [r]) (ols ++ [r; r]) c (tick s)
  /\ clock (tick s) = clock s + 1.
Proof.
  intros (Hl & Ho & Hc & Hlt & t & Ht & Href) Hdue.
  unfold tick. simpl. rewrite Ht, filter_cons. simpl.
  rewrite decide_True by lia. rewrite filter_nil. simpl.
  unfold fire. simpl. rewrite Ht. simpl.
  rewrite bool_decide_eq_true_2 by reflexivity. simpl.
  split; [| reflexivity]. unfold refreshing, clearTimeout; simpl.
  rewrite Ht, filter_cons. simpl. rewrite decide_False by tauto. rewrite filter_nil.
  assert (clock s + 1 = due) as -> by lia.
  rewrite Hl, Ho, Hc. simpl. repeat split; try lia. eauto.
Qed.

Lemma tick_refreshing_early (due : Z) (ls ols : list Render) (c : list LogLine)
    (s : State) :
  refreshing due ls ols c s -> clock s + 1 < due ->
  refreshing due ls ols c (tick s) /\ clock (tick s) = clock s + 1.
Proof.
  intros (Hu & Hl & Ho & Hc & Hlt & t & Ht) Hearly.
  unfold tick. simpl. rewrite Ht, filter_cons. simpl.
  rewrite decide_False by lia. rewrite filter_nil. simpl.
  split; [| reflexivity]. unfold refreshing; simpl. repeat split; try assumption. eauto.
Qed.

Lemma tick_refreshing_due (due : Z) (ls ols : list Render) (c : list LogLine)
    (s : State) :
  refreshing due ls ols c s -> due <= clock s + 1 ->
  refreshed ls ols c (tick s) /\ clock (tick s) = clock s + 1.
Proof.
  intros (Hu & Hl & Ho & Hc & Hlt & t & Ht) Hdue.
  unfold tick. simpl. rewrite Ht, filter_cons. simpl.
  rewrite decide_True by lia. rewrite filter_nil. simpl.
  unfold fire. simpl. rewrite Ht. simpl.
  rewrite bool_decide_eq_true_2 by reflexivity. simpl.
  split; [| reflexivity]. unfold refreshed, clearTimeout; simpl.
  rewrite Ht, filter_cons. simpl. rewrite decide_False by tauto. rewrite filter_nil. auto.
Qed.

Lemma elapse_refreshed (ls ols : list Render) (c : list LogLine) (n : nat) (s : State) :
  refreshed ls ols c s -> refreshed ls ols c (elapse n s).
Proof.
  revert s. induction n as [|n IH]; intros s Hs; [exact Hs |].
  rewrite elapse_succ. apply IH. apply (tick_refreshed ls ols c s Hs).
Qed.

Lemma refresh_elapse_armed_early (r : Render) (due : Z) (ls ols : list Render)
    (c : list LogLine) (n : nat) (s : State) :
  refreshArmed r due ls ols c s -> clock s + Z.of_nat n < due ->
  refreshArmed r due ls ols c (elapse n s) /\ clock (elapse n s) = clock s + Z.of_nat n.
Proof.
  revert s. induction n as [|n IH]; intros s Ha Hlt.
  - simpl. split; [assumption | lia].
  - rewrite elapse_succ.
    destruct (refresh_tick_armed_early r due ls ols c s Ha) as [Ha' Hc']; [lia |].
    destruct (IH (tick s) Ha') as [Ha'' Hc'']; [lia |].
    split; [assumption | lia].
Qed.

Lemma elapse_refreshing (due : Z) (ls ols : list Render) (c : list LogLine) (n : nat)
    (s : State) :
  refreshing due ls ols c s ->
  (clock s + Z.of_nat n < due -> refreshing due ls ols c (elapse n s))
  /\ (due <= clock s + Z.of_nat n -> refreshed ls ols c (elapse n s)).
Proof.
  revert s. induction n as [|n IH]; intros s Hr.
  - simpl. split; [auto |]. destruct Hr as (_ & _ & _ & _ & Hc & _). lia.
  - rewrite elapse_succ.
    destruct (Z_lt_le_dec (clock s + 1) due) as [Hearly|Hdue].
    + destruct (tick_refreshing_early due ls ols c s Hr Hearly) as [Hr' Hc'].
      destruct (IH (tick s) Hr') as [IH1 IH2].
      split; intros H; [apply IH1 | apply IH2]; lia.
    + destruct (tick_refreshing_due due ls ols c s Hr Hdue) as [Hi Hc'].
      split; intros H.
      * destruct Hr as (_ & _ & _ & _ & Hc & _). lia.
      * apply elapse_refreshed. exact Hi.
Qed.

Lemma elapse_refresh_armed (r : Render) (due : Z) (ls ols : list Render)
    (c : list LogLine) (n : nat) (s : State) :
  refreshArmed r due ls ols c s -> due <= clock s + Z.of_nat n ->
  (clock s + Z.of_nat n < due + 1000 ->
   refreshing (due + 1000) (ls ++ [r]) (ols ++ [r; r]) c (elapse n s))
  /\ (due + 1000 <= clock s + Z.of_nat n ->
      refreshed (ls ++ [r]) (ols ++ [r; r]) c (elapse n s)).
Proof.
  revert s. induction n as [|n IH]; intros s Ha Hle.
  - destruct Ha as (_ & _ & _ & Hc & _). simpl in Hle. lia.
  - rewrite elapse_succ.
    destruct (Z_lt_le_dec (clock s + 1) due) as [Hearly|Hdue].
    + destruct (refresh_tick_armed_early r due ls ols c s Ha Hearly) as [Ha' Hc'].
      destruct (IH (tick s) Ha') as [IH1 IH2]; [lia |].
      split; intros H; [apply IH1 | apply IH2]; lia.
    + destruct (refresh_tick_armed_due r due ls ols c s Ha Hdue) as [Hr Hc'].
      destruct (elapse_refreshing (due + 1000) _ _ c n (tick s) Hr) as [E1 E2].
      split; intros H; [apply E1 | apply E2]; lia.
Qed.

(** [refreshBurst r gaps s]: a call of [refreshTypingStatus] of render
    [r] after each of the waits [gaps] (in milliseconds), starting from
    [s]. *)
Fixpoint refreshBurst (r : Render) (gaps : list nat) (s : State) : State :=
  match gaps with
  | [] => s
  | g :: gaps' => refreshBurst r gaps' (refreshTypingStatus r (elapse g s))
  end.

Lemma refresh_burst_armed (r : Render) (gaps : list nat) (ls ols : list Render)
    (c : list LogLine) (s : State) :
  r_isRefreshingTyping r = false ->
  Forall (fun g => (g < 300)%nat) gaps ->
  refreshArmed r (clock s + 300) ls ols c s ->
  refreshArmed r (clock (refreshBurst r gaps s) + 300) ls ols c (refreshBurst r gaps s).
Proof.
  intros Hr Hg. revert s. induction Hg as [|g gaps Hlt _ IH]; intros s Ha; [exact Ha |].
  simpl. apply IH.
  destruct (refresh_elapse_armed_early r _ ls ols c g s Ha) as [Ha' _]; [lia |].
  destruct (refresh_when_armed r _ ls ols c _ Hr Ha') as [Ha'' Hc]. rewrite Hc. exact Ha''.
Qed.

(** X12. The typing refresh is debounced and cannot get stuck; its
    in-progress guard tests the flag of the caller's render. Calls of
    [refreshTypingStatus] by a render that saw no refresh going on, each
    less than 300 ms after the one before and with no other timer live,
    register no listener while they last and the listeners of that render
    exactly once 300 ms after the last call. For the following second the
    flag [isRefreshingTyping] is set; after it the flag is cleared and no
    timer is left. While the flag is set, a further call is skipped, with
    its line on the console, when it comes from a render that saw the
    flag set; a call from a render that saw it cleared logs nothing and
    sets a new debounce timer. *)
Theorem typing_refresh_debounced (r : Render) (gaps : list nat) (s : State) :
  r_isRefreshingTyping r = false ->
  timers s = [] ->
  Forall (fun g => (g < 300)%nat) gaps ->
  let calls := refreshBurst r gaps (refreshTypingStatus r s) in
  listeners calls = listeners s
  /\ (forall w : nat, (w < 300)%nat -> listeners (elapse w calls) = listeners s)
  /\ (forall w : nat, (300 <= w < 1300)%nat ->
      let s' := elapse w calls in
      listeners s' = listeners s ++ [r]
      /\ openedListeners s' = openedListeners s ++ [r; r]
      /\ isRefreshingTyping s' = true
      /\ (forall r', r_isRefreshingTyping r' = true ->
          refreshTypingStatus r' s' = log LogRefreshInProgress s')
      /\ (forall r', r_isRefreshingTyping r' = false ->
          console (refreshTypingStatus r' s') = console s'
          /\ exists t, mkTimer t (clock s' + 300) (RefreshTask r')
                       ∈ timers (refreshTypingStatus r' s')))
  /\ (forall w : nat, (1300 <= w)%nat ->
      let s' := elapse w calls in
      listeners s' = listeners s ++ [r]
      /\ openedListeners s' = openedListeners s ++ [r; r]
      /\ isRefreshingTyping s' = false /\ timers s' = []
      /\ console s' = console s).
Proof.
  intros Hr Ht Hg calls.
  destruct (refresh_when_quiet r s Hr Ht) as [Ha Hc]. rewrite <- Hc in Ha.
  pose proof (refresh_burst_armed r gaps _ _ _ _ Hr Hg Ha) as Hb. fold calls in Hb.
  split; [| split; [| split]].
  - destruct Hb as (Hl & _). exact Hl.
  - intros w Hw.
    destruct (refresh_elapse_armed_early r _ _ _ _ w calls Hb) as [(Hl & _) _];
      [lia | exact Hl].
  - intros w Hw s'.
    destruct (elapse_refresh_armed r _ _ _ _ w calls Hb) as [Hmid _]; [lia |].
    destruct Hmid as (Hflag & Hl & Ho & _); [lia |]. fold s' in Hflag, Hl, Ho.
    split; [exact Hl |]. split; [exact Ho |]. split; [exact Hflag |]. split.
    + intros r' Hr'. unfold refreshTypingStatus. rewrite Hr'. reflexivity.
    + intros r' Hr'. unfold refreshTypingStatus. rewrite Hr'. simpl.
      split; [destruct (typingTimeoutRef s'); reflexivity |].
      exists (nextTimer (clearRef (typingTimeoutRef s') s')).
      apply elem_of_app. right.
      replace (clock (clearRef (typingTimeoutRef s') s')) with (clock s')
        by (destruct (typingTimeoutRef s'); reflexivity).
      apply list_elem_of_here.
  - intros w Hw s'.
    destruct (elapse_refresh_armed r _ _ _ _ w calls Hb) as [_ Hlate]; [lia |].
    destruct Hlate as (Hflag & Hl & Ho & Hco & Htimers); [lia |]. auto.
Qed.

Example sample_refresh :
  let s := elapse 300 (refreshTypingStatus Samples.mountRender Samples.home) in
  (listeners s, isRefreshingTyping s,
   console (refreshTypingStatus Samples.mountRender s),
   length (timers (refreshTypingStatus Samples.mountRender s)))
  = ([Samples.mountRender; Samples.userRender; Samples.mountRender], true, [], 2%nat).
Proof. vm_compute. reflexivity. Qed.

Lemma typing_refresh_debounced_witness :
  let calls := refreshBurst Samples.mountRender [100; 250]%nat
                 (refreshTypingStatus Samples.mountRender Samples.home) in
  listeners (elapse 299 calls) = listeners Samples.home
  /\ listeners (elapse 300 calls) = listeners Samples.home ++ [Samples.mountRender]
  /\ console (refreshTypingStatus Samples.mountRender (elapse 300 calls))
     = console (elapse 300 calls)
  /\ timers (elapse 1300 calls) = [].
Proof.
  assert (Forall (fun g => (g < 300)%nat) [100; 250]%nat) as Hgaps.
  { repeat (apply Forall_cons; split; [lia |]). apply Forall_nil_2. }
  pose proof (typing_refresh_debounced Samples.mountRender [100; 250]%nat Samples.home
                eq_refl eq_refl Hgaps) as H.
  cbv zeta in H. destruct H as (_ & Hearly & Hmid & Hlate).
  cbv zeta. split; [| split; [| split]].
  - apply Hearly. lia.
  - apply (Hmid 300%nat). lia.
  - apply (Hmid 300%nat); [lia | reflexivity].
  - apply (Hlate 1300%nat). lia.
Defined.

End HomeRefreshProps.

(** ** Properties of the HTTP client *)

Module ApiProps.

Import Api.

(** X13. The two interceptors together: after a response error with
    status 401 the next request carries no [Authorization] header and
    storage holds neither token nor user; any other response error leaves
    storage, and so the header, as they were. The header, when there is
    one, is [Bearer] and the stored token. *)
Theorem unauthorized_clears_credentials (status : option Z) (storage : gmap string string) :
  (status = Some 401 ->
   onResponseError status storage !! "authToken"%string = None
   /\ onResponseError status storage !! "user"%string = None
   /\ authorizationHeader (onResponseError status storage) = None)
  /\ (status <> Some 401 -> onResponseError status storage = storage)
  /\ (forall h, authorizationHeader storage = Some h ->
      exists token, storage !! "authToken"%string = Some token
                    /\ token <> ""%string /\ h = ("Bearer " +:+ token)%string).
Proof.
  unfold onResponseError, authorizationHeader. split; [| split].
  - intros ->. rewrite (proj2 (strict_eq_true _ _) eq_refl).
    rewrite lookup_delete_ne, !lookup_delete_eq by discriminate. auto.
  - intros Hne. rewrite (proj2 (strict_eq_false _ _) Hne). reflexivity.
  - intros h. destruct (storage !! "authToken"%string) as [token|]; [| discriminate].
    unfold truthy_str. case_bool_decide as Hempty; simpl; [discriminate |].
    intros Hh. inversion Hh. eauto.
Qed.

(** X14. A rejected pull of the conversation list screen, seen through
    the client. Whichever function made the pull, the conversation list is
    left as it was, and with status 401 the token and the user are removed
    from storage. The router goes to the login screen only when the pull
    was made by [loadConversations] or [refreshUserStatus]: after a 401 on
    the silent sync or on the new-conversation check the screen stays where
    it was, without credentials. *)
Theorem rejected_pull_through_client
    (parseInt : string -> option Z) (i : nat) (r : HomeScreen.Request)
    (status : option Z) (s : HomeScreen.State) :
  HomeScreen.pending s !! i = Some r ->
  let s' := HomeScreen.respond parseInt i (HomeScreen.Rejected status) s in
  HomeScreen.conversations s' = HomeScreen.conversations s
  /\ (status = Some 401 ->
      HomeScreen.storage s' !! "authToken"%string = None
      /\ HomeScreen.storage s' !! "user"%string = None
      /\ authorizationHeader (HomeScreen.storage s') = None
      /\ ((exists caller, r = HomeScreen.ReqLoad caller) \/ r = HomeScreen.ReqStatus ->
          HomeScreen.route s' = "/login"%string)
      /\ (r = HomeScreen.ReqSync
          \/ (exists r0 m, r = HomeScreen.ReqNewConversation r0 m) ->
          HomeScreen.route s' = HomeScreen.route s))
  /\ (status <> Some 401 ->
      HomeScreen.storage s' = HomeScreen.storage s
      /\ HomeScreen.route s' = HomeScreen.route s).
Proof.
  intros Hi. simpl. unfold HomeScreen.respond. rewrite Hi.
  split; [| split].
  - destruct r as [[r0|]| | |r0 m]; simpl; try reflexivity;
      destruct (strict_eq status (Some 401)); reflexivity.
  - intros ->.
    assert (forall m : gmap string string,
              delete "user"%string (delete "authToken"%string m) !! "authToken"%string
              = None
              /\ delete "user"%string (delete "authToken"%string m) !! "user"%string = None)
      as Hgone.
    { intros m. rewrite lookup_delete_ne, !lookup_delete_eq by discriminate. auto. }
    assert (forall m : gmap string string,
              m !! "authToken"%string = None -> authorizationHeader m = None) as Hhead.
    { intros m Hm. unfold authorizationHeader. rewrite Hm. reflexivity. }
    destruct r as [[r0|]| | |r0 m]; simpl; unfold onResponseError;
      rewrite ?(proj2 (strict_eq_true _ _) eq_refl); simpl;
      repeat match goal with
             | |- _ /\ _ => split
             | |- _ !! _ = None => apply Hgone
             | |- authorizationHeader _ = None => apply Hhead, Hgone
             end;
      try reflexivity;
      try (intros [[c H] | H]; discriminate H);
      try (intros [H | (c & m' & H)]; discriminate H).
  - intros Hne.
    destruct r as [[r0|]| | |r0 m]; simpl; unfold onResponseError;
      rewrite ?(proj2 (strict_eq_false _ _) Hne); split; reflexivity.
Qed.

(** The silent sync of the sample screen is in flight and its pull is
    rejected with status 401. *)
Lemma rejected_pull_through_client_witness :
  let s' := HomeScreen.respond Samples.parseInt 0 (HomeScreen.Rejected (Some 401))
              Samples.syncing in
  HomeScreen.storage s' !! "authToken"%string = None
  /\ HomeScreen.route s' = "/"%string.
Proof.
  assert (HomeScreen.pending Samples.syncing !! 0%nat = Some HomeScreen.ReqSync)
    as Hi by (vm_compute; reflexivity).
  destruct (rejected_pull_through_client Samples.parseInt 0 HomeScreen.ReqSync (Some 401)
              Samples.syncing Hi) as (_ & H401 & _).
  destruct (H401 eq_refl) as (Htoken & _ & _ & _ & Hroute).
  split; [exact Htoken |].
  rewrite Hroute by (left; reflexivity). vm_compute. reflexivity.
Defined.

Lemma unauthorized_clears_credentials_witness :
  authorizationHeader (HomeScreen.storage Samples.home) = Some "Bearer token"%string
  /\ authorizationHeader (onResponseError (Some 401) (HomeScreen.storage Samples.home))
     = None.
Proof.
  split; [vm_compute; reflexivity |].
  apply (proj1 (unauthorized_clears_credentials (Some 401)
                  (HomeScreen.storage Samples.home)) eq_refl).
Defined.

End ApiProps.

(** ** Properties of the actions of the chat screen *)

Module ChatActionsProps.

Import ChatScreen ChatActions.

(** The service has a socket and [isConnected] is set. *)
Definition connected (sv : SocketService.State) : Prop :=
  is_Some (SocketService.socket sv) /\ SocketService.isConnected sv = true.

Lemma emitWhenConnected_connected (f : SocketService.Frame) (sv : SocketService.State) :
  connected sv ->
  connected (SocketService.emitWhenConnected f sv)
  /\ SocketService.emitted (SocketService.emitWhenConnected f sv)
     = SocketService.emitted sv ++ [f].
Proof.
  intros [Hs Hc]. rewrite SocketProps.emitWhenConnected_open by assumption.
  unfold connected. simpl. auto.
Qed.

(** The text in the input after the keystrokes [keys], [text] being the
    one before them. *)
Fixpoint lastText (text : string) (keys : list (nat * string)) : string :=
  match keys with
  | [] => text
  | (_, t) :: keys' => lastText t keys'
  end.

Section ActionProps.

Variable conversationId : Z.

#[local] Abbreviation handleTyping := (handleTyping conversationId).
#[local] Abbreviation tick := (tick conversationId).
#[local] Abbreviation elapse := (elapse conversationId).
#[local] Abbreviation typeKeys := (typeKeys conversationId).

(** *** Typing *)

(** The user is typing: the timeout of [handleTyping], due at [due], is
    the only live timer and [typingTimeout] holds it. [out] is what the
    service has emitted, [text] the input. *)
Definition composing (u : User) (due : Z) (out : list SocketService.Frame)
    (text : string) (s : State) : Prop :=
  currentUser (chat s) = Some u
  /\ clock s < due
  /\ (exists t, timers s = [mkTimer t due (user_id u)] /\ typingTimeout s = Some t)
  /\ connected (service s)
  /\ SocketService.emitted (service s) = out
  /\ newMessage s = text.

(** No timer is live. *)
Definition quiet (u : User) (out : list SocketService.Frame) (text : string) (s : State)
  : Prop :=
  currentUser (chat s) = Some u
  /\ timers s = []
  /\ connected (service s)
  /\ SocketService.emitted (service s) = out
  /\ newMessage s = text.

Lemma key_when_quiet u out text0 text (s : State) :
  quiet u out text0 s ->
  composing u (clock s + 1000)
    (out ++ [SocketService.TypingStart conversationId (user_id u)]) text
    (handleTyping text s)
  /\ clock (handleTyping text s) = clock s.
Proof.
  intros (Hu & Ht & Hc & Ho & Hx).
  unfold ChatActions.handleTyping. simpl. rewrite Hu.
  destruct (emitWhenConnected_connected
              (SocketService.TypingStart conversationId (user_id u)) _ Hc) as [Hc' Ho'].
  unfold composing.
  destruct (typingTimeout s) as [t|]; simpl; rewrite ?Ht; simpl;
    (split; [| reflexivity]);
    (split; [assumption |]); (split; [lia |]); (split; [eauto |]);
    (split; [exact Hc' |]); (split; [| reflexivity]);
    unfold SocketService.startTyping; rewrite Ho', Ho; reflexivity.
Qed.

Lemma key_when_composing u due out text0 text (s : State) :
  composing u due out text0 s ->
  composing u (clock s + 1000)
    (out ++ [SocketService.TypingStart conversationId (user_id u)]) text
    (handleTyping text s)
  /\ clock (handleTyping text s) = clock s.
Proof.
  intros (Hu & Hlt & (t & Ht & Hr) & Hc & Ho & Hx).
  unfold ChatActions.handleTyping. simpl. rewrite Hu, Hr. simpl. rewrite Ht.
  rewrite filter_cons. simpl. rewrite decide_False by tauto. rewrite filter_nil. simpl.
  destruct (emitWhenConnected_connected
              (SocketService.TypingStart conversationId (user_id u)) _ Hc) as [Hc' Ho'].
  unfold composing. simpl.
  split; [| reflexivity].
  split; [assumption |]. split; [lia |]. split; [eauto |].
  split; [exact Hc' |]. split; [| reflexivity].
  unfold SocketService.startTyping. rewrite Ho', Ho. reflexivity.
Qed.

Lemma tick_quiet u out text (s : State) :
  quiet u out text s ->
  quiet u out text (tick s) /\ typingTimeout (tick s) = typingTimeout s.
Proof.
  intros (Hu & Ht & Hc & Ho & Hx). unfold ChatActions.tick. simpl. rewrite Ht. simpl.
  unfold quiet. simpl. auto 10.
Qed.

Lemma tick_composing_early u due out text (s : State) :
  composing u due out text s -> clock s + 1 < due ->
  composing u due out text (tick s) /\ clock (tick s) = clock s + 1.
Proof.
  intros (Hu & Hlt & (t & Ht & Hr) & Hc & Ho & Hx) Hearly.
  unfold ChatActions.tick. simpl. rewrite Ht, filter_cons. simpl.
  rewrite decide_False by lia. rewrite filter_nil. simpl.
  split; [| reflexivity]. unfold composing; simpl.
  split; [assumption |]. split; [lia |]. split; [eauto |]. auto.
Qed.

Lemma tick_composing_due u due out text (s : State) :
  composing u due out text s -> due <= clock s + 1 ->
  quiet u (out ++ [SocketService.TypingStop conversationId (user_id u)]) text (tick s)
  /\ typingTimeout (tick s) = None.
Proof.
  intros (Hu & Hlt & (t & Ht & Hr) & Hc & Ho & Hx) Hdue.
  unfold ChatActions.tick. simpl. rewrite Ht, filter_cons. simpl.
  rewrite decide_True by lia. rewrite filter_nil. simpl.
  unfold fire. simpl. rewrite Ht. simpl.
  rewrite bool_decide_eq_true_2 by reflexivity. simpl.
  destruct (emitWhenConnected_connected
              (SocketService.TypingStop conversationId (user_id u)) _ Hc) as [Hc' Ho'].
  split; [| reflexivity]. unfold quiet, clearTimeout; simpl.
  rewrite Ht, filter_cons. simpl. rewrite decide_False by tauto. rewrite filter_nil.
  split; [assumption |]. split; [reflexivity |]. split; [exact Hc' |].
  split; [| assumption].
  unfold SocketService.stopTyping. rewrite Ho', Ho. reflexivity.
Qed.

Lemma typing_elapse_next (n : nat) (s : State) : elapse (S n) s = elapse n (tick s).
Proof. unfold ChatActions.elapse. apply Nat.iter_succ_r. Qed.

Lemma elapse_quiet u out text (n : nat) (s : State) :
  quiet u out text s ->
  quiet u out text (elapse n s) /\ typingTimeout (elapse n s) = typingTimeout s.
Proof.
  revert s. induction n as [|n IH]; intros s Hq; [auto |].
  rewrite typing_elapse_next. destruct (tick_quiet u out text s Hq) as [Hq' Ht'].
  destruct (IH _ Hq') as [Hq'' Ht'']. split; [assumption | congruence].
Qed.

Lemma elapse_composing_early u due out text (n : nat) (s : State) :
  composing u due out text s -> clock s + Z.of_nat n < due ->
  composing u due out text (elapse n s) /\ clock (elapse n s) = clock s + Z.of_nat n.
Proof.
  revert s. induction n as [|n IH]; intros s Hc Hlt.
  - simpl. split; [assumption | lia].
  - rewrite typing_elapse_next.
    destruct (tick_composing_early u due out text s Hc) as [Hc' Hk]; [lia |].
    destruct (IH _ Hc') as [Hc'' Hk']; [lia |].
    split; [assumption | lia].
Qed.

Lemma elapse_composing_due u due out text (n : nat) (s : State) :
  composing u due out text s -> due <= clock s + Z.of_nat n ->
  quiet u (out ++ [SocketService.TypingStop conversationId (user_id u)]) text (elapse n s)
  /\ typingTimeout (elapse n s) = None.
Proof.
  revert s. induction n as [|n IH]; intros s Hc Hle.
  - destruct Hc as (_ & Hlt & _). simpl in Hle. lia.
  - rewrite typing_elapse_next.
    destruct (Z_lt_le_dec (clock s + 1) due) as [Hearly|Hdue].
    + destruct (tick_composing_early u due out text s Hc Hearly) as [Hc' Hk].
      apply IH; [assumption | lia].
    + destruct (tick_composing_due u due out text s Hc Hdue) as [Hq Ht].
      destruct (elapse_quiet _ _ _ n _ Hq) as [Hq' Ht']. split; [assumption | congruence].
Qed.

Lemma typeKeys_composing u out text (keys : list (nat * string)) (s : State) :
  Forall (fun k => (fst k < 1000)%nat) keys ->
  composing u (clock s + 1000) out text s ->
  composing u (clock (typeKeys keys s) + 1000)
    (out ++ replicate (length keys) (SocketService.TypingStart conversationId (user_id u)))
    (lastText text keys) (typeKeys keys s).
Proof.
  intros Hk. revert s out text.
  induction Hk as [|[g t] keys Hg _ IH]; intros s out text Hc.
  - simpl. rewrite app_nil_r. exact Hc.
  - simpl in *.
    destruct (elapse_composing_early u _ out text g s Hc) as [Hc' _]; [lia |].
    destruct (key_when_composing u _ out text t _ Hc') as [Hc'' Hclock].
    rewrite <- Hclock in Hc''. specialize (IH _ _ _ Hc'').
    rewrite <- app_assoc in IH. exact IH.
Qed.

(** X16. One typing session, one [typing:stop]. With the service
    connected and no timer live, keystrokes that follow one another by less
    than a second emit one [typing:start] each and no [typing:stop]; one
    second after the last keystroke exactly one [typing:stop] is emitted,
    and then no timer is live and [typingTimeout] is empty. *)
Theorem typing_session_one_stop
    (u : User) (text0 : string) (keys : list (nat * string)) (w : nat) (s : State) :
  currentUser (chat s) = Some u ->
  timers s = [] ->
  connected (service s) ->
  Forall (fun k => (fst k < 1000)%nat) keys ->
  (1000 <= w)%nat ->
  let typed := typeKeys keys (handleTyping text0 s) in
  let starts := replicate (S (length keys))
                  (SocketService.TypingStart conversationId (user_id u)) in
  SocketService.emitted (service typed) = SocketService.emitted (service s) ++ starts
  /\ SocketService.emitted (service (elapse w typed))
     = SocketService.emitted (service s) ++ starts
       ++ [SocketService.TypingStop conversationId (user_id u)]
  /\ timers (elapse w typed) = []
  /\ typingTimeout (elapse w typed) = None
  /\ newMessage (elapse w typed) = lastText text0 keys.
Proof.
  intros Hu Ht Hc Hk Hw typed starts.
  assert (quiet u (SocketService.emitted (service s)) (newMessage s) s) as Hq.
  { unfold quiet. auto. }
  destruct (key_when_quiet u _ _ text0 s Hq) as [Hc1 Hclock].
  rewrite <- Hclock in Hc1.
  pose proof (typeKeys_composing u _ _ keys _ Hk Hc1) as Hc2. fold typed in Hc2.
  rewrite <- app_assoc in Hc2. simpl in Hc2. fold starts in Hc2.
  split.
  - destruct Hc2 as (_ & _ & _ & _ & Ho & _). exact Ho.
  - destruct (elapse_composing_due u _ _ _ w typed Hc2) as [(_ & Ht' & _ & Ho & Hx) Hn];
      [lia |].
    rewrite Ho, <- app_assoc. auto.
Qed.

Variable trim : string -> string.

#[local] Abbreviation handleSendMessage := (handleSendMessage conversationId trim).
#[local] Abbreviation getOrCreateDone := (getOrCreateDone conversationId trim).

(** X17. Sending ends the typing session. After keystrokes that follow one
    another by less than a second, with a conversation id other than 0 and
    an input that is not blank, [handleSendMessage] emits the trimmed text
    as [message:send] and then one [typing:stop], empties the input and
    cancels the pending timeout: however long one waits afterwards, nothing
    more is emitted. A blank input is not sent: [handleSendMessage] then
    changes nothing at all. *)
Theorem send_ends_typing
    (u : User) (text0 : string) (keys : list (nat * string)) (g : nat) (s : State) :
  currentUser (chat s) = Some u ->
  timers s = [] ->
  connected (service s) ->
  Forall (fun k => (fst k < 1000)%nat) keys ->
  (g < 1000)%nat ->
  conversationId <> 0 ->
  trim (lastText text0 keys) <> ""%string ->
  let typed := typeKeys keys (handleTyping text0 s) in
  let s' := handleSendMessage (elapse g typed) in
  SocketService.emitted (service s')
  = SocketService.emitted (service typed)
    ++ [SocketService.MessageSend conversationId (trim (lastText text0 keys)) (user_id u);
        SocketService.TypingStop conversationId (user_id u)]
  /\ newMessage s' = ""%string
  /\ sending s' = false
  /\ timers s' = []
  /\ typingTimeout s' = None
  /\ (forall w : nat,
      SocketService.emitted (service (elapse w s')) = SocketService.emitted (service s'))
  /\ (forall s0 : State, trim (newMessage s0) = ""%string -> handleSendMessage s0 = s0).
Proof.
  intros Hu Ht Hc Hk Hg Hcid Htext typed s'.
  assert (quiet u (SocketService.emitted (service s)) (newMessage s) s) as Hq.
  { unfold quiet. auto. }
  destruct (key_when_quiet u _ _ text0 s Hq) as [Hc1 Hclock].
  rewrite <- Hclock in Hc1.
  pose proof (typeKeys_composing u _ _ keys _ Hk Hc1) as Hc2. fold typed in Hc2.
  assert (SocketService.emitted (service typed)
          = (SocketService.emitted (service s)
             ++ [SocketService.TypingStart conversationId (user_id u)])
            ++ replicate (length keys)
                 (SocketService.TypingStart conversationId (user_id u))) as Htyped.
  { destruct Hc2 as (_ & _ & _ & _ & Ho & _). exact Ho. }
  rewrite <- Htyped in Hc2.
  destruct (elapse_composing_early u _ _ _ g typed Hc2) as [Hc3 _]; [lia |].
  destruct Hc3 as (Hu3 & Hlt3 & (t & Ht3 & Hr3) & Hcon3 & Ho3 & Hx3).
  assert (quiet u
            (SocketService.emitted (service typed)
             ++ [SocketService.MessageSend conversationId (trim (lastText text0 keys))
                   (user_id u);
                 SocketService.TypingStop conversationId (user_id u)])
            "" s' /\ typingTimeout s' = None /\ sending s' = false) as (Hq' & Hn' & Hs').
  { unfold s', ChatActions.handleSendMessage. rewrite Hu3, Hx3.
    unfold truthy_str. rewrite bool_decide_eq_false_2 by assumption. simpl.
    unfold truthy_num. destruct (Z.eqb_spec conversationId 0) as [|_]; [contradiction |].
    simpl. unfold finishSend. simpl. rewrite Hr3. simpl.
    destruct (emitWhenConnected_connected
                (SocketService.MessageSend conversationId (trim (lastText text0 keys))
                   (user_id u)) _ Hcon3) as [Hcon4 Ho4].
    destruct (emitWhenConnected_connected
                (SocketService.TypingStop conversationId (user_id u)) _ Hcon4)
      as [Hcon5 Ho5].
    unfold quiet, clearTimeout. simpl.
    rewrite Ht3, filter_cons. simpl. rewrite decide_False by tauto. rewrite filter_nil.
    split; [| auto]. split; [assumption |]. split; [reflexivity |].
    split; [exact Hcon5 |]. split; [| reflexivity].
    unfold SocketService.stopTyping, SocketService.sendMessage.
    rewrite Ho5, Ho4, Ho3, <- app_assoc. reflexivity. }
  destruct Hq' as (Hu' & Ht' & Hcon' & Ho' & Hx').
  split; [exact Ho' |]. split; [exact Hx' |]. split; [exact Hs' |].
  split; [exact Ht' |]. split; [exact Hn' |]. split.
  - intros w.
    destruct (elapse_quiet u (SocketService.emitted (service s')) (newMessage s') w s')
      as [(_ & _ & _ & Ho'' & _) _].
    + unfold quiet. auto.
    + exact Ho''.
  - intros s0 Hblank. unfold ChatActions.handleSendMessage.
    destruct (currentUser (chat s0)); [| reflexivity].
    rewrite Hblank. reflexivity.
Qed.

(** X18. A message typed where the route has conversation id 0. With an
    input that is not blank, [handleSendMessage] emits nothing and waits
    for [getOrCreate]. When that succeeds the screen is replaced by the
    conversation returned and the message is never sent; when it fails with
    an error an alert is raised and the message is not sent; in both cases
    the text stays in the input. When the response says no success, the
    message is sent all the same, to conversation 0. *)
Theorem send_without_conversation (u : User) (s : State) :
  currentUser (chat s) = Some u ->
  conversationId = 0 ->
  trim (newMessage s) <> ""%string ->
  creating s = [] ->
  let s1 := handleSendMessage s in
  SocketService.emitted (service s1) = SocketService.emitted (service s)
  /\ sending s1 = true
  /\ (forall newId : Z,
      let s2 := getOrCreateDone 0 (Created true newId) s1 in
      SocketService.emitted (service s2) = SocketService.emitted (service s)
      /\ replacedWith s2 = Some newId
      /\ newMessage s2 = newMessage s
      /\ sending s2 = false)
  /\ (let s2 := getOrCreateDone 0 Failed s1 in
      SocketService.emitted (service s2) = SocketService.emitted (service s)
      /\ alerts s2 = alerts s ++ ["Failed to send message"%string]
      /\ newMessage s2 = newMessage s
      /\ sending s2 = false)
  /\ (forall newId : Z,
      connected (service s) ->
      let s2 := getOrCreateDone 0 (Created false newId) s1 in
      SocketService.emitted (service s2)
      = SocketService.emitted (service s)
        ++ [SocketService.MessageSend 0 (trim (newMessage s)) (user_id u);
            SocketService.TypingStop 0 (user_id u)]
      /\ newMessage s2 = ""%string
      /\ sending s2 = false).
Proof.
  intros Hu Hcid Htext Hcr. simpl.
  unfold ChatActions.handleSendMessage. rewrite Hu.
  unfold truthy_str. rewrite bool_decide_eq_false_2 by assumption. simpl.
  rewrite Hcid. simpl. rewrite Hcr. simpl.
  unfold ChatActions.getOrCreateDone. simpl.
  split; [reflexivity |]. split; [reflexivity |].
  split; [intros newId; auto |]. split; [auto |].
  intros newId Hc. unfold finishSend. simpl.
  destruct (emitWhenConnected_connected
              (SocketService.MessageSend 0 (trim (newMessage s)) (user_id u)) _ Hc)
    as [Hc1 Ho1].
  destruct (emitWhenConnected_connected
              (SocketService.TypingStop 0 (user_id u)) _ Hc1) as [Hc2 Ho2].
  destruct (typingTimeout s) as [t|]; simpl;
    unfold SocketService.stopTyping, SocketService.sendMessage in *;
    rewrite Ho2, Ho1, <- app_assoc; auto.
Qed.

Variable payload : Z -> nullable Z -> string.

#[local] Abbreviation markMessagesAsRead := (markMessagesAsRead conversationId payload).

(** *** Marking as read *)

Lemma unreadFrom_marked (u : User) (now : string) (l : list Message) :
  List.filter (unreadFrom u) (markOthersRead u now l) = [].
Proof.
  unfold markOthersRead. induction l as [|x l IH]; simpl; [reflexivity |].
  destruct (unreadFrom u x) eqn:E.
  - unfold unreadFrom at 1. simpl. rewrite andb_false_r. exact IH.
  - rewrite E. exact IH.
Qed.

Lemma filter_nil_none {A} (f : A -> bool) (l : list A) (x : A) :
  List.filter f l = [] -> In x l -> f x = false.
Proof.
  intros Hnil Hin. destruct (f x) eqn:E; [| reflexivity].
  assert (In x (List.filter f l)) as H by (apply filter_In; auto).
  rewrite Hnil in H. contradiction.
Qed.

(** X15. [markMessagesAsRead] marks the messages of the other
    participant and nothing else: every message keeps its place, its id and
    its delivered flag, a message of the local user is left exactly as it
    was, and a message of anybody else is read afterwards. With nothing to
    mark it changes nothing and emits nothing; otherwise it emits at most
    one [message:read]. Called again on its result it changes nothing, so
    a second call emits no second [message:read]. *)
Theorem mark_as_read_marks_others (now : string) (u : User) (s : State) :
  currentUser (chat s) = Some u ->
  let s' := markMessagesAsRead now s in
  (forall (i : nat) (msg : Message),
     messages (chat s) !! i = Some msg ->
     exists msg',
       messages (chat s') !! i = Some msg'
       /\ id msg' = id msg
       /\ is_delivered msg' = is_delivered msg
       /\ is_read msg' = is_read msg || negb (strict_eq (sender_id msg) (user_id u))
       /\ (sender_id msg = user_id u -> msg' = msg))
  /\ (List.filter (unreadFrom u) (messages (chat s)) = [] -> s' = s)
  /\ (SocketService.emitted (service s') = SocketService.emitted (service s)
      \/ SocketService.emitted (service s')
         = SocketService.emitted (service s)
           ++ [SocketService.Custom "message:read"
                 (payload conversationId (val (user_id u)))])
  /\ (forall now', markMessagesAsRead now' s' = s').
Proof.
  intros Hu. simpl. unfold ChatActions.markMessagesAsRead. rewrite Hu.
  destruct (List.filter (unreadFrom u) (messages (chat s))) as [|m0 rest] eqn:Hf; simpl.
  - split; [| split; [| split]]; auto.
    + intros i msg Hi. exists msg. split; [assumption |].
      repeat split; try reflexivity.
      assert (unreadFrom u msg = false) as Hn.
      { apply (filter_nil_none _ _ _ Hf).
        apply list_elem_of_In, list_elem_of_lookup. eauto. }
      unfold unreadFrom in Hn. destruct (is_read msg), (strict_eq _ _); simpl in *; congruence.
    + intros now'. rewrite Hu, Hf. reflexivity.
  - split; [| split; [| split]].
    + intros i msg Hi. unfold markOthersRead. rewrite lookup_map, Hi. simpl.
      eexists. split; [reflexivity |].
      unfold unreadFrom.
      destruct (strict_eq (sender_id msg) (user_id u)) eqn:Hs; simpl.
      * repeat split; try reflexivity. rewrite orb_false_r. reflexivity.
      * destruct (is_read msg) eqn:Hr; simpl.
        -- repeat split; try reflexivity. rewrite Hr. reflexivity.
        -- repeat split; try reflexivity.
           intros Heq. apply strict_eq_false in Hs. contradiction.
    + discriminate.
    + unfold SocketService.emitCustomEvent, SocketService.emitWhenConnected,
        SocketService.emit.
      destruct (bool_decide _ && _); [| left; reflexivity].
      destruct (SocketService.socket (service s)); simpl; auto.
    + intros now'. rewrite Hu. simpl. rewrite unreadFrom_marked. reflexivity.
Qed.

End ActionProps.

(** *** At sample data *)

(** [trim] for spaces. *)
Fixpoint dropSpaces (l : list Ascii.ascii) : list Ascii.ascii :=
  match l with
  | a :: l' => if Ascii.eqb a (Ascii.ascii_of_nat 32) then dropSpaces l' else l
  | [] => []
  end.

Definition trimSpaces (s : string) : string :=
  String.string_of_list_ascii
    (rev (dropSpaces (rev (dropSpaces (String.list_ascii_of_string s))))).

(** A payload as text. *)
Definition samplePayload (cid : Z) (u : nullable Z) : string :=
  ("{conversationId:" +:+ pretty cid +:+ ",userId:"
   +:+ match u with val n => pretty n | _ => "undefined" end +:+ "}")%string.

(** The service once connected and authenticated. *)
Definition online : SocketService.State :=
  SocketService.run SocketService.initial
    [SocketService.InConnect (Some "token"%string); SocketService.OnConnect;
     SocketService.OnAuthenticated].

(** The chat screen of conversation 7 with message 101 of Alice and
    message 102 of Bob, and an empty input. *)
Definition composer : State :=
  mkState (ChatScreen.mkState [Samples.own101; Samples.bob102] (Some Samples.alice)
             false false true "2024-05-01T10:10:00Z")
    "" false None 0 [] 0 online [] None [].

Example sample_typing_then_timeout :
  SocketService.emitted
    (service (elapse 7 1000
                (typeKeys 7 [(200, "he"); (300, "hey ")]%nat
                   (handleTyping 7 "h" composer))))
  = [SocketService.Authenticate "token";
     SocketService.TypingStart 7 1; SocketService.TypingStart 7 1;
     SocketService.TypingStart 7 1; SocketService.TypingStop 7 1].
Proof. vm_compute. reflexivity. Qed.

Example sample_typing_then_send :
  SocketService.emitted
    (service (elapse 7 5000
                (handleSendMessage 7 trimSpaces
                   (elapse 7 500
                      (typeKeys 7 [(200, "he"); (300, "hey ")]%nat
                         (handleTyping 7 "h" composer))))))
  = [SocketService.Authenticate "token";
     SocketService.TypingStart 7 1; SocketService.TypingStart 7 1;
     SocketService.TypingStart 7 1;
     SocketService.MessageSend 7 "hey" 1; SocketService.TypingStop 7 1].
Proof. vm_compute. reflexivity. Qed.

Lemma online_connected : connected online.
Proof. split; [eexists; reflexivity | reflexivity]. Defined.

Lemma sample_keys_fast :
  Forall (fun k : nat * string => (fst k < 1000)%nat) [(200, "he"); (300, "hey ")]%nat.
Proof. repeat (apply Forall_cons; split; [simpl; lia |]). apply Forall_nil_2. Defined.

Lemma mark_as_read_marks_others_witness :
  map is_read
    (messages (chat (markMessagesAsRead 7 samplePayload "2024-05-01T10:10:00Z" composer)))
  = [false; true]
  /\ markMessagesAsRead 7 samplePayload "2024-05-01T10:11:00Z"
       (markMessagesAsRead 7 samplePayload "2024-05-01T10:10:00Z" composer)
     = markMessagesAsRead 7 samplePayload "2024-05-01T10:10:00Z" composer.
Proof.
  split; [reflexivity |].
  apply (mark_as_read_marks_others 7 samplePayload "2024-05-01T10:10:00Z"
           Samples.alice composer eq_refl).
Defined.

Lemma typing_session_one_stop_witness :
  let typed := typeKeys 7 [(200, "he"); (300, "hey ")]%nat (handleTyping 7 "h" composer) in
  SocketService.emitted (service (elapse 7 1000 typed))
  = SocketService.emitted (service composer)
    ++ replicate 3 (SocketService.TypingStart 7 1) ++ [SocketService.TypingStop 7 1]
  /\ typingTimeout (elapse 7 1000 typed) = None.
Proof.
  pose proof (typing_session_one_stop 7 Samples.alice "h"
                [(200, "he"); (300, "hey ")]%nat 1000 composer
                eq_refl eq_refl online_connected sample_keys_fast (le_n 1000)) as H.
  cbv zeta in H. destruct H as (_ & Hout & _ & Hnone & _).
  split; [exact Hout | exact Hnone].
Defined.

Lemma send_ends_typing_witness :
  let typed := typeKeys 7 [(200, "he"); (300, "hey ")]%nat (handleTyping 7 "h" composer) in
  let s' := handleSendMessage 7 trimSpaces (elapse 7 500 typed) in
  SocketService.emitted (service s')
  = SocketService.emitted (service typed)
    ++ [SocketService.MessageSend 7 "hey" 1; SocketService.TypingStop 7 1]
  /\ newMessage s' = ""%string.
Proof.
  assert (500 < 1000)%nat as Hg by lia.
  assert (7 <> 0) as Hcid by discriminate.
  assert (trimSpaces (lastText "h" [(200, "he"); (300, "hey ")]%nat) <> ""%string)
    as Htext by (vm_compute; discriminate).
  pose proof (send_ends_typing 7 trimSpaces Samples.alice "h"
                [(200, "he"); (300, "hey ")]%nat 500 composer
                eq_refl eq_refl online_connected sample_keys_fast Hg Hcid Htext) as H.
  cbv zeta in H. destruct H as (Hout & Hempty & _).
  split; [exact Hout | exact Hempty].
Defined.

Lemma send_without_conversation_witness :
  let s1 := handleSendMessage 0 trimSpaces (set_newMessage " hi " composer) in
  SocketService.emitted (service (getOrCreateDone 0 trimSpaces 0 (Created true 12) s1))
  = SocketService.emitted (service composer)
  /\ newMessage (getOrCreateDone 0 trimSpaces 0 (Created true 12) s1) = " hi "%string.
Proof.
  assert (trimSpaces (newMessage (set_newMessage " hi " composer)) <> ""%string)
    as Htext by (vm_compute; discriminate).
  pose proof (send_without_conversation 0 trimSpaces Samples.alice
                (set_newMessage " hi " composer) eq_refl eq_refl Htext eq_refl) as H.
  cbv zeta in H. destruct H as (_ & _ & Hok & _).
  destruct (Hok 12) as (Hout & _ & Htextkept & _).
  split; [exact Hout | exact Htextkept].
Defined.

(** The focus callback with its emits leaves the list of messages that
    [ChatScreen.focusCallback] leaves. *)
Lemma focusCallback_chat
    (conversationId : Z) (payload : Z -> nullable Z -> string) (s : State) :
  chat (ChatActions.focusCallback conversationId payload s)
  = ChatScreen.focusCallback (chat s).
Proof.
  unfold ChatActions.focusCallback, ChatScreen.focusCallback.
  destruct (currentUser (chat s)) as [u|] eqn:Hu; [| reflexivity].
  destruct (messages (chat s)) as [|m l] eqn:Hm; [reflexivity |].
  destruct (existsb (unreadFrom u) (m :: l)) eqn:He; [| reflexivity].
  unfold notifyConversationListUnreadCleared, ChatActions.markMessagesAsRead.
  rewrite Hu, Hm.
  destruct (List.filter (unreadFrom u) (m :: l)) as [|x rest] eqn:Hf.
  - apply existsb_exists in He. destruct He as (x & Hx & Hux).
    assert (In x (List.filter (unreadFrom u) (m :: l))) as Hin
      by (apply filter_In; auto).
    rewrite Hf in Hin. destruct Hin.
  - simpl. rewrite Hm. reflexivity.
Qed.

End ChatActionsProps.

(** ** More about the socket service *)

Module SocketMoreProps.

Import SocketService.

Definition isConnectCall (i : Input) : bool :=
  match i with
  | InConnect _ => true
  | _ => false
  end.



Lemma emitWhenConnected_no_socket (f : Frame) (s : State) :
  socket s = None -> emitWhenConnected f s = s.
Proof. intros H. apply SocketProps.emitWhenConnected_closed. auto. Qed.

Lemma step_no_socket (i : Input) (s : State) :
  isConnectCall i = false ->
  socket s = None ->
  socket (step s i) = None /\ emitted (step s i) = emitted s.
Proof.
  intros Hi Hs.
  assert (handlers s = None) as Hh
    by (unfold handlers; rewrite Hs; destruct (lifecycle s); reflexivity).
  destruct i; simpl in *; try discriminate;
    unfold updateAppState, onHeartbeatInterval, removeAllListeners;
    rewrite ?SocketProps.send_emitWhenConnected, ?emitWhenConnected_no_socket by assumption;
    rewrite ?Hh, ?Hs; auto.
  - unfold disconnect. simpl. rewrite Hs. auto.
  - destruct (heartbeatInterval s); auto.
Qed.

Lemma disconnect_no_socket (s : State) :
  socket (disconnect s) = None /\ emitted (disconnect s) = emitted s.
Proof.
  unfold disconnect. simpl. destruct (socket s) eqn:Hs; simpl; auto.
Qed.

(** X19. After [disconnect()] the service is silent until [connect()] is
    called again: whatever is sent, whatever lifecycle event or heartbeat
    interval comes, nothing is emitted. *)
Theorem silent_after_disconnect (s : State) (inputs : list Input) :
  forallb (fun i => negb (isConnectCall i)) inputs = true ->
  emitted (run (disconnect s) inputs) = emitted s.
Proof.
  destruct (disconnect_no_socket s) as [Hs He]. rewrite <- He.
  revert Hs. generalize (disconnect s). clear s He.
  induction inputs as [|i inputs IH]; intros s Hs Hall; [reflexivity |].
  simpl in Hall. apply andb_true_iff in Hall. destruct Hall as [Hi Hall].
  apply negb_true_iff in Hi.
  destruct (step_no_socket i s Hi Hs) as [Hs' He'].
  simpl. rewrite (IH _ Hs' Hall). exact He'.
Qed.






(** What is emitted starts with an [authenticate]. *)
Definition authenticatesFirst (l : list Frame) : bool :=
  match l with
  | [] => true
  | Authenticate _ :: _ => true
  | _ => false
  end.

Lemma authenticatesFirst_app (l : list Frame) (f : Frame) :
  l <> [] -> authenticatesFirst l = true -> authenticatesFirst (l ++ [f]) = true.
Proof. destruct l as [|x l]; [congruence |]. simpl. auto. Qed.

Lemma step_authenticates_first (i : Input) (s : State) :
  authenticatesFirst (emitted s) = true ->
  (emitted s = [] -> isConnected s = false) ->
  authenticatesFirst (emitted (step s i)) = true
  /\ (emitted (step s i) = [] -> isConnected (step s i) = false).
Proof.
  intros Hfirst Hclosed.
  assert (forall f, authenticatesFirst (emitted (emitWhenConnected f s)) = true
                    /\ (emitted (emitWhenConnected f s) = [] ->
                        isConnected (emitWhenConnected f s) = false)) as Hsend.
  { intros f. unfold emitWhenConnected.
    destruct (bool_decide (is_Some (socket s)) && isConnected s) eqn:Hc; [| auto].
    apply andb_true_iff in Hc. destruct Hc as [Hs Hc].
    unfold emit. destruct (socket s); simpl; [| auto].
    split.
    - apply authenticatesFirst_app; [| assumption].
      intros Hnil. rewrite (Hclosed Hnil) in Hc. discriminate.
    - intros Hnil. destruct (emitted s); discriminate. }
  destruct i; simpl; unfold handlers.
  - destruct token as [t|]; simpl; [destruct (truthy_str t) |]; auto.
  - unfold disconnect. simpl. destruct (socket s); simpl; auto.
  - unfold removeAllListeners. destruct (socket s); simpl; auto.
  - apply Hsend.
  - rewrite SocketProps.send_emitWhenConnected. apply Hsend.
  - destruct (lifecycle s); [| auto]. destruct (socket s) as [t|] eqn:Hs; [| auto].
    unfold onConnect, emit. simpl. rewrite Hs. simpl. split.
    + destruct (emitted s) as [|x l]; [reflexivity | exact Hfirst].
    + intros Hnil. destruct (emitted s); discriminate.
  - destruct (lifecycle s), (socket s); auto.
  - destruct (lifecycle s), (socket s); simpl; auto.
  - destruct (lifecycle s), (socket s); simpl; auto.
  - destruct (lifecycle s), (socket s); simpl; auto.
  - destruct (lifecycle s); [| auto]. destruct (socket s) as [t|] eqn:Hs; [| auto].
    unfold onReconnect, emit. simpl. rewrite Hs. simpl. split.
    + destruct (emitted s) as [|x l]; [reflexivity | exact Hfirst].
    + intros Hnil. destruct (emitted s); discriminate.
  - destruct (heartbeatInterval s); [| auto]. apply Hsend.
Qed.

(** X21. The first frame on the wire is an [authenticate]. Whatever the
    sequence of calls, lifecycle events and heartbeat intervals from the
    initial state, the traffic emitted is empty or begins with an
    [authenticate] frame; and while it is empty the service is not
    connected. *)
Theorem authenticate_is_first (inputs : list Input) :
  authenticatesFirst (emitted (run initial inputs)) = true
  /\ (emitted (run initial inputs) = [] -> isConnected (run initial inputs) = false).
Proof.
  assert (forall s,
            authenticatesFirst (emitted s) = true ->
            (emitted s = [] -> isConnected s = false) ->
            authenticatesFirst (emitted (run s inputs)) = true
            /\ (emitted (run s inputs) = [] -> isConnected (run s inputs) = false)) as Hgen.
  { induction inputs as [|i inputs IH]; intros s H1 H2; [auto |].
    simpl. destruct (step_authenticates_first i s H1 H2) as [H1' H2'].
    apply IH; assumption. }
  apply Hgen; reflexivity.
Qed.

(** *** At sample data *)

(** A session: connect, authenticate, a heartbeat, a message; the
    transport drops and comes back; the screen sends before the service is
    authenticated again; then [disconnect()] and more calls. *)
Definition sampleSession : list Input :=
  [InConnect (Some "token"%string); OnHeartbeatInterval; OnConnect; OnAuthenticated;
   OnHeartbeatInterval; InSend (CallSendMessage 7 "hi" 1);
   OnDisconnect; OnHeartbeatInterval; OnReconnect; OnHeartbeatInterval;
   InSend (CallStartTyping 7 1);
   InDisconnect; InSend (CallSendMessage 7 "lost" 1); OnHeartbeatInterval; OnConnect].

Example sample_session_traffic :
  emitted (run initial sampleSession)
  = [Authenticate "token"; Heartbeat; MessageSend 7 "hi" 1;
     Authenticate "token"; TypingStart 7 1].
Proof. reflexivity. Qed.

Lemma silent_after_disconnect_witness :
  emitted (run (disconnect (run initial (take 11 sampleSession))) (drop 12 sampleSession))
  = emitted (run initial (take 11 sampleSession)).
Proof. apply silent_after_disconnect. reflexivity. Defined.


End SocketMoreProps.

(** ** What the closures of the conversation list screen hold *)

Module HomeClosureProps.

Import HomeScreen HomeFacts.

(** The render saw neither a sync nor a typing refresh in progress. *)
Definition pristine (r : Render) : Prop :=
  r_isUpdatingConversations r = false /\ r_isRefreshingTyping r = false.

Definition pristineTask (task : Task) : Prop :=
  match task with
  | FollowUpTask r _ | RefreshTask r | FocusSyncTask r | FocusTypingTask r => pristine r
  | SyncTask | ResetTask => True
  end.

Definition pristineRequest (q : Request) : Prop :=
  match q with
  | ReqLoad (FromMount r) => pristine r
  | ReqNewConversation r _ => pristine r
  | ReqLoad FromRefresh | ReqStatus | ReqSync => True
  end.

(** The console lines of the two in-progress guards. *)
Definition guardLine (l : LogLine) : bool :=
  match l with
  | LogUpdateInProgress | LogRefreshInProgress => true
  | _ => false
  end.

(** Every function the screen keeps for later (listeners, interval
    callbacks, the focus callback, timer callbacks, continuations of
    pulls) is of a render that saw both flags cleared, and no guard has
    logged a skip. *)
Record closuresPristine (s : State) : Prop := mkClosuresPristine {
  cp_listeners : Forall pristine (listeners s);
  cp_openedListeners : Forall pristine (openedListeners s);
  cp_intervals : forall r, intervals s = Some r -> pristine r;
  cp_focusRender : pristine (focusRender s);
  cp_timers : Forall (fun x => pristineTask (timer_task x)) (timers s);
  cp_pending : Forall pristineRequest (pending s);
  cp_console : Forall (fun l => guardLine l = false) (console s)
}.

Lemma Forall_filter_keep {A : Type} (P Q : A -> Prop) `{forall x, Decision (Q x)}
    (l : list A) :
  Forall P l -> Forall P (filter Q l).
Proof.
  induction 1 as [|x l Hx _ IH]; [constructor |].
  rewrite filter_cons. destruct (decide (Q x)); [constructor |]; assumption.
Qed.

Ltac cp_fields H :=
  destruct H as [Hl Ho Hi Hf Ht Hp Hc]; constructor; simpl; try assumption.

Lemma cp_log (l : LogLine) (s : State) :
  guardLine l = false -> closuresPristine s -> closuresPristine (log l s).
Proof.
  intros Hg H. cp_fields H. apply Forall_app. split; [assumption |].
  apply Forall_cons. split; [assumption | constructor].
Qed.

Lemma cp_setTimeout (task : Task) (delay : Z) (s : State) :
  pristineTask task -> closuresPristine s ->
  closuresPristine (snd (setTimeout task delay s)).
Proof.
  intros Hg H. cp_fields H. apply Forall_app. split; [assumption |].
  apply Forall_cons. split; [assumption | constructor].
Qed.

Lemma cp_clearTimeout (t : nat) (s : State) :
  closuresPristine s -> closuresPristine (clearTimeout t s).
Proof. intros H. cp_fields H. apply Forall_filter_keep. assumption. Qed.

Lemma cp_clearRef (ref : option nat) (s : State) :
  closuresPristine s -> closuresPristine (clearRef ref s).
Proof. destruct ref; [apply cp_clearTimeout | auto]. Qed.

Lemma cp_getAll (q : Request) (s : State) :
  pristineRequest q -> closuresPristine s -> closuresPristine (getAll q s).
Proof.
  intros Hq H. cp_fields H. apply Forall_app. split; [assumption |].
  apply Forall_cons. split; [assumption | constructor].
Qed.

Lemma cp_setupSocketListeners (r : Render) (s : State) :
  pristine r -> closuresPristine s -> closuresPristine (setupSocketListeners r s).
Proof.
  intros Hr H. cp_fields H; apply Forall_app; (split; [assumption |]);
    repeat (apply Forall_cons; split; [assumption |]); constructor.
Qed.

(** Setting a cell that holds no closure. *)
Lemma cp_cells (s s' : State) :
  listeners s' = listeners s -> openedListeners s' = openedListeners s ->
  intervals s' = intervals s -> focusRender s' = focusRender s ->
  timers s' = timers s -> pending s' = pending s -> console s' = console s ->
  closuresPristine s -> closuresPristine s'.
Proof.
  intros E1 E2 E3 E4 E5 E6 E7 [Hl Ho Hi Hf Ht Hp Hc].
  constructor; rewrite ?E1, ?E2, ?E3, ?E4, ?E5, ?E6, ?E7; assumption.
Qed.

Lemma cp_updateConversationsSilently (r : Render) (s : State) :
  pristine r -> closuresPristine s -> closuresPristine (updateConversationsSilently r s).
Proof.
  intros [Hu _] H. unfold updateConversationsSilently. rewrite Hu.
  apply (cp_cells (snd (setTimeout SyncTask 500 (clearRef (updateTimeoutRef s) s))));
    try reflexivity.
  apply cp_setTimeout; [exact I |]. apply cp_clearRef. exact H.
Qed.

Lemma cp_refreshTypingStatus (r : Render) (s : State) :
  pristine r -> closuresPristine s -> closuresPristine (refreshTypingStatus r s).
Proof.
  intros Hr H. unfold refreshTypingStatus. rewrite (proj2 Hr).
  apply (cp_cells (snd (setTimeout (RefreshTask r) 300
                          (clearRef (typingTimeoutRef s) s))));
    try reflexivity.
  apply cp_setTimeout; [exact Hr |]. apply cp_clearRef. exact H.
Qed.

Lemma cp_listen (e : SocketEvent) (s : State) (r : Render) :
  pristine r -> closuresPristine s -> closuresPristine (listen e s r).
Proof.
  intros Hr H. destruct e as [m|d|d|u|u b]; simpl.
  - unfold onNewMessage. destruct (truthy_num _); [| exact H].
    case_bool_decide; [apply cp_log; [reflexivity | exact H] |].
    apply cp_setTimeout; [exact Hr |].
    match goal with
    | |- closuresPristine (set_lastMessageUpdate ?v ?x) =>
        apply (cp_cells x); try reflexivity
    end.
    unfold checkAndAddNewConversation.
    destruct (findConversation _ _);
      [| apply cp_getAll; [exact Hr |]];
      match goal with
      | |- closuresPristine ?x => apply (cp_cells s); try reflexivity; exact H
      end.
  - unfold onMessageRead. destruct (_ && _).
    + apply (cp_cells s); try reflexivity. exact H.
    + apply cp_log; [reflexivity | exact H].
  - unfold onConversationOpened. destruct (_ && _).
    + apply (cp_cells s); try reflexivity. exact H.
    + apply cp_log; [reflexivity | exact H].
  - unfold onConversationsUpdated. destruct (strict_eq _ _); [| exact H].
    apply cp_updateConversationsSilently; assumption.
  - unfold onUserStatusChange. destruct (truthy_num _); [| exact H].
    apply (cp_cells s); try reflexivity. exact H.
Qed.

Lemma cp_foldl_listen (e : SocketEvent) (ls : list Render) (s : State) :
  Forall pristine ls -> closuresPristine s -> closuresPristine (foldl (listen e) s ls).
Proof.
  intros Hls. revert s. induction Hls as [|r ls Hr _ IH]; intros s H; [exact H |].
  simpl. apply IH. apply cp_listen; assumption.
Qed.

Lemma cp_deliver (e : SocketEvent) (s : State) :
  closuresPristine s -> closuresPristine (deliver e s).
Proof.
  intros H. unfold deliver. apply cp_foldl_listen; [| exact H].
  destruct e; first [apply (cp_listeners s H) | apply (cp_openedListeners s H)].
Qed.

Lemma cp_focusCallback (r : Render) (s : State) :
  pristine r -> closuresPristine s -> closuresPristine (focusCallback r s).
Proof.
  intros Hr H. unfold focusCallback. destruct (r_currentUser r); [| exact H].
  apply cp_setTimeout; [exact Hr |]. apply cp_setTimeout; [exact Hr |].
  apply cp_updateConversationsSilently; assumption.
Qed.

Lemma cp_focusCleanup (s : State) : closuresPristine s -> closuresPristine (focusCleanup s).
Proof.
  intros H. unfold focusCleanup, removeCustomEventListener.
  match goal with
  | |- closuresPristine (set_openedListeners [] ?x) =>
      assert (closuresPristine x) as Hx by (apply cp_clearRef, cp_clearRef, H);
      destruct Hx; constructor; simpl; try assumption; constructor
  end.
Qed.

Lemma cp_runTask (task : Task) (s : State) :
  pristineTask task -> closuresPristine s -> closuresPristine (runTask task s).
Proof.
  intros Htask H. destruct task as [|r now|r| |r|r]; simpl in Htask; cbn [runTask].
  - apply cp_getAll; [exact I |]. apply (cp_cells s); try reflexivity. exact H.
  - destruct (strict_eq _ _); [| exact H].
    apply cp_updateConversationsSilently; assumption.
  - apply (cp_setTimeout ResetTask); [exact I |].
    apply cp_setupSocketListeners; [exact Htask |].
    apply (cp_cells s); try reflexivity. exact H.
  - apply (cp_cells s); try reflexivity. exact H.
  - apply cp_updateConversationsSilently; assumption.
  - apply cp_refreshTypingStatus; assumption.
Qed.

Lemma cp_fire (s : State) (t : nat) : closuresPristine s -> closuresPristine (fire s t).
Proof.
  intros H. unfold fire. destruct (List.find _ _) as [x|] eqn:Hfind; [| exact H].
  apply cp_runTask; [| apply cp_clearTimeout; exact H].
  apply find_some in Hfind. destruct Hfind as [Hin _].
  pose proof (cp_timers s H) as Ht. rewrite Forall_forall in Ht.
  apply Ht, list_elem_of_In, Hin.
Qed.

Lemma cp_tick (s : State) : closuresPristine s -> closuresPristine (tick s).
Proof.
  intros H. unfold tick.
  generalize (map timer_id
                (filter (fun x => timer_due x <= clock (set_clock (clock s + 1) s))
                   (timers (set_clock (clock s + 1) s)))).
  intros ids.
  assert (closuresPristine (set_clock (clock s + 1) s)) as H'
    by (apply (cp_cells s); try reflexivity; exact H).
  revert H'. generalize (set_clock (clock s + 1) s). clear s H.
  induction ids as [|t ids IH]; intros s H; simpl; [exact H |].
  apply IH, cp_fire, H.
Qed.

Lemma cp_complete parseInt (q : Request) (o : PullOutcome) (s : State) :
  pristineRequest q -> closuresPristine s -> closuresPristine (complete parseInt q o s).
Proof.
  intros Hq H.
  assert (forall status,
            closuresPristine
              (log ErrFetching
                 (set_storage (Api.onResponseError status (storage s)) s))) as Hrej.
  { intros status. apply cp_log; [reflexivity |].
    apply (cp_cells s); try reflexivity. exact H. }
  assert (forall r0 x, pristine r0 -> closuresPristine x ->
            closuresPristine
              (set_intervals (Some r0) (setupSocketListeners r0 (set_loading false x))))
    as Hnext.
  { intros r0 x Hr0 Hx.
    pose proof (cp_setupSocketListeners r0 (set_loading false x) Hr0
                  (cp_cells x (set_loading false x) eq_refl eq_refl eq_refl eq_refl
                     eq_refl eq_refl eq_refl Hx))
      as [Hl Ho Hi Hf Ht Hp Hc].
    constructor; simpl in *; try assumption. intros r [= <-]. exact Hr0. }
  destruct q as [[r0|]| | |r0 message], o as [success l | status]; simpl in *.
  - apply Hnext; [exact Hq |].
    destruct success; [| exact H]. apply (cp_cells s); try reflexivity. exact H.
  - apply Hnext; [exact Hq |].
    destruct (strict_eq status (Some 401)).
    + apply (cp_cells (log ErrLoading (log ErrFetching
               (set_storage (Api.onResponseError status (storage s)) s))));
        try reflexivity.
      apply cp_log; [reflexivity | apply Hrej].
    + apply cp_log; [reflexivity | apply Hrej].
  - apply (cp_cells s); try (destruct success; reflexivity). exact H.
  - match goal with
    | |- closuresPristine (set_refreshing _ (set_loading _ ?x)) =>
        apply (cp_cells x); try reflexivity
    end.
    destruct (strict_eq status (Some 401)).
    + apply (cp_cells (log ErrLoading (log ErrFetching
               (set_storage (Api.onResponseError status (storage s)) s))));
        try reflexivity.
      apply cp_log; [reflexivity | apply Hrej].
    + apply cp_log; [reflexivity | apply Hrej].
  - apply (cp_cells s); try (destruct success; reflexivity). exact H.
  - destruct (strict_eq status (Some 401)).
    + apply (cp_cells (log ErrRefreshingStatus (log ErrFetching
               (set_storage (Api.onResponseError status (storage s)) s))));
        try reflexivity.
      apply cp_log; [reflexivity | apply Hrej].
    + apply cp_log; [reflexivity | apply Hrej].
  - apply (cp_cells s); try (destruct success; reflexivity). exact H.
  - match goal with
    | |- closuresPristine (set_isUpdatingConversations _ ?x) =>
        apply (cp_cells x); try reflexivity
    end.
    apply cp_log; [reflexivity | apply Hrej].
  - destruct success; [| exact H].
    destruct (findConversation _ _).
    + apply (cp_cells s); try reflexivity. exact H.
    + apply cp_updateConversationsSilently; assumption.
  - apply cp_log; [reflexivity | apply Hrej].
Qed.

Lemma cp_respond parseInt (i : nat) (o : PullOutcome) (s : State) :
  closuresPristine s -> closuresPristine (respond parseInt i o s).
Proof.
  intros H. unfold respond. destruct (pending s !! i) as [q|] eqn:Hq; [| exact H].
  apply cp_complete.
  - exact (Forall_lookup_1 _ _ _ _ (cp_pending s H) Hq).
  - destruct H as [Hl Ho Hi Hf Ht Hp Hc]. constructor; simpl; try assumption.
    apply Forall_delete. assumption.
Qed.

Lemma cp_step parseInt (e : Event) (s : State) :
  closuresPristine s -> closuresPristine (step parseInt s e).
Proof.
  intros H. destruct e as [e| | | | | | | |i o]; simpl.
  - apply cp_deliver, H.
  - destruct H as [Hl Ho Hi Hf Ht Hp Hc]. constructor; simpl; try assumption; constructor.
  - unfold focus. destruct (focused s); [exact H |].
    apply cp_focusCallback; [apply (cp_focusRender s H) |].
    apply (cp_cells s); try reflexivity. exact H.
  - unfold blur. destruct (focused s); [| exact H].
    apply cp_focusCleanup. apply (cp_cells s); try reflexivity. exact H.
  - unfold onRefresh, loadConversations. apply cp_getAll; [exact I |].
    apply (cp_cells s); try reflexivity. exact H.
  - unfold onStatusInterval. destruct (intervals s) as [r|] eqn:Hr; [| exact H].
    apply cp_refreshTypingStatus; [apply (cp_intervals s H r Hr) |].
    apply cp_getAll; [exact I | exact H].
  - unfold onConversationInterval. destruct (intervals s) as [r|] eqn:Hr; [| exact H].
    apply cp_updateConversationsSilently; [apply (cp_intervals s H r Hr) | exact H].
  - apply cp_tick, H.
  - apply cp_respond, H.
Qed.

Lemma cp_initial (now : Z) (stored : gmap string string) :
  closuresPristine (initial now stored).
Proof.
  constructor; simpl;
    [constructor | constructor | intros r0 [=] | split; reflexivity
    | constructor | constructor | constructor].
Qed.

Lemma cp_mount parseUser (s : State) :
  isUpdatingConversations s = false -> isRefreshingTyping s = false ->
  closuresPristine s -> closuresPristine (mount parseUser s).
Proof.
  intros Hu Hr H. unfold mount.
  assert (forall x, closuresPristine (set_route "/login" x) <-> closuresPristine x) as Hroute.
  { intros x. split; apply cp_cells; reflexivity. }
  destruct (storage s !! "authToken"%string) as [token|]; [| apply Hroute, H].
  destruct (storage s !! "user"%string) as [userData|]; [| apply Hroute, H].
  destruct (truthy_str token && truthy_str userData); [| apply Hroute, H].
  destruct (parseUser userData) as [user|];
    [| apply Hroute, cp_log; [reflexivity | exact H]].
  assert (forall x, isUpdatingConversations x = false -> isRefreshingTyping x = false ->
                    pristine (capture x)) as Hcap.
  { intros x Hx1 Hx2. split; assumption. }
  unfold loadConversations. apply cp_getAll; [apply Hcap; assumption |].
  match goal with
  | |- closuresPristine (set_loading _ ?x) => apply (cp_cells x); try reflexivity
  end.
  unfold rerenderFocus.
  set (s0 := set_currentUser (Some user) s).
  assert (pristine (capture s0)) as Hp by (apply Hcap; assumption).
  assert (closuresPristine (set_focusRender (capture s0) s0)) as H1.
  { destruct H as [Hl Ho Hi Hf Ht Hp' Hc]. constructor; simpl; assumption. }
  destruct (focused (set_focusRender (capture s0) s0)); [| exact H1].
  apply cp_focusCallback; [exact Hp |]. apply cp_focusCleanup. exact H1.
Qed.

(** X22. The in-progress guards never fire. Whatever is stored at the
    start and whatever happens to the mounted screen (socket events, focus
    changes, pull to refresh, interval and timer firings, pull results),
    every function the screen has kept for later (a registered listener,
    an interval callback, the focus callback, a timer callback, the
    continuation of a pull) is of a render in which
    [isUpdatingConversations] and [isRefreshingTyping] were both [false];
    so neither [updateConversationsSilently] nor [refreshTypingStatus] ever
    skips a call, and neither skip line is ever on the console. *)
Theorem guards_never_fire
    (parseInt : string -> option Z) (parseUser : string -> option User)
    (now : Z) (stored : gmap string string) (es : list Event) :
  let s := run parseInt (mount parseUser (initial now stored)) es in
  closuresPristine s
  /\ (LogUpdateInProgress ∉ console s)
  /\ (LogRefreshInProgress ∉ console s)
  /\ (forall r, r ∈ listeners s \/ r ∈ openedListeners s \/ intervals s = Some r
                \/ r = focusRender s ->
      updateConversationsSilently r s <> log LogUpdateInProgress s
      /\ refreshTypingStatus r s <> log LogRefreshInProgress s).
Proof.
  simpl.
  assert (closuresPristine (run parseInt (mount parseUser (initial now stored)) es)) as H.
  { assert (closuresPristine (mount parseUser (initial now stored))) as H0
      by (apply cp_mount; [reflexivity | reflexivity | apply cp_initial]).
    revert H0. generalize (mount parseUser (initial now stored)).
    induction es as [|e es IH]; intros s H; [exact H |].
    simpl. apply IH, cp_step, H. }
  split; [exact H |].
  pose proof (cp_console _ H) as Hc. rewrite Forall_forall in Hc.
  split; [| split].
  - intros Hin. apply Hc in Hin. discriminate.
  - intros Hin. apply Hc in Hin. discriminate.
  - intros r Hr.
    assert (pristine r) as [Hu Ht].
    { destruct Hr as [Hr | [Hr | [Hr | ->]]].
      - pose proof (cp_listeners _ H) as Hl. rewrite Forall_forall in Hl. auto.
      - pose proof (cp_openedListeners _ H) as Hl. rewrite Forall_forall in Hl. auto.
      - apply (cp_intervals _ H r Hr).
      - apply (cp_focusRender _ H). }
    split; intros Heq; apply (f_equal (fun x => length (console x))) in Heq;
      revert Heq; simpl.
    + unfold updateConversationsSilently. rewrite Hu.
      destruct (updateTimeoutRef _); simpl; rewrite length_app; simpl; lia.
    + unfold refreshTypingStatus. rewrite Ht.
      destruct (typingTimeoutRef _); simpl; rewrite length_app; simpl; lia.
Qed.

(** The sample screen while the pull of a silent sync is in flight: the
    server pushes [conversations_updated] for Alice twice more, 600 ms
    apart; two more pulls are started beside the first, and no call has
    been skipped. *)
Example sample_guards_never_fire :
  let s := run Samples.parseInt Samples.syncing
             ([EvSocket (ConversationsUpdated (val 1))] ++ replicate 600 EvTick
              ++ [EvSocket (ConversationsUpdated (val 1))] ++ replicate 600 EvTick) in
  (isUpdatingConversations s, pending s, console s)
  = (true, [ReqSync; ReqSync; ReqSync], []).
Proof. vm_compute. reflexivity. Qed.

(** The sample screen once the pull of the mount effect is answered: the
    listener the mount effect registered is not skipped by either guard. *)
Lemma guards_never_fire_witness :
  let s := run Samples.parseInt
             (mount Samples.parseUser (initial Samples.morning Samples.stored))
             [EvTick; EvResponse 0 (Resolved true [])] in
  Samples.mountRender ∈ listeners s
  /\ updateConversationsSilently Samples.mountRender s <> log LogUpdateInProgress s
  /\ refreshTypingStatus Samples.mountRender s <> log LogRefreshInProgress s.
Proof.
  pose proof (guards_never_fire Samples.parseInt Samples.parseUser Samples.morning
                Samples.stored [EvTick; EvResponse 0 (Resolved true [])]) as H.
  cbv zeta in H. destruct H as (_ & _ & _ & H). cbv zeta.
  assert (Samples.mountRender
          ∈ listeners (run Samples.parseInt
                         (mount Samples.parseUser
                            (initial Samples.morning Samples.stored))
                         [EvTick; EvResponse 0 (Resolved true [])])) as Hin.
  { apply list_elem_of_In. left. reflexivity. }
  split; [exact Hin |]. apply H. left. exact Hin.
Defined.

End HomeClosureProps.
